(** * Code-health dashboard: the aggregation logic, embedded and verified

    Shallow embedding of the arithmetic and grouping code of the dashboard:
    - [ui/utils/codeHealthUtils.tsx]   (module [Utils]),
    - [ui/pages/CodeHealth.tsx]        (module [Page]),
    - the extended [CodeHealth] page   (module [FullPage]),
    - the [CodeHealthHistory] page     (module [HistoryPage]),
    - the [SectionAccordion] component (module [SectionAccordion]).
    The display helpers ([UtilsDisplay], [PageDisplay]), the file cards
    ([FileCard]), the lists of the history page ([HistoryPageLists]), the
    chart ([Chart]) and the Files tab ([FilesTab]) follow; their
    properties are in Part III.

    JavaScript values are modelled as the code uses them: a score is a
    [num] (an integer or NaN), a property that may be missing is an
    [option], an object used as a dictionary is the [gmap] of its own
    properties, read and written through [prop_get] and [prop_set], which
    know the property names every object inherits; an object whose key
    order is observed by [Object.entries] is an association list, and a
    thrown [TypeError] is [None]. *)

From Stdlib Require Import ZArith QArith Qround String Ascii List Sorted Lia.
From stdpp Require Import gmap strings list fin_maps pretty.

Local Open Scope string_scope.
Local Open Scope Z_scope.
Local Open Scope list_scope.

(** ** JavaScript numbers, as far as this program produces them

    Scores are integers far below 2^53, so sums and differences are exact
    and a number is an integer or NaN. *)

Inductive num : Type :=
| Num (z : Z)
| NaN.

Global Instance num_eq_dec : EqDecision num.
Proof. solve_decision. Defined.

(** [ToNumber] of a property read: a missing property reads [undefined],
    which converts to NaN. *)
Definition to_num (v : option Z) : num :=
  match v with
  | Some z => Num z
  | None => NaN
  end.

(** [a + b] and [a - b] on numbers. *)
Definition nadd (a b : num) : num :=
  match a, b with
  | Num x, Num y => Num (x + y)
  | _, _ => NaN
  end.

Definition nsub (a b : num) : num :=
  match a, b with
  | Num x, Num y => Num (x - y)
  | _, _ => NaN
  end.

(** Truthiness of a number: [0] and NaN are falsy. *)
Definition truthy (a : num) : bool :=
  match a with
  | Num z => negb (z =? 0)
  | NaN => false
  end.

(** ** Objects used as dictionaries

    The program keeps its tables in object literals [{}], filled with
    [o[k] = v] and read with [o[k]]. Such an object inherits the members
    of [Object.prototype]: for one of their names a read finds that
    member when the program has stored nothing under the name. *)

(** The property names of [Object.prototype]. *)
Definition Object_prototype : list string :=
  [ "constructor"; "__defineGetter__"; "__defineSetter__";
    "hasOwnProperty"; "__lookupGetter__"; "__lookupSetter__";
    "isPrototypeOf"; "propertyIsEnumerable"; "toString"; "valueOf";
    "__proto__"; "toLocaleString" ].

Definition inherited (k : string) : bool :=
  existsb (String.eqb k) Object_prototype.

(** What [o[k]] gives: a value the program has stored, a member of
    [Object.prototype] (a function; for [__proto__] the prototype
    itself), or [undefined]. *)
Inductive Read (V : Type) : Type :=
| Own (v : V)
| Inherited
| Undefined.

Arguments Own {V} v.
Arguments Inherited {V}.
Arguments Undefined {V}.

(** [o[k]], for an object [o] with the own properties [o]. *)
Definition prop_get {V : Type} (o : gmap string V) (k : string) : Read V :=
  match o !! k with
  | Some v => Own v
  | None => if inherited k then Inherited else Undefined
  end.

(** [o[k] = v] for a number [v]: under [__proto__] the assignment reaches
    the setter of the prototype, which ignores a number; under any other
    name the value becomes a property of [o] itself. *)
Definition prop_set {V : Type} (k : string) (v : V) (o : gmap string V)
  : gmap string V :=
  if String.eqb k "__proto__" then o else <[k := v]> o.

(** A value where the program expects a number: a number, or the member
    of [Object.prototype] that a read has found instead. *)
Inductive jsval : Type :=
| Val (n : num)
| Member.

Coercion Val : num >-> jsval.

(** [ToNumber]: a function or a prototype object converts to NaN. *)
Definition to_number (v : jsval) : num :=
  match v with
  | Val n => n
  | Member => NaN
  end.

(** [o[k] || d]: an object is truthy. *)
Definition or_default (v : Read num) (d : num) : jsval :=
  match v with
  | Own a => if truthy a then Val a else Val d
  | Inherited => Member
  | Undefined => Val d
  end.

(** [v || d] for a value [v]. *)
Definition val_or (v : jsval) (d : num) : jsval :=
  match v with
  | Val a => if truthy a then Val a else Val d
  | Member => Member
  end.

(** What [sum + v] leaves in the accumulator of a [reduce] that starts
    from 0: a number while numbers are added; adding a function or an
    object appends its text to the digits, and every later [+] appends to
    that string. *)
Inductive Sum : Type :=
| SumNum (n : num)
| SumText.

Definition sum_add (s : Sum) (v : jsval) : Sum :=
  match s, v with
  | SumNum a, Val b => SumNum (nadd a b)
  | _, _ => SumText
  end.

(** [Math.round]: the nearest integer, a tie going towards +infinity. *)
Definition Math_round (q : Q) : Z := Qfloor (q + (1 # 2)).

(** [Math.round(s / d)] for an integer-or-NaN [s] and an integer [d].
    The only division by zero the program performs is [0 / 0], which is
    NaN; the quotient of two integers is taken exactly. *)
Definition round_quot (s : num) (d : Z) : num :=
  match s with
  | NaN => NaN
  | Num z => if d =? 0 then NaN else Num (Math_round (inject_Z z / inject_Z d))
  end.

(** [Math.round(sum / d)] for the accumulator of a [reduce]: the string
    left by the addition of an object is no numeral, and divides to NaN. *)
Definition sum_round_quot (s : Sum) (d : Z) : num :=
  match s with
  | SumNum a => round_quot a d
  | SumText => NaN
  end.

(** ** The data model ([HealthHistoryEntry] and its parts) *)

Record FileMetrics : Type := mkFile {
  filepath : string;
  size_score : option Z;
  complexity_score : option Z;
  duplication_score : option Z;
  function_length_score : option Z;
  comment_density_score : option Z;
  naming_convention_score : option Z;
  issues : list string
}.

Record Component : Type := mkComponent {
  name : string;
  component_score : Z;
  files : list FileMetrics;
  component_issues : list string
}.

Record Results : Type := mkResults {
  overall_score : Z;
  components : list Component;
  recommendations : list string
}.

Record HealthHistoryEntry : Type := mkEntry {
  timestamp : Z;
  date : string;
  results : Results
}.

(** The six sub-scores of a file, in the order the code adds them. *)
Definition sub_scores (f : FileMetrics) : list (option Z) :=
  [ size_score f; complexity_score f; duplication_score f;
    function_length_score f; comment_density_score f;
    naming_convention_score f ].

(** A file as the data model describes it: every sub-score present and an
    integer of [0,100]. *)
Definition in_range (v : option Z) : Prop :=
  exists z, v = Some z /\ 0 <= z <= 100.

Definition valid_file (f : FileMetrics) : Prop :=
  Forall in_range (sub_scores f).

(** The sum of the six sub-scores of a file whose sub-scores are present
    (a missing one counts as 0 here). *)
Definition score_sum (f : FileMetrics) : Z :=
  fold_right (fun v acc => default 0 v + acc) 0 (sub_scores f).

(** ** Strings

    A string is read as its sequence of code units ([chars]); the paths
    the dashboard receives are taken to hold code units below 256. *)

Definition chars (s : string) : list ascii := list_ascii_of_string s.

(** [l] starts with [p]. *)
Fixpoint starts_with (p l : list ascii) : bool :=
  match p, l with
  | [], _ => true
  | _ :: _, [] => false
  | a :: p', b :: l' => if Ascii.eqb a b then starts_with p' l' else false
  end.

(** [String.prototype.includes] on code-unit sequences. *)
Fixpoint includes_chars (l sub : list ascii) : bool :=
  starts_with sub l ||
  match l with
  | [] => false
  | _ :: l' => includes_chars l' sub
  end.

Definition includes (s sub : string) : bool :=
  includes_chars (chars s) (chars sub).

(** [s.replace(/^\/+/, '')]: drop every leading slash. *)
Fixpoint strip_leading_slashes (l : list ascii) : list ascii :=
  match l with
  | c :: l' => if Ascii.eqb c "/" then strip_leading_slashes l' else l
  | [] => []
  end.

(** ** Regular expressions, for the three patterns the code matches *)

Inductive regex : Type :=
| Void
| Eps
| Chr (p : ascii -> bool)
| Cat (r1 r2 : regex)
| Alt (r1 r2 : regex)
| Star (r : regex).

Fixpoint nullable (r : regex) : bool :=
  match r with
  | Void => false
  | Eps => true
  | Chr _ => false
  | Cat r1 r2 => nullable r1 && nullable r2
  | Alt r1 r2 => nullable r1 || nullable r2
  | Star _ => true
  end.

(** The derivative of [r] by the character [c]. *)
Fixpoint deriv (c : ascii) (r : regex) : regex :=
  match r with
  | Void => Void
  | Eps => Void
  | Chr p => if p c then Eps else Void
  | Cat r1 r2 =>
      if nullable r1
      then Alt (Cat (deriv c r1) r2) (deriv c r2)
      else Cat (deriv c r1) r2
  | Alt r1 r2 => Alt (deriv c r1) (deriv c r2)
  | Star r0 => Cat (deriv c r0) (Star r0)
  end.

(** [r] matches the whole of [l]. *)
Fixpoint matches (r : regex) (l : list ascii) : bool :=
  match l with
  | [] => nullable r
  | c :: l' => matches (deriv c r) l'
  end.

(** The literal [s]. *)
Fixpoint lit_chars (l : list ascii) : regex :=
  match l with
  | [] => Eps
  | c :: l' => Cat (Chr (Ascii.eqb c)) (lit_chars l')
  end.

Definition lit (s : string) : regex := lit_chars (chars s).

(** [r+] *)
Definition plus (r : regex) : regex := Cat r (Star r).

(** Any code unit at all. *)
Definition any_char : regex := Chr (fun _ => true).

(** [[^\/]] *)
Definition not_slash : regex := Chr (fun c => negb (Ascii.eqb c "/")).

(** [.]: any code unit but a line terminator. *)
Definition dot : regex :=
  Chr (fun c => negb (Ascii.eqb c "010" || Ascii.eqb c "013")).

(** [s.match(r)] is truthy: [r] matches some substring of [s]. *)
Definition regex_found (r : regex) (l : list ascii) : bool :=
  matches (Cat (Star any_char) (Cat r (Star any_char))) l.

(** [/apis\/[^\/]+\/__init__.py/] *)
Definition re_apis_init : regex :=
  Cat (lit "apis/") (Cat (plus not_slash)
    (Cat (lit "/__init__") (Cat dot (lit "py")))).

(** [/apis\/[^\/]+\/.*\.py/] *)
Definition re_apis_py : regex :=
  Cat (lit "apis/") (Cat (plus not_slash)
    (Cat (lit "/") (Cat (Star dot) (lit ".py")))).

(** [/api\/[^\/]+/] *)
Definition re_api_segment : regex :=
  Cat (lit "api/") (plus not_slash).

(** The denotation of a regular expression. *)
Inductive lang : regex -> list ascii -> Prop :=
| lang_eps : lang Eps []
| lang_chr p c : p c = true -> lang (Chr p) [c]
| lang_cat r1 r2 l1 l2 : lang r1 l1 -> lang r2 l2 -> lang (Cat r1 r2) (l1 ++ l2)
| lang_alt_l r1 r2 l : lang r1 l -> lang (Alt r1 r2) l
| lang_alt_r r1 r2 l : lang r2 l -> lang (Alt r1 r2) l
| lang_star_nil r : lang (Star r) []
| lang_star_cons r l1 l2 :
    lang r l1 -> lang (Star r) l2 -> lang (Star r) (l1 ++ l2).

(** [sub] occurs in [l]. *)
Definition contains (l sub : list ascii) : Prop :=
  exists pre post, l = pre ++ sub ++ post.

(** Some substring of [l] is in the language of [r]. *)
Definition found (r : regex) (l : list ascii) : Prop :=
  exists pre m post, l = pre ++ m ++ post /\ lang r m.

(** ** The five category labels *)

Definition labels : list string :=
  [ "Pages"; "Components"; "UI Files"; "API Files"; "Other" ].

(** ** Derived views *)

(** The [details] object attached to every processed file. *)
Record Details : Type := mkDetails {
  size : option Z;
  complexity : option Z;
  duplication : option Z;
  function_length : option Z;
  comment_density : option Z;
  naming_convention : option Z
}.

Definition details_of (file : FileMetrics) : Details :=
  {| size := size_score file;
     complexity := complexity_score file;
     duplication := duplication_score file;
     function_length := function_length_score file;
     comment_density := comment_density_score file;
     naming_convention := naming_convention_score file |}.

(** A processed file. [spread] holds the properties copied by [...file]
    where the code spreads the file, [component] the owning component's
    name where the code attaches it. *)
Record FileInfo : Type := mkFileInfo {
  spread : option FileMetrics;
  info_filepath : string;
  score : num;
  previousScore : jsval;
  scoreChange : num;
  info_issues : list string;
  component : option string;
  details : Details
}.

Definition with_component (c : string) (fi : FileInfo) : FileInfo :=
  {| spread := spread fi;
     info_filepath := info_filepath fi;
     score := score fi;
     previousScore := previousScore fi;
     scoreChange := scoreChange fi;
     info_issues := info_issues fi;
     component := Some c;
     details := details fi |}.

(** The object [allFiles]: category name to array, in insertion order. *)
Definition Buckets : Type := list (string * list FileInfo).

Definition emptyBuckets : Buckets :=
  [ ("Pages", []); ("Components", []); ("UI Files", []);
    ("API Files", []); ("Other", []) ].

(** [o[category].push(x)]; reading a missing key gives [undefined], whose
    [push] throws. *)
Fixpoint push_to (category : string) (x : FileInfo) (o : Buckets)
  : option Buckets :=
  match o with
  | [] => None
  | (k, v) :: o' =>
      if String.eqb k category then Some ((k, v ++ [x]) :: o')
      else match push_to category x o' with
           | Some o'' => Some ((k, v) :: o'')
           | None => None
           end
  end.

(** [l.forEach(f)] for a body that updates a state and may throw. *)
Fixpoint forEach {A S : Type} (f : S -> A -> option S) (l : list A) (s : S)
  : option S :=
  match l with
  | [] => Some s
  | x :: l' =>
      match f s x with
      | Some s' => forEach f l' s'
      | None => None
      end
  end.

(** The sign test [Array.prototype.sort] applies to what the comparator
    returns: NaN counts as 0. *)
Definition is_negative (v : num) : bool :=
  match v with
  | Num z => z <? 0
  | NaN => false
  end.

Definition is_positive (v : num) : bool :=
  match v with
  | Num z => 0 <? z
  | NaN => false
  end.

(** [l.sort(cmp)]: a stable sort. With a consistent comparator the result
    of a stable sort is determined, and insertion from the right computes
    it; each element is placed before the first one that is not smaller.
    A comparator that returns NaN for some pair (a score that is NaN) is
    not consistent, and the order an engine then produces is its own: what
    is proved of the order is proved for numeric keys, and for any keys
    only that the result is a rearrangement. *)
Fixpoint insert_by {A : Type} (cmp : A -> A -> num) (x : A) (l : list A)
  : list A :=
  match l with
  | [] => [x]
  | y :: l' =>
      if is_negative (cmp y x) then y :: insert_by cmp x l'
      else x :: y :: l'
  end.

Definition sort_by {A : Type} (cmp : A -> A -> num) (l : list A) : list A :=
  fold_right (insert_by cmp) [] l.

(** [(a, b) => a.score - b.score] *)
Definition by_score (a b : FileInfo) : num := nsub (score a) (score b).

(** [Object.keys(allFiles).forEach(key => allFiles[key].sort(...))] *)
Definition sort_buckets (o : Buckets) : Buckets :=
  map (fun kv => (fst kv, sort_by by_score (snd kv))) o.

(** [healthHistory[healthHistory.length - 1]] and the entry before it. *)
Definition latest_of (healthHistory : list HealthHistoryEntry)
  : option HealthHistoryEntry :=
  healthHistory !! (length healthHistory - 1)%nat.

Definition previous_of (healthHistory : list HealthHistoryEntry)
  : option HealthHistoryEntry :=
  if (1 <? length healthHistory)%nat
  then healthHistory !! (length healthHistory - 2)%nat
  else None.

Inductive Direction : Type := up | down | neutral.

Record Trend : Type := mkTrend {
  trend : Direction;
  change : num
}.

(** [scores[i]] used as a number. *)
Definition read_num (scores : list num) (i : nat) : num :=
  default NaN (scores !! i).

(** The code shared by the two [CodeHealth] pages, over the page's own
    [calculateFileAvgScore] and [categorizeFileByPath]. *)
Module PageBody.

Section Body.

Variable calculateFileAvgScore : FileMetrics -> num.
Variable categorizeFileByPath : string -> string.

(** The loop filling [previousScores]. *)
Definition previousScoresOf (previousEntry : option HealthHistoryEntry)
  : gmap string num :=
  match previousEntry with
  | Some e =>
      foldl (fun m component =>
               foldl (fun m file =>
                        prop_set (filepath file)
                                 (calculateFileAvgScore file) m)
                     m (files component))
            ∅ (components (results e))
  | None => ∅
  end.

Definition fileInfoOf (previousScores : gmap string num)
    (component : Component) (file : FileMetrics) : FileInfo :=
  let avgScore := calculateFileAvgScore file in
  let previousScore :=
    or_default (prop_get previousScores (filepath file)) avgScore in
  let scoreChange := nsub avgScore (to_number previousScore) in
  {| spread := Some file;
     info_filepath := filepath file;
     score := avgScore;
     previousScore := previousScore;
     scoreChange := scoreChange;
     info_issues := issues file;
     component := Some (name component);
     details := details_of file |}.

Definition getFilesGroupedByType (healthHistory : list HealthHistoryEntry)
  : option Buckets :=
  if (length healthHistory =? 0)%nat then Some []
  else
    match latest_of healthHistory with
    | None => None
    | Some latestEntry =>
        let previousEntry := previous_of healthHistory in
        let allFiles := emptyBuckets in
        let previousScores := previousScoresOf previousEntry in
        match
          forEach (fun allFiles component =>
            forEach (fun allFiles file =>
              let fileInfo := fileInfoOf previousScores component file in
              let category := categorizeFileByPath (filepath file) in
              push_to category fileInfo allFiles)
            (files component) allFiles)
          (components (results latestEntry)) allFiles
        with
        | Some allFiles => Some (sort_buckets allFiles)
        | None => None
        end
    end.

(** The body of the innermost loop filling [fileScores]. An array is
    truthy; an inherited member is truthy too, so nothing is stored for
    its name (which is why the assignment of the new array never meets
    [__proto__]), and calling its [push], which is [undefined], throws a
    [TypeError]. *)
Definition recordScore (m : gmap string (list num)) (file : FileMetrics)
  : option (gmap string (list num)) :=
  let filepath := filepath file in
  let score := calculateFileAvgScore file in
  let m :=
    match prop_get m filepath with
    | Undefined => <[filepath := []]> m
    | _ => m
    end in
  match prop_get m filepath with
  | Own scores => Some (<[filepath := scores ++ [score]]> m)
  | _ => None
  end.

(** The loop filling [fileScores]. *)
Definition fileScoresOf (healthHistory : list HealthHistoryEntry)
  : option (gmap string (list num)) :=
  forEach (fun m entry =>
    forEach (fun m component =>
      forEach recordScore (files component) m)
    (components (results entry)) m)
  healthHistory ∅.

Definition trendOf (scores : list num) : option Trend :=
  if (1 <? length scores)%nat then
    let firstScore := read_num scores 0 in
    let latestScore := read_num scores (length scores - 1) in
    let change := nsub latestScore firstScore in
    Some {| trend := if is_positive change then up
                     else if is_negative change then down
                     else neutral;
            change := change |}
  else None.

(** The second loop runs over [Object.keys(fileScores)], the names the
    first has stored, and stores a trend under a name that has an array
    of more than one score. *)
Definition calculateFileTrends (healthHistory : list HealthHistoryEntry)
  : option (gmap string Trend) :=
  if (length healthHistory <=? 1)%nat then Some ∅
  else
    match fileScoresOf healthHistory with
    | Some fileScores => Some (omap trendOf fileScores)
    | None => None
    end.

(** One accordion item of the overview tab. *)
Record OverviewItem : Type := mkOverviewItem {
  ov_section : string;
  ov_avgScore : num;
  ov_files : list FileInfo
}.

(** [Object.entries(groupedFiles).map(...)] of the overview tab; [None]
    is the [null] React leaves out. *)
Definition renderOverview (groupedFiles : Buckets)
  : list (option OverviewItem) :=
  map (fun kv =>
         let section := fst kv in
         let files := snd kv in
         if (length files =? 0)%nat then None
         else
           let sectionAvgScore :=
             round_quot
               (fold_left (fun sum file => nadd sum (score file))
                          files (Num 0))
               (Z.of_nat (length files)) in
           Some {| ov_section := section;
                   ov_avgScore := sectionAvgScore;
                   ov_files := files |})
      groupedFiles.

End Body.
End PageBody.

(** ** [ui/utils/codeHealthUtils.tsx] *)

Module Utils.

Definition calculateFileAvgScore (file : FileMetrics) : num :=
  round_quot
    (nadd (nadd (nadd (nadd (nadd
       (to_num (size_score file))
       (to_num (complexity_score file)))
       (to_num (duplication_score file)))
       (to_num (function_length_score file)))
       (to_num (comment_density_score file)))
       (to_num (naming_convention_score file)))
    6.

Definition categorizeFileByPath (filepath : string) : string :=
  if includes filepath "/pages/" then "Pages"
  else if includes filepath "/components/" then "Components"
  else if includes filepath "/utils/" || includes filepath "/src/utils/"
  then "UI Files"
  else if includes filepath "/apis/" || includes filepath "/api/"
  then "API Files"
  else "Other".

Definition previousScoresOf (previousFiles : option (list FileMetrics))
  : gmap string num :=
  match previousFiles with
  | Some previousFiles =>
      foldl (fun m file =>
               let avgScore := calculateFileAvgScore file in
               prop_set (filepath file) avgScore m)
            ∅ previousFiles
  | None => ∅
  end.

Definition processFilesData (currentFiles : list FileMetrics)
    (previousFiles : option (list FileMetrics)) : list FileInfo :=
  let previousScores := previousScoresOf previousFiles in
  map (fun file =>
         let avgScore := calculateFileAvgScore file in
         let previousScore :=
           or_default (prop_get previousScores (filepath file)) avgScore in
         let scoreChange := nsub avgScore (to_number previousScore) in
         {| spread := None;
            info_filepath := filepath file;
            score := avgScore;
            previousScore := previousScore;
            scoreChange := scoreChange;
            info_issues := issues file;
            component := None;
            details := details_of file |})
      currentFiles.

End Utils.

(** ** [ui/pages/CodeHealth.tsx] *)

Module Page.

Definition calculateFileAvgScore (file : FileMetrics) : num :=
  round_quot
    (nadd (nadd (nadd (nadd (nadd
       (to_num (size_score file))
       (to_num (complexity_score file)))
       (to_num (duplication_score file)))
       (to_num (function_length_score file)))
       (to_num (comment_density_score file)))
       (to_num (naming_convention_score file)))
    6.

Definition categorizeFileByPath (filepath : string) : string :=
  if includes filepath "/pages/" then "Pages"
  else if includes filepath "/components/" then "Components"
  else if includes filepath "/utils/" || includes filepath "/src/utils/"
  then "UI Files"
  else if includes filepath "/apis/" || includes filepath "/api/"
          || includes filepath "src/app/apis/"
  then "API Files"
  else "Other".

Definition calculateFileTrends :=
  PageBody.calculateFileTrends calculateFileAvgScore.

Definition getFilesGroupedByType :=
  PageBody.getFilesGroupedByType calculateFileAvgScore categorizeFileByPath.

Definition renderOverview := PageBody.renderOverview.

End Page.

(** ** The extended [CodeHealth] page *)

Module FullPage.

(** [x || 0] on a sub-score read. *)
Definition or0 (v : option Z) : num :=
  match v with
  | Some z => if z =? 0 then Num 0 else Num z
  | None => Num 0
  end.

Definition calculateFileAvgScore (file : FileMetrics) : num :=
  let scores := [ or0 (size_score file);
                  or0 (complexity_score file);
                  or0 (duplication_score file);
                  or0 (function_length_score file);
                  or0 (comment_density_score file);
                  or0 (naming_convention_score file) ] in
  round_quot (fold_left nadd scores (Num 0)) (Z.of_nat (length scores)).

Definition normalizedPath (filepath : string) : list ascii :=
  strip_leading_slashes (chars filepath).

(** The condition of the first [if]: any of the API patterns. *)
Definition is_api (n : list ascii) : bool :=
  includes_chars n (chars "app/apis/")
  || includes_chars n (chars "src/app/apis/")
  || includes_chars n (chars "apis/")
  || regex_found re_apis_init n
  || regex_found re_apis_py n
  || regex_found re_api_segment n
  || includes_chars n (chars "/api/").

(** The two [console.log] calls write to the console only and are left
    out. *)
Definition categorizeFileByPath (filepath : string) : string :=
  let n := normalizedPath filepath in
  if is_api n then "API Files"
  else if includes_chars n (chars "/pages/") then "Pages"
  else if includes_chars n (chars "/components/") then "Components"
  else if includes_chars n (chars "/utils/")
          || includes_chars n (chars "/src/utils/")
  then "UI Files"
  else "Other".

(** The page's [calculateFileTrends] and [getFilesGroupedByType] read as
    in [ui/pages/CodeHealth.tsx] (the latter with one more
    [console.log]). *)
Definition calculateFileTrends :=
  PageBody.calculateFileTrends calculateFileAvgScore.

Definition getFilesGroupedByType :=
  PageBody.getFilesGroupedByType calculateFileAvgScore categorizeFileByPath.

Definition renderOverview := PageBody.renderOverview.

End FullPage.

(** ** The [CodeHealthHistory] page *)

Module HistoryPage.

Definition getFilesGroupedByType (healthHistory : list HealthHistoryEntry)
  : option Buckets :=
  if (length healthHistory =? 0)%nat then Some []
  else
    match latest_of healthHistory with
    | None => None
    | Some latestEntry =>
        let previousEntry := previous_of healthHistory in
        let allFiles := emptyBuckets in
        let previousFiles :=
          match previousEntry with
          | Some e => flat_map files (components (results e))
          | None => []
          end in
        let processedFiles :=
          flat_map (fun component =>
                      map (with_component (name component))
                          (Utils.processFilesData (files component)
                                                  (Some previousFiles)))
                   (components (results latestEntry)) in
        match
          forEach (fun allFiles fileInfo =>
                     let category :=
                       Utils.categorizeFileByPath (info_filepath fileInfo) in
                     push_to category fileInfo allFiles)
                  processedFiles allFiles
        with
        | Some allFiles => Some (sort_buckets allFiles)
        | None => None
        end
    end.

End HistoryPage.

(** ** The [SectionAccordion] component *)

Module SectionAccordion.

Record Item : Type := mkItem {
  section : string;
  count : nat;
  sectionAvgScore : num;
  sectionAvgPrevScore : num;
  sectionScoreChange : num;
  item_files : list FileInfo
}.

Definition avgScoreOf (files : list FileInfo) : num :=
  round_quot
    (fold_left (fun sum file => nadd sum (score file)) files (Num 0))
    (Z.of_nat (length files)).

Definition avgPrevScoreOf (files : list FileInfo) : num :=
  sum_round_quot
    (fold_left (fun sum file =>
                  sum_add sum (val_or (previousScore file) (score file)))
               files (SumNum (Num 0)))
    (Z.of_nat (length files)).

(** The body of the [map] callback; [None] is the [null] React leaves
    out. *)
Definition renderSection (entry : string * list FileInfo) : option Item :=
  let section := fst entry in
  let files := snd entry in
  if (length files =? 0)%nat then None
  else
    let sectionAvgScore := avgScoreOf files in
    let sectionAvgPrevScore := avgPrevScoreOf files in
    let sectionScoreChange := nsub sectionAvgScore sectionAvgPrevScore in
    Some {| section := section;
            count := length files;
            sectionAvgScore := sectionAvgScore;
            sectionAvgPrevScore := sectionAvgPrevScore;
            sectionScoreChange := sectionScoreChange;
            item_files := files |}.

Definition render (sections : Buckets) : list (option Item) :=
  map renderSection sections.

(** What reaches the screen: the items that are not [null]. *)
Definition shown (sections : Buckets) : list Item :=
  omap id (render sections).

End SectionAccordion.

(** The number that [file.previousScore || file.score] adds. *)
Definition previous_or_score (fi : FileInfo) : num :=
  to_number (val_or (previousScore fi) (score fi)).

(** ** The categorisation rule in the specification's words

    The precedence list of the specification, read over a path [n]: an
    API-indicating pattern first, then [/pages/], [/components/],
    [/utils/] or [/src/utils/], and [Other] for the rest. *)

Definition api_pattern (n : list ascii) : Prop :=
  contains n (chars "app/apis/")
  \/ contains n (chars "src/app/apis/")
  \/ contains n (chars "apis/")
  \/ (exists pre c post, n = pre ++ chars "api/" ++ c :: post /\ c <> "/"%char)
  \/ contains n (chars "/api/")
  \/ found re_apis_init n
  \/ found re_apis_py n.

Inductive category_of (n : list ascii) : string -> Prop :=
| category_api :
    api_pattern n -> category_of n "API Files"
| category_pages :
    ~ api_pattern n ->
    contains n (chars "/pages/") -> category_of n "Pages"
| category_components :
    ~ api_pattern n ->
    ~ contains n (chars "/pages/") ->
    contains n (chars "/components/") -> category_of n "Components"
| category_ui :
    ~ api_pattern n ->
    ~ contains n (chars "/pages/") ->
    ~ contains n (chars "/components/") ->
    contains n (chars "/utils/") \/ contains n (chars "/src/utils/") ->
    category_of n "UI Files"
| category_other :
    ~ api_pattern n ->
    ~ contains n (chars "/pages/") ->
    ~ contains n (chars "/components/") ->
    ~ (contains n (chars "/utils/") \/ contains n (chars "/src/utils/")) ->
    category_of n "Other".

(** ** Vocabulary for the statements about grouping *)

(** The file entries of the latest and of the preceding snapshot, over
    all their components, in order. *)
Definition latest_files (healthHistory : list HealthHistoryEntry)
  : list FileMetrics :=
  match latest_of healthHistory with
  | Some e => flat_map files (components (results e))
  | None => []
  end.

Definition previous_files (healthHistory : list HealthHistoryEntry)
  : list FileMetrics :=
  match previous_of healthHistory with
  | Some e => flat_map files (components (results e))
  | None => []
  end.

(** The bucket of every label: the processed files of that category, in
    the order they were processed. *)
Definition group (cat : string -> string) (infos : list FileInfo) : Buckets :=
  map (fun k =>
         (k, List.filter (fun fi => String.eqb k (cat (info_filepath fi)))
                         infos))
      labels.

(** Two neighbours of a bucket are in ascending order of score. *)
Definition score_le (a b : FileInfo) : Prop :=
  exists x y, score a = Num x /\ score b = Num y /\ x <= y.

Definition ascending (l : list FileInfo) : Prop :=
  forall (i : nat) (a b : FileInfo),
    l !! i = Some a -> l !! S i = Some b -> score_le a b.

(** The number of files over all buckets. *)
Definition total_size (o : Buckets) : nat :=
  length (concat (map snd o)).

(** A processed file whose score is a number. *)
Definition has_score (fi : FileInfo) : Prop := exists z, score fi = Num z.

(** The processed files of the latest snapshot, in the order the two
    [CodeHealth] pages produce them. *)
Definition page_infos (calc : FileMetrics -> num)
    (healthHistory : list HealthHistoryEntry) : list FileInfo :=
  match latest_of healthHistory with
  | Some latestEntry =>
      flat_map (fun component =>
                  map (PageBody.fileInfoOf calc
                         (PageBody.previousScoresOf calc
                            (previous_of healthHistory))
                         component)
                      (files component))
               (components (results latestEntry))
  | None => []
  end.

(** The same for the [CodeHealthHistory] page. *)
Definition history_infos (healthHistory : list HealthHistoryEntry)
  : list FileInfo :=
  match latest_of healthHistory with
  | Some latestEntry =>
      flat_map (fun component =>
                  map (with_component (name component))
                      (Utils.processFilesData
                         (files component)
                         (Some (previous_files healthHistory))))
               (components (results latestEntry))
  | None => []
  end.

(** The index of composite scores by filepath that both variants build
    from the files of the preceding snapshot: a later file with the same
    path overwrites an earlier one. *)
Definition score_index (calc : FileMetrics -> num) (l : list FileMetrics)
  : gmap string num :=
  foldl (fun m file => prop_set (filepath file) (calc file) m) ∅ l.

(** ** Sample data *)

(** A file whose six sub-scores are all [s]. *)
Definition uniform_file (path : string) (s : Z) : FileMetrics :=
  mkFile path (Some s) (Some s) (Some s) (Some s) (Some s) (Some s) [].

(** A snapshot with one component. *)
Definition snapshot (t : Z) (l : list FileMetrics) : HealthHistoryEntry :=
  mkEntry t "" (mkResults 0 [mkComponent "UI" 0 l []] []).

(** The scores a view shows: current, previous, change. *)
Definition shown_scores (fi : FileInfo) : num * jsval * num :=
  (score fi, previousScore fi, scoreChange fi).

Definition bucket_scores (o : Buckets)
  : list (string * list (num * jsval * num)) :=
  map (fun kv => (fst kv, map shown_scores (snd kv))) o.

(** Two snapshots: [A.tsx] is in both, [B.tsx] is new in the second. *)
Definition sample_component : Component :=
  mkComponent "UI" 0
    [ uniform_file "ui/pages/A.tsx" 90; uniform_file "ui/pages/B.tsx" 70 ] [].

Definition sample_latest : HealthHistoryEntry :=
  mkEntry 2 "" (mkResults 0 [sample_component] []).

Definition sample_history : list HealthHistoryEntry :=
  [ snapshot 1 [uniform_file "ui/pages/A.tsx" 80]; sample_latest ].

(** Two snapshots of one file: every sub-score 0, then every sub-score 50. *)
Definition zero_then_fifty : list HealthHistoryEntry :=
  [ snapshot 1 [uniform_file "ui/pages/A.tsx" 0];
    snapshot 2 [uniform_file "ui/pages/A.tsx" 50] ].

(** ** Vocabulary for the statements about trends *)

(** Every file entry of the history: snapshot by snapshot, component by
    component. *)
Definition all_files (healthHistory : list HealthHistoryEntry)
  : list FileMetrics :=
  flat_map (fun entry => flat_map files (components (results entry)))
           healthHistory.

(** The scores observed for a filepath: one for each of its file entries,
    in that order. *)
Definition observations (calc : FileMetrics -> num) (path : string)
    (healthHistory : list HealthHistoryEntry) : list num :=
  map calc
      (List.filter (fun f => String.eqb (filepath f) path)
                   (all_files healthHistory)).

(** What [recordScore] stores for a file under a path that is no property
    name of [Object.prototype]: the file's score, after the scores
    collected for the path so far. *)
Definition recorded (calc : FileMetrics -> num)
    (m : gmap string (list num)) (f : FileMetrics)
  : gmap string (list num) :=
  <[filepath f := default [] (m !! filepath f) ++ [calc f]]> m.

(** The number of snapshots in which a filepath appears. *)
Definition snapshots_with (path : string)
    (healthHistory : list HealthHistoryEntry) : nat :=
  length
    (List.filter
       (fun entry =>
          existsb (fun f => String.eqb (filepath f) path)
                  (flat_map files (components (results entry))))
       healthHistory).

(** The direction of a change. *)
Definition direction_of (z : Z) : Direction :=
  if 0 <? z then up else if z <? 0 then down else neutral.

(** A snapshot in which two components list the same file, followed by a
    snapshot that does not hold the file. *)
Definition listed_twice : list HealthHistoryEntry :=
  [ mkEntry 1 ""
      (mkResults 0
         [ mkComponent "UI" 0 [uniform_file "ui/utils/x.ts" 60] [];
           mkComponent "Shared" 0 [uniform_file "ui/utils/x.ts" 70] [] ]
         []);
    snapshot 2 [uniform_file "ui/pages/A.tsx" 50] ].

(** A file whose [size_score] is missing, and one with the spec's
    sub-scores 100, 100, 100, 100, 100, 99. *)
Definition file_without_size : FileMetrics :=
  mkFile "ui/pages/A.tsx" None (Some 90) (Some 90) (Some 90) (Some 90)
         (Some 90) [].

Definition file_nearly_full : FileMetrics :=
  mkFile "ui/pages/A.tsx" (Some 100) (Some 100) (Some 100) (Some 100)
         (Some 100) (Some 99) [].

(** * Part I, continued: the display helpers and the remaining callers *)

(** ** More of JavaScript *)

(** [v < z] for a number [v]: false for NaN. *)
Definition less_than (v : num) (z : Z) : bool :=
  match v with
  | Num x => x <? z
  | NaN => false
  end.

(** [v >= z] for a number [v]: false for NaN. *)
Definition at_least (v : num) (z : Z) : bool :=
  match v with
  | Num x => z <=? x
  | NaN => false
  end.

(** The string a number is interpolated as: for an integer below 10^21 in
    absolute value, its decimal numeral (from 10^21 on JavaScript writes
    an exponent; the theorems that read the digits stay below). *)
Definition show (v : num) : string :=
  match v with
  | Num z => pretty z
  | NaN => "NaN"
  end.

(** [l.slice(start, end)], with negative indices counted from the end. *)
Definition slice {A : Type} (start finish : Z) (l : list A) : list A :=
  let len := Z.of_nat (length l) in
  let k := if start <? 0 then Z.max (len + start) 0 else Z.min start len in
  let final :=
    if finish <? 0 then Z.max (len + finish) 0 else Z.min finish len in
  take (Z.to_nat (final - k)) (drop (Z.to_nat k) l).

(** [s.split("/")]: the segments between the slashes; never empty. *)
Fixpoint split_slash (l : list ascii) : list (list ascii) :=
  match l with
  | [] => [[]]
  | c :: l' =>
      if Ascii.eqb c "/" then [] :: split_slash l'
      else match split_slash l' with
           | seg :: rest => (c :: seg) :: rest
           | [] => [[c]]
           end
  end.

(** [a.join("/")] *)
Fixpoint join_slash (segs : list (list ascii)) : list ascii :=
  match segs with
  | [] => []
  | [seg] => seg
  | seg :: rest => seg ++ "/"%char :: join_slash rest
  end.

(** [a.pop()] as a value: the last element, [undefined] on the empty
    array. *)
Definition pop {A : Type} (l : list A) : option A := last l.

(** [c.toLowerCase()] on a code unit below 256: A-Z and the Latin-1
    capitals (all of C0-DE but the multiplication sign D7) move up by 32. *)
Definition lower_char (c : ascii) : ascii :=
  let n := nat_of_ascii c in
  if ((65 <=? n) && (n <=? 90))%nat then ascii_of_nat (n + 32)
  else if ((192 <=? n) && (n <=? 222) && negb (n =? 215))%nat
       then ascii_of_nat (n + 32)
       else c.

Definition toLowerCase (l : list ascii) : list ascii := map lower_char l.

(** [s.toLowerCase().includes(word)] *)
Definition mentions (s word : string) : bool :=
  includes_chars (toLowerCase (chars s)) (chars word).

(** ** The threshold helpers *)

(** [getScoreColorClass], [getScoreBgClass] and [getChangeIndicator] of
    [ui/utils/codeHealthUtils.tsx]. *)
Module UtilsDisplay.

Definition getScoreColorClass (score : num) : string :=
  if less_than score 70 then "text-red-600"
  else if less_than score 85 then "text-yellow-600"
  else "text-green-600".

Definition getScoreBgClass (score : num) : string :=
  if less_than score 70 then "bg-red-100 text-red-600"
  else if less_than score 85 then "bg-yellow-100 text-yellow-600"
  else "bg-green-100 text-green-600".

(** The arrow of a change indicator. *)
Inductive Icon : Type := ArrowUp | ArrowDown | ArrowRight.

Record ChangeIndicator : Type := mkChangeIndicator {
  icon : Icon;
  class : string;
  label : string
}.

Definition getChangeIndicator (change : num) : ChangeIndicator :=
  if is_positive change then
    {| icon := ArrowUp; class := "text-green-600";
       label := "+" +:+ show change |}
  else if is_negative change then
    {| icon := ArrowDown; class := "text-red-600"; label := show change |}
  else
    {| icon := ArrowRight; class := "text-gray-400"; label := "0" |}.

End UtilsDisplay.

(** [getScoreColor], [getBadgeVariant] and [getBgClass], the same in both
    [CodeHealth] pages, and [getSeverity] of [FileHealthIndicator]. *)
Module PageDisplay.

Definition getScoreColor (score : num) : string :=
  if less_than score 70 then "text-destructive"
  else if less_than score 85 then "text-warning"
  else "text-success".

Definition getBadgeVariant (score : num) : string :=
  if less_than score 70 then "destructive"
  else if less_than score 85 then "warning"
  else "success".

Definition getBgClass (score : num) : string :=
  if less_than score 70 then "bg-destructive/10"
  else if less_than score 85 then "bg-warning/10"
  else "bg-success/10".

Definition getSeverity (score : num) : string :=
  if less_than score 70 then "critical"
  else if less_than score 85 then "warning"
  else "good".

End PageDisplay.

(** The three tiers the helpers distinguish. *)
Inductive Tier : Type := Low | Middle | High.

Definition tier_of (score : num) : Tier :=
  match score with
  | Num z => if z <? 70 then Low else if z <? 85 then Middle else High
  | NaN => High
  end.

Definition tier_rank (t : Tier) : Z :=
  match t with
  | Low => 0
  | Middle => 1
  | High => 2
  end.

(** ** The file cards of the extended [CodeHealth] page *)

Module FileCard.

(** [file.filepath.split('/').pop()] *)
Definition filename (filepath : string) : option (list ascii) :=
  pop (split_slash (chars filepath)).

(** [displayName] of [renderFileMetricsCard]: for the [__init__.py] of an
    API module the name of the module's directory. [None] is
    [undefined]. *)
Definition displayName (filepath : string) : option (list ascii) :=
  let filename := filename filepath in
  if includes filepath "apis/"
     && bool_decide (filename = Some (chars "__init__.py"))
  then slice (-2) (-1) (split_slash (chars filepath)) !! 0%nat
  else filename.

(** The test shared by [getMostCriticalIssue], [createFixTask] and the
    recommendation lists. *)
Definition is_critical (issue : string) : bool :=
  mentions issue "severe"
  || mentions issue "critical"
  || mentions issue "large file"
  || mentions issue "duplication".

(** [getMostCriticalIssue]; [None] is [null]. *)
Definition getMostCriticalIssue (issues : list string) : option string :=
  if (length issues =? 0)%nat then None
  else
    let criticalIssues := List.filter is_critical issues in
    if (0 <? length criticalIssues)%nat then criticalIssues !! 0%nat
    else issues !! 0%nat.

(** The list [bestPractices] that [createFixTask] builds; the clipboard
    write and the state updates around it are left out. *)
Definition bestPractices (filepath : string) (issues : list string)
  : list string :=
  (if mentions filepath "large file"
      || existsb (fun i => mentions i "large file") issues
   then ["- Split large files into smaller modules with focused responsibilities"]
   else [])
  ++ (if existsb (fun i => mentions i "complex") issues
      then ["- Break complex logic into smaller, more manageable functions"]
      else [])
  ++ (if existsb (fun i => mentions i "duplicat") issues
      then ["- Extract duplicated code into reusable utility functions"]
      else [])
  ++ (if existsb (fun i => mentions i "function length"
                           || mentions i "long method") issues
      then ["- Refactor long functions into smaller ones with single responsibilities"]
      else [])
  ++ (if existsb (fun i => mentions i "comment") issues
      then ["- Add clear, concise comments for complex logic"]
      else [])
  ++ (if existsb (fun i => mentions i "naming") issues
      then ["- Use consistent, descriptive naming conventions"]
      else []).

Section History.

Variable calculateFileAvgScore : FileMetrics -> num.

(** [entry.results.components.flatMap(comp => comp.files)
       .find(f => f.filepath === filepath)] *)
Definition foundFile (entry : HealthHistoryEntry) (path : string)
  : option FileMetrics :=
  List.find (fun f => String.eqb (filepath f) path)
            (flat_map files (components (results entry))).

(** [getFileScoreHistory]: one score for every snapshot that holds the
    file. *)
Definition getFileScoreHistory (healthHistory : list HealthHistoryEntry)
    (path : string) : list num :=
  foldl (fun scoreHistory entry =>
           match foundFile entry path with
           | Some foundFile =>
               scoreHistory ++ [calculateFileAvgScore foundFile]
           | None => scoreHistory
           end)
        [] healthHistory.

(** The data of the sparkline in the list of critical files: a snapshot
    without the file counts as 0, and zeros are filtered out. *)
Definition sparklineData (healthHistory : list HealthHistoryEntry)
    (path : string) : list num :=
  List.filter is_positive
    (map (fun entry =>
            match foundFile entry path with
            | Some foundFile => calculateFileAvgScore foundFile
            | None => Num 0
            end)
         healthHistory).

(** [SparklineChart] renders nothing for fewer than two points. *)
Definition sparklineShown (data : list num) : bool :=
  negb (length data <=? 1)%nat.

(** The banner of critical files: whether it is shown, the files it
    lists, and the number in "And n more files". *)
Record CriticalBanner : Type := mkCriticalBanner {
  banner_shown : bool;
  banner_files : list FileMetrics;
  banner_more : option Z
}.

Definition is_low (file : FileMetrics) : bool :=
  less_than (calculateFileAvgScore file) 70.

Definition criticalBanner (latestEntry : HealthHistoryEntry)
  : CriticalBanner :=
  let allFiles := flat_map files (components (results latestEntry)) in
  {| banner_shown := existsb is_low allFiles;
     banner_files := slice 0 3 (List.filter is_low allFiles);
     banner_more :=
       if (3 <? length (List.filter is_low allFiles))%nat
       then Some (Z.of_nat (length (List.filter is_low allFiles)) - 3)
       else None |}.

(** The condition under which "No critical issues detected" is shown:
    inside the list that is rendered when there are recommendations (with
    none, "No recommendations available" takes its place), when none of
    them counts as critical and every file scores 70 or more. *)
Definition allClear (latestEntry : HealthHistoryEntry) : bool :=
  (0 <? length (recommendations (results latestEntry)))%nat
  && ((length (List.filter is_critical
                           (recommendations (results latestEntry)))
       =? 0)%nat
      && forallb (fun file => at_least (calculateFileAvgScore file) 70)
                 (flat_map files (components (results latestEntry)))).

End History.

(** "Top Issues By File": the five files with the most issues. *)
Definition by_issue_count (a b : FileInfo) : num :=
  nsub (Num (Z.of_nat (length (info_issues b))))
       (Num (Z.of_nat (length (info_issues a)))).

Definition topIssues (groupedFiles : Buckets) : list FileInfo :=
  slice 0 5 (sort_by by_issue_count (concat (map snd groupedFiles))).

End FileCard.

(** ** More of the [CodeHealthHistory] page *)

Module HistoryPageLists.

Definition getComponentsList (healthHistory : list HealthHistoryEntry)
  : list string :=
  if (length healthHistory =? 0)%nat then []
  else
    match latest_of healthHistory with
    | Some latestEntry => map name (components (results latestEntry))
    | None => []
    end.

(** [component?.issues || []] *)
Definition getComponentIssues (healthHistory : list HealthHistoryEntry)
    (componentName : string) : list string :=
  if (length healthHistory =? 0)%nat then []
  else
    match latest_of healthHistory with
    | Some latestEntry =>
        match List.find (fun c => String.eqb (name c) componentName)
                        (components (results latestEntry)) with
        | Some component => component_issues component
        | None => []
        end
    | None => []
    end.

End HistoryPageLists.

(** ** The [CodeHealthChart] component *)

Module Chart.

(** [x.toFixed(0)] of a quotient of integers below 10^21 in absolute
    value: the nearest integer of the absolute value, a tie going up,
    behind the sign. *)
Definition toFixed0 (s : num) (d : Z) : string :=
  match s with
  | NaN => "NaN"
  | Num z =>
      if d =? 0 then "NaN"
      else
        let q := (inject_Z z / inject_Z d)%Q in
        if Qle_bool 0 q then pretty (Qfloor (q + (1 # 2)))
        else "-" +:+ pretty (Qfloor (- q + (1 # 2)))
  end.

Definition raw_sum (file : FileMetrics) : num :=
  nadd (nadd (nadd (nadd (nadd
    (to_num (size_score file))
    (to_num (complexity_score file)))
    (to_num (duplication_score file)))
    (to_num (function_length_score file)))
    (to_num (comment_density_score file)))
    (to_num (naming_convention_score file)).

(** [file.filepath.split("/").pop() || file.filepath] *)
Definition barName (filepath : string) : list ascii :=
  match pop (split_slash (chars filepath)) with
  | Some (c :: seg) => c :: seg
  | _ => chars filepath
  end.

(** One bar of the files chart. *)
Record Bar : Type := mkBar {
  bar_name : list ascii;
  bar_filepath : string;
  bar_details : Details;
  bar_score : num
}.

Definition by_bar_score (a b : Bar) : num := nsub (bar_score a) (bar_score b).

(** [getFileScores]; [selectedComponent] is an optional property. *)
Definition getFileScores (healthHistory : list HealthHistoryEntry)
    (selectedComponent : option string) : list Bar :=
  match selectedComponent with
  | None => []
  | Some selected =>
      if (length healthHistory =? 0)%nat || String.eqb selected "" then []
      else
        match latest_of healthHistory with
        | None => []
        | Some latestEntry =>
            match List.find (fun c => String.eqb (name c) selected)
                            (components (results latestEntry)) with
            | None => []
            | Some componentData =>
                if (length (files componentData) =? 0)%nat then []
                else
                  sort_by by_bar_score
                    (map (fun file =>
                            {| bar_name := barName (filepath file);
                               bar_filepath := filepath file;
                               bar_details := details_of file;
                               bar_score := round_quot (raw_sum file) 6 |})
                         (files componentData))
            end
        end
  end.

(** A value of a chart row: a text or a number. *)
Inductive Cell : Type :=
| Text (s : string)
| Number (z : Z).

Section Rows.

(** [format(new Date(d), "MMM d, yyyy")] of [date-fns]; it throws on a
    date it cannot read, which is [None]. *)
Variable format : string -> option string.

(** [formatHistoryData]: the date, the overall score, and over them the
    properties of the object the [reduce] builds. *)
Definition formatHistoryData (entries : list HealthHistoryEntry)
  : option (list (gmap string Cell)) :=
  mapM (fun entry =>
          match format (date entry) with
          | None => None
          | Some d =>
              Some (foldl (fun acc component =>
                             prop_set (name component)
                                      (Number (component_score component))
                                      acc)
                          ∅ (components (results entry))
                    ∪ <["score" := Number (overall_score (results entry))]>
                        (<["date" := Text d]> ∅))
          end)
       entries.

(** [getComponentScoresOverTime] *)
Definition getComponentScoresOverTime
    (healthHistory : list HealthHistoryEntry)
  : option (list (gmap string Cell)) :=
  mapM (fun entry =>
          match format (date entry) with
          | None => None
          | Some d =>
              Some (foldl (fun result component =>
                             prop_set (name component)
                                      (Number (component_score component))
                                      result)
                          (<["date" := Text d]> ∅)
                          (components (results entry)))
          end)
       healthHistory.

End Rows.

(** The [score] that [getComponentData] shows for a file. *)
Definition componentDataScore (file : FileMetrics) : string :=
  toFixed0 (raw_sum file) 6.

End Chart.

(** ** The Files tab of the two [CodeHealth] pages *)

Module FilesTab.

(** [filesToShow]: the files of the selected component; all the files
    when no component is selected (the empty string). *)
Definition filesToShow (selectedComponent : string) (files : list FileInfo)
  : list FileInfo :=
  if negb (String.eqb selectedComponent "")
  then List.filter
         (fun f => bool_decide (component f = Some selectedComponent)) files
  else files.

(** The body of the [map] callback; [None] is the [null] React leaves
    out. *)
Definition renderCategory (selectedComponent : string)
    (entry : string * list FileInfo) : option (string * list FileInfo) :=
  let category := fst entry in
  let files := snd entry in
  let filesToShow := filesToShow selectedComponent files in
  if (length filesToShow =? 0)%nat then None
  else Some (category, filesToShow).

Definition render (selectedComponent : string) (groupedFiles : Buckets)
  : list (option (string * list FileInfo)) :=
  map (renderCategory selectedComponent) groupedFiles.

(** What reaches the screen. *)
Definition shown (selectedComponent : string) (groupedFiles : Buckets)
  : Buckets :=
  omap id (render selectedComponent groupedFiles).

End FilesTab.

(** A snapshot with three components, two of them of the same name. *)
Definition sample_components : list HealthHistoryEntry :=
  [ mkEntry 1 ""
      (mkResults 0
         [ mkComponent "UI" 80 [] ["Large files"];
           mkComponent "API" 70 [] ["No tests"];
           mkComponent "UI" 60 [] ["Shadowed"] ]
         []) ].

(** Two bars in ascending order of score. *)
Definition bar_le (a b : Chart.Bar) : Prop :=
  exists x y, Chart.bar_score a = Num x /\ Chart.bar_score b = Num y
              /\ x <= y.

(** * Part II: properties *)

(** ** Arithmetic of [Math.round] on a quotient of integers *)

Lemma Math_round_quot (z d : Z) :
  0 < d -> Math_round (inject_Z z / inject_Z d) = (2 * z + d) / (2 * d).
Proof.
  intros Hd. unfold Math_round.
  rewrite Zdiv_Qdiv. apply Qfloor_comp.
  unfold Qeq, Qdiv, Qmult, Qplus, Qinv, inject_Z; simpl.
  destruct d as [|p|p]; try lia. simpl.
  destruct (2 * z + Z.pos p) eqn:E; simpl; lia.
Qed.

Lemma Math_round_nearest (z d : Z) :
  0 < d ->
  let r := Math_round (inject_Z z / inject_Z d) in
  2 * d * r - d <= 2 * z < 2 * d * r + d.
Proof.
  intros Hd r. subst r. rewrite Math_round_quot by lia.
  pose proof (Z.div_mod (2 * z + d) (2 * d) ltac:(lia)) as E.
  pose proof (Z.mod_pos_bound (2 * z + d) (2 * d) ltac:(lia)) as B.
  lia.
Qed.

Lemma round_quot_Num (z d : Z) :
  0 < d -> round_quot (Num z) d = Num (Math_round (inject_Z z / inject_Z d)).
Proof.
  intros Hd. unfold round_quot.
  destruct (Z.eqb_spec d 0); [lia | reflexivity].
Qed.

Lemma valid_file_inv (f : FileMetrics) :
  valid_file f ->
  exists a b c d e g,
    sub_scores f = [Some a; Some b; Some c; Some d; Some e; Some g] /\
    Forall (fun z => 0 <= z <= 100) [a; b; c; d; e; g].
Proof.
  unfold valid_file, sub_scores. intros H.
  repeat match goal with
         | H : Forall _ (_ :: _) |- _ => apply Forall_cons_1 in H; destruct H as [[? [? ?]] H]
         end.
  do 6 eexists. split.
  - repeat f_equal; eassumption.
  - repeat (constructor; [assumption|]). constructor.
Qed.

Lemma Utils_avg_of_valid (f : FileMetrics) :
  valid_file f ->
  Utils.calculateFileAvgScore f
  = Num (Math_round (inject_Z (score_sum f) / inject_Z 6)).
Proof.
  intros H. destruct (valid_file_inv f H) as (a & b & c & d & e & g & E & _).
  unfold Utils.calculateFileAvgScore, score_sum. 
  unfold sub_scores in *. injection E as E1 E2 E3 E4 E5 E6.
  rewrite E1, E2, E3, E4, E5, E6. simpl.
  replace (a + (b + (c + (d + (e + (g + 0)))))) with (a + b + c + d + e + g)
    by lia.
  reflexivity.
Qed.

Lemma FullPage_avg_total (f : FileMetrics) :
  FullPage.calculateFileAvgScore f
  = Num (Math_round (inject_Z (score_sum f) / inject_Z 6)).
Proof.
  unfold FullPage.calculateFileAvgScore, score_sum, sub_scores, FullPage.or0.
  destruct (size_score f) as [a|], (complexity_score f) as [b|],
    (duplication_score f) as [c|], (function_length_score f) as [d|],
    (comment_density_score f) as [e|], (naming_convention_score f) as [g|];
    repeat match goal with
           | |- context [?z =? 0] => destruct (Z.eqb_spec z 0); subst
           end;
    simpl; do 2 f_equal; f_equal; f_equal; lia.
Qed.

Lemma Utils_avg_missing (f : FileMetrics) :
  In None (sub_scores f) -> Utils.calculateFileAvgScore f = NaN.
Proof.
  unfold sub_scores, Utils.calculateFileAvgScore. simpl.
  intros H.
  destruct (size_score f), (complexity_score f), (duplication_score f),
    (function_length_score f), (comment_density_score f),
    (naming_convention_score f); simpl; try reflexivity;
    exfalso; intuition discriminate.
Qed.

(** C1: for a file whose six sub-scores are integers of [0,100],
    [calculateFileAvgScore] (utility module and [CodeHealth] page) returns
    [Math.round] of the sum of the six divided by 6: the integer nearest to
    the mean, a tie going up; it lies in [0,100]. *)
Theorem composite_score_is_rounded_mean (f : FileMetrics) :
  valid_file f ->
  exists r : Z,
    Utils.calculateFileAvgScore f = Num r /\
    Page.calculateFileAvgScore f = Num r /\
    r = Math_round (inject_Z (score_sum f) / inject_Z 6) /\
    6 * r - 3 <= score_sum f < 6 * r + 3 /\
    0 <= r <= 100.
Proof.
  intros H. exists (Math_round (inject_Z (score_sum f) / inject_Z 6)).
  pose proof (Utils_avg_of_valid f H) as E.
  split; [exact E|]. split; [exact E|]. split; [reflexivity|].
  pose proof (Math_round_nearest (score_sum f) 6 ltac:(lia)) as N.
  simpl in N. split; [lia|].
  destruct (valid_file_inv f H) as (a & b & c & d & e & g & Es & Hr).
  assert (0 <= score_sum f <= 600).
  { unfold score_sum. rewrite Es. simpl.
    repeat match goal with
           | H : Forall _ (_ :: _) |- _ => apply Forall_cons_1 in H; destruct H as [? H]
           end. lia. }
  lia.
Qed.

Lemma composite_score_is_rounded_mean_witness :
  Utils.calculateFileAvgScore file_nearly_full = Num 100.
Proof.
  destruct (composite_score_is_rounded_mean file_nearly_full)
    as (r & E & _ & Hr & _).
  - unfold valid_file, file_nearly_full, sub_scores. simpl.
    repeat (constructor; [eexists; split; [reflexivity | lia]|]).
    constructor.
  - rewrite E, Hr. vm_compute. reflexivity.
Defined.

(** The specification's examples of rounding. *)
Example composite_score_examples :
  Utils.calculateFileAvgScore (uniform_file "a.ts" 90) = Num 90
  /\ Utils.calculateFileAvgScore
       (mkFile "a.ts" (Some 0) (Some 0) (Some 0) (Some 0) (Some 0) (Some 1) [])
     = Num 0
  /\ FullPage.calculateFileAvgScore file_nearly_full = Num 100.
Proof. vm_compute. repeat split. Qed.

(** The extended page reads a missing sub-score as 0. *)
Lemma FullPage_avg_missing_as_zero (f : FileMetrics) :
  exists r,
    FullPage.calculateFileAvgScore f = Num r /\
    6 * r - 3 <= score_sum f < 6 * r + 3.
Proof.
  eexists. split; [apply FullPage_avg_total|].
  pose proof (Math_round_nearest (score_sum f) 6 ltac:(lia)) as N.
  simpl in N. lia.
Qed.

(** C6: with [size_score] missing and the five other sub-scores 90, the
    utility module and the [CodeHealth] page return NaN, and the views
    built from it carry NaN as score, previous score and change; the
    extended page returns 75, the rounded mean with the missing sub-score
    read as 0. *)
Theorem missing_sub_score_gives_NaN :
  Utils.calculateFileAvgScore file_without_size = NaN
  /\ Page.calculateFileAvgScore file_without_size = NaN
  /\ map shown_scores (Utils.processFilesData [file_without_size] None)
     = [(NaN, Val NaN, NaN)]
  /\ FullPage.calculateFileAvgScore file_without_size = Num 75.
Proof. vm_compute. repeat split. Qed.

(** ** Substring search *)

Lemma starts_with_spec (p l : list ascii) :
  starts_with p l = true <-> exists post, l = p ++ post.
Proof.
  revert l. induction p as [|a p IH]; intros l; simpl.
  - split; [intros _; exists l; reflexivity | reflexivity].
  - destruct l as [|b l].
    + split; [discriminate | intros [post E]; discriminate].
    + destruct (Ascii.eqb_spec a b) as [->|Hne].
      * rewrite IH. split; intros [post E]; exists post.
        -- now rewrite E.
        -- now injection E.
      * split; [discriminate | intros [post E]; injection E; congruence].
Qed.

Lemma includes_chars_spec (l sub : list ascii) :
  includes_chars l sub = true <-> contains l sub.
Proof.
  unfold contains. induction l as [|c l IH].
  - simpl. rewrite orb_false_r, starts_with_spec. split.
    + intros [post E]. exists [], post. exact E.
    + intros (pre & post & E). destruct pre; [exists post; exact E | discriminate].
  - simpl. rewrite orb_true_iff, starts_with_spec, IH. split.
    + intros [[post E] | (pre & post & E)].
      * exists [], post. exact E.
      * exists (c :: pre), post. simpl. now rewrite E.
    + intros (pre & post & E). destruct pre as [|c' pre].
      * left. exists post. exact E.
      * right. injection E as _ E. exists pre, post. exact E.
Qed.

Lemma contains_dec (l sub : list ascii) : {contains l sub} + {~ contains l sub}.
Proof.
  destruct (includes_chars l sub) eqn:E.
  - left. now apply includes_chars_spec.
  - right. intros H. apply includes_chars_spec in H. congruence.
Qed.

(** ** Correctness of the matcher *)

Lemma nullable_spec (r : regex) : nullable r = true <-> lang r [].
Proof.
  induction r; simpl.
  - split; [discriminate | inversion 1].
  - split; [constructor | reflexivity].
  - split; [discriminate | inversion 1].
  - rewrite andb_true_iff, IHr1, IHr2. split.
    + intros [H1 H2]. change (@nil ascii) with (@nil ascii ++ []). now constructor.
    + intros H. inversion H as [| |? ? l1 l2 H1 H2 E1 E2| | | |].
      apply app_eq_nil in E2 as [-> ->]. now split.
  - rewrite orb_true_iff, IHr1, IHr2. split.
    + intros [H|H]; [now apply lang_alt_l | now apply lang_alt_r].
    + inversion 1; subst; auto.
  - split; [constructor | reflexivity].
Qed.

Lemma lang_star_cons_inv (r : regex) (c : ascii) (l : list ascii) :
  lang (Star r) (c :: l) ->
  exists l1 l2, l = l1 ++ l2 /\ lang r (c :: l1) /\ lang (Star r) l2.
Proof.
  intros H. remember (Star r) as s eqn:Es. remember (c :: l) as cl eqn:El.
  revert c l El. induction H; intros c0 l0 El; try discriminate.
  injection Es as ->.
  destruct l1 as [|a l1].
  - simpl in El. apply (IHlang2 eq_refl c0 l0 El).
  - simpl in El. injection El as -> <-. exists l1, l2. auto.
Qed.

Lemma deriv_spec (r : regex) (c : ascii) (l : list ascii) :
  lang (deriv c r) l <-> lang r (c :: l).
Proof.
  revert l. induction r; intros l; simpl.
  - split; inversion 1.
  - split; inversion 1.
  - destruct (p c) eqn:E.
    + split.
      * inversion 1; subst. now constructor.
      * inversion 1; subst. constructor.
    + split; [inversion 1 | inversion 1; subst; congruence].
  - assert (Hcat : lang (Cat (deriv c r1) r2) l ->
                   lang (Cat r1 r2) (c :: l)).
    { inversion 1 as [| |? ? l1 l2 H1 H2| | | |]; subst.
      apply IHr1 in H1. change (c :: l1 ++ l2) with ((c :: l1) ++ l2).
      now constructor. }
    assert (Hinv : lang (Cat r1 r2) (c :: l) ->
                   lang (Cat (deriv c r1) r2) l \/
                   (lang r1 [] /\ lang r2 (c :: l))).
    { intros H. inversion H as [| |? ? l1 l2 H1 H2 E1 E2| | | |].
      destruct l1 as [|a l1]; simpl in E2.
      - right. subst l2. auto.
      - injection E2 as -> <-. left. constructor; [now apply IHr1 | exact H2]. }
    destruct (nullable r1) eqn:N.
    + split.
      * inversion 1; subst; [now apply Hcat |].
        change (c :: l) with ([] ++ c :: l).
        constructor; [now apply nullable_spec | now apply IHr2].
      * intros H. destruct (Hinv H) as [H'|[_ H']].
        -- now apply lang_alt_l.
        -- apply lang_alt_r. now apply IHr2.
    + split; [exact Hcat |].
      intros H. destruct (Hinv H) as [H'|[H' _]]; [exact H' |].
      apply nullable_spec in H'. congruence.
  - split.
    + inversion 1; subst; [apply lang_alt_l; now apply IHr1
                          | apply lang_alt_r; now apply IHr2].
    + inversion 1; subst; [apply lang_alt_l; now apply IHr1
                          | apply lang_alt_r; now apply IHr2].
  - split.
    + inversion 1 as [| |? ? l1 l2 H1 H2| | | |]; subst.
      apply IHr in H1. change (c :: l1 ++ l2) with ((c :: l1) ++ l2).
      now constructor.
    + intros H. apply lang_star_cons_inv in H as (l1 & l2 & -> & H1 & H2).
      constructor; [now apply IHr | exact H2].
Qed.

Lemma matches_spec (r : regex) (l : list ascii) :
  matches r l = true <-> lang r l.
Proof.
  revert r. induction l as [|c l IH]; intros r; simpl.
  - apply nullable_spec.
  - rewrite IH. apply deriv_spec.
Qed.

Lemma lang_any_star (l : list ascii) : lang (Star any_char) l.
Proof.
  induction l as [|c l IH]; [constructor |].
  change (c :: l) with ([c] ++ l). constructor; [now constructor | exact IH].
Qed.

Lemma regex_found_spec (r : regex) (l : list ascii) :
  regex_found r l = true <-> found r l.
Proof.
  unfold regex_found, found. rewrite matches_spec. split.
  - inversion 1 as [| |? ? pre rest _ H2| | | |]; subst.
    inversion H2 as [| |? ? m post Hm _| | | |]; subst.
    exists pre, m, post. auto.
  - intros (pre & m & post & -> & Hm).
    constructor; [apply lang_any_star |].
    constructor; [exact Hm | apply lang_any_star].
Qed.

Lemma lang_lit_chars (s m : list ascii) : lang (lit_chars s) m <-> m = s.
Proof.
  revert m. induction s as [|c s IH]; intros m; simpl.
  - split; [now inversion 1 | intros ->; constructor].
  - split.
    + inversion 1 as [| |? ? l1 l2 H1 H2| | | |]; subst.
      inversion H1; subst. apply IH in H2 as ->.
      match goal with H : Ascii.eqb _ _ = true |- _ =>
        apply Ascii.eqb_eq in H; now subst end.
    + intros ->. change (c :: s) with ([c] ++ s).
      constructor; [constructor; apply Ascii.eqb_refl | now apply IH].
Qed.

Lemma lang_plus_nonempty (r : regex) (m : list ascii) :
  lang (plus r) m -> (forall x, lang r x -> x <> []) -> m <> [].
Proof.
  unfold plus. inversion 1 as [| |? ? l1 l2 H1 H2| | | |]; subst.
  intros Hne E. apply app_eq_nil in E as [E _]. now apply (Hne l1).
Qed.

(** ** Categorisation *)

Lemma found_api_segment (n : list ascii) :
  found re_api_segment n <->
  exists pre c post, n = pre ++ chars "api/" ++ c :: post /\ c <> "/"%char.
Proof.
  unfold found, re_api_segment. split.
  - intros (pre & m & post & -> & Hm).
    inversion Hm as [| |? ? l1 l2 H1 H2 E1 E2| | | |]. subst.
    apply lang_lit_chars in H1 as ->.
    unfold plus in H2.
    inversion H2 as [| |? ? m1 m2 H3 H4 E3 E4| | | |]. subst.
    inversion H3 as [|p c Hc| | | | |]. subst.
    exists pre, c, (m2 ++ post). split.
    + now rewrite <- !app_assoc.
    + intros ->. discriminate.
  - intros (pre & c & post & -> & Hc).
    exists pre, (chars "api/" ++ [c]), post. split.
    + now rewrite <- !app_assoc.
    + constructor; [now apply lang_lit_chars |].
      unfold plus. change [c] with ([c] ++ []).
      constructor; [|constructor].
      constructor. simpl. destruct (Ascii.eqb_spec c "/"); [contradiction | reflexivity].
Qed.

Lemma is_api_spec (n : list ascii) :
  FullPage.is_api n = true <-> api_pattern n.
Proof.
  unfold FullPage.is_api, api_pattern.
  rewrite !orb_true_iff, !includes_chars_spec, !regex_found_spec,
    found_api_segment.
  tauto.
Qed.

Lemma FullPage_categorize_sound (filepath : string) :
  category_of (FullPage.normalizedPath filepath)
              (FullPage.categorizeFileByPath filepath).
Proof.
  unfold FullPage.categorizeFileByPath.
  set (n := FullPage.normalizedPath filepath).
  destruct (FullPage.is_api n) eqn:Ha.
  { apply category_api. now apply is_api_spec. }
  assert (Hna : ~ api_pattern n).
  { intros H. apply is_api_spec in H. congruence. }
  destruct (includes_chars n (chars "/pages/")) eqn:Hp.
  { apply category_pages; [exact Hna | now apply includes_chars_spec]. }
  assert (Hnp : ~ contains n (chars "/pages/")).
  { intros H. apply includes_chars_spec in H. congruence. }
  destruct (includes_chars n (chars "/components/")) eqn:Hc.
  { apply category_components; auto. now apply includes_chars_spec. }
  assert (Hnc : ~ contains n (chars "/components/")).
  { intros H. apply includes_chars_spec in H. congruence. }
  destruct (includes_chars n (chars "/utils/")
            || includes_chars n (chars "/src/utils/")) eqn:Hu.
  - apply category_ui; auto.
    apply orb_true_iff in Hu. rewrite !includes_chars_spec in Hu. exact Hu.
  - apply category_other; auto.
    intros H. rewrite <- !includes_chars_spec, <- orb_true_iff in H. congruence.
Qed.

Lemma category_of_functional (n : list ascii) (l1 l2 : string) :
  category_of n l1 -> category_of n l2 -> l1 = l2.
Proof.
  intros H1 H2. destruct H1; destruct H2; try reflexivity; tauto.
Qed.

Lemma category_of_label (n : list ascii) (l : string) :
  category_of n l -> In l labels.
Proof. destruct 1; simpl; tauto. Qed.

(** C2 (as amended): on the extended page, [categorizeFileByPath] assigns
    to every filepath exactly one of the five labels, and that label follows
    the precedence list (API patterns first, then /pages/, /components/,
    /utils/ or /src/utils/, Other by default) read over the path with its
    leading slashes removed. *)
Theorem categorize_total_api_first (filepath : string) :
  category_of (FullPage.normalizedPath filepath)
              (FullPage.categorizeFileByPath filepath)
  /\ (forall l, category_of (FullPage.normalizedPath filepath) l ->
                l = FullPage.categorizeFileByPath filepath)
  /\ In (FullPage.categorizeFileByPath filepath) labels.
Proof.
  pose proof (FullPage_categorize_sound filepath) as H.
  split; [exact H|]. split.
  - intros l Hl. exact (category_of_functional _ _ _ Hl H).
  - exact (category_of_label _ _ H).
Qed.

(** The precedence list read over the filepath as given does not describe
    the code: a path that begins with [/pages/] is filed under [Other]. *)
Lemma categorize_raw_path_counterexample :
  ~ category_of (chars "/pages/Home.tsx")
                (FullPage.categorizeFileByPath "/pages/Home.tsx").
Proof.
  assert (E : FullPage.categorizeFileByPath "/pages/Home.tsx" = "Other")
    by (vm_compute; reflexivity).
  rewrite E. intros H.
  assert (Hp : category_of (chars "/pages/Home.tsx") "Pages").
  { apply category_pages.
    - intros Ha. apply is_api_spec in Ha. vm_compute in Ha. discriminate.
    - apply includes_chars_spec. vm_compute. reflexivity. }
  pose proof (category_of_functional _ _ _ H Hp). discriminate.
Qed.

Lemma Utils_categorize_label (filepath : string) :
  In (Utils.categorizeFileByPath filepath) labels.
Proof.
  unfold Utils.categorizeFileByPath, labels.
  repeat match goal with
         | |- context [if ?b then _ else _] => destruct b
         end; simpl; tauto.
Qed.

Lemma Page_categorize_label (filepath : string) :
  In (Page.categorizeFileByPath filepath) labels.
Proof.
  unfold Page.categorizeFileByPath, labels.
  repeat match goal with
         | |- context [if ?b then _ else _] => destruct b
         end; simpl; tauto.
Qed.

Lemma FullPage_categorize_label (filepath : string) :
  In (FullPage.categorizeFileByPath filepath) labels.
Proof. exact (category_of_label _ _ (FullPage_categorize_sound filepath)). Qed.

(** The utility module and the first page test [/pages/], [/components/]
    and [/utils/] before the API patterns. *)
Lemma Utils_categorize_pages_first (filepath : string) :
  contains (chars filepath) (chars "/pages/") ->
  Utils.categorizeFileByPath filepath = "Pages"
  /\ Page.categorizeFileByPath filepath = "Pages".
Proof.
  intros H. apply includes_chars_spec in H.
  unfold Utils.categorizeFileByPath, Page.categorizeFileByPath, includes.
  now rewrite H.
Qed.

Example categorize_variants_differ :
  FullPage.categorizeFileByPath "src/api/users/pages/list.ts" = "API Files"
  /\ Utils.categorizeFileByPath "src/api/users/pages/list.ts" = "Pages"
  /\ Page.categorizeFileByPath "src/api/users/pages/list.ts" = "Pages".
Proof. vm_compute. repeat split. Qed.

Example categorize_examples :
  map FullPage.categorizeFileByPath
      [ "src/app/apis/foo/__init__.py"; "ui/pages/Home.tsx";
        "ui/components/Button.tsx"; "ui/utils/helpers.ts"; "README.md" ]
  = [ "API Files"; "Pages"; "Components"; "UI Files"; "Other" ].
Proof. vm_compute. reflexivity. Qed.

(** ** Loops *)

Lemma forEach_app {A S : Type} (f : S -> A -> option S) (l1 l2 : list A) (s : S) :
  forEach f (l1 ++ l2) s
  = match forEach f l1 s with
    | Some s' => forEach f l2 s'
    | None => None
    end.
Proof.
  revert s. induction l1 as [|x l1 IH]; intros s; simpl; [reflexivity|].
  destruct (f s x); [apply IH | reflexivity].
Qed.

Lemma forEach_map {A B S : Type} (f : S -> B -> option S) (g : A -> B)
    (l : list A) (s : S) :
  forEach f (map g l) s = forEach (fun s x => f s (g x)) l s.
Proof.
  revert s. induction l as [|x l IH]; intros s; simpl; [reflexivity|].
  destruct (f s (g x)); [apply IH | reflexivity].
Qed.

Lemma forEach_nested {A B C S : Type} (f : S -> C -> option S)
    (inner : A -> list B) (h : A -> B -> C) (l : list A) (s : S) :
  forEach (fun s a => forEach (fun s b => f s (h a b)) (inner a) s) l s
  = forEach f (flat_map (fun a => map (h a) (inner a)) l) s.
Proof.
  revert s. induction l as [|a l IH]; intros s; simpl; [reflexivity|].
  rewrite forEach_app, forEach_map.
  destruct (forEach _ (inner a) s); [apply IH | reflexivity].
Qed.

Lemma foldl_flat_map {A B S : Type} (f : S -> B -> S) (g : A -> list B)
    (l : list A) (s : S) :
  foldl (fun s a => foldl f s (g a)) s l = foldl f s (flat_map g l).
Proof.
  revert s. induction l as [|a l IH]; intros s; simpl; [reflexivity|].
  now rewrite foldl_app, IH.
Qed.

(** ** Buckets *)

Lemma group_nil (cat : string -> string) : group cat [] = emptyBuckets.
Proof. reflexivity. Qed.

Lemma push_to_group (cat : string -> string) (done : list FileInfo)
    (x : FileInfo) :
  In (cat (info_filepath x)) labels ->
  push_to (cat (info_filepath x)) x (group cat done)
  = Some (group cat (done ++ [x])).
Proof.
  intros H. unfold group. 
  assert (F : forall k,
    List.filter (fun fi => String.eqb k (cat (info_filepath fi))) (done ++ [x])
    = List.filter (fun fi => String.eqb k (cat (info_filepath fi))) done
      ++ (if String.eqb k (cat (info_filepath x)) then [x] else [])).
  { intros k. rewrite List.filter_app. simpl. now destruct (String.eqb _ _). }
  unfold labels in *. cbn [map]. rewrite !F.
  simpl in H.
  destruct H as [H|[H|[H|[H|[H|[]]]]]]; rewrite <- H; simpl;
    rewrite ?app_nil_r; reflexivity.
Qed.

Lemma forEach_push_group (cat : string -> string) :
  (forall p, In (cat p) labels) ->
  forall infos done,
    forEach (fun o fi => push_to (cat (info_filepath fi)) fi o)
            infos (group cat done)
    = Some (group cat (done ++ infos)).
Proof.
  intros Hcat infos. induction infos as [|x infos IH]; intros done;
    cbn [forEach].
  - now rewrite app_nil_r.
  - rewrite push_to_group by apply Hcat.
    rewrite IH. now rewrite <- app_assoc.
Qed.

Lemma group_keys (cat : string -> string) (infos : list FileInfo) :
  map fst (group cat infos) = labels.
Proof. reflexivity. Qed.

Lemma sort_buckets_keys (o : Buckets) : map fst (sort_buckets o) = map fst o.
Proof.
  unfold sort_buckets. rewrite map_map. reflexivity.
Qed.

(** Every processed file lands in exactly one bucket. *)
Lemma group_partition (cat : string -> string) (infos : list FileInfo) :
  (forall p, In (cat p) labels) ->
  Permutation (concat (map snd (group cat infos))) infos.
Proof.
  intros Hcat. unfold group. simpl. rewrite app_nil_r.
  induction infos as [|x infos IH]; [reflexivity|].
  simpl. specialize (Hcat (info_filepath x)). simpl in Hcat.
  destruct Hcat as [H|[H|[H|[H|[H|[]]]]]]; rewrite <- H; simpl.
  - now constructor.
  - rewrite <- Permutation_middle. now constructor.
  - rewrite app_assoc, <- Permutation_middle, <- app_assoc. now constructor.
  - rewrite 2!app_assoc, <- Permutation_middle, <- 2!app_assoc. now constructor.
  - rewrite 3!app_assoc, <- Permutation_middle, <- 3!app_assoc. now constructor.
Qed.

(** ** Sorting *)

Lemma insert_by_perm {A : Type} (cmp : A -> A -> num) (x : A) (l : list A) :
  Permutation (insert_by cmp x l) (x :: l).
Proof.
  induction l as [|y l IH]; simpl; [reflexivity|].
  destruct (is_negative (cmp y x)); [|reflexivity].
  rewrite IH. apply perm_swap.
Qed.

Lemma sort_by_perm {A : Type} (cmp : A -> A -> num) (l : list A) :
  Permutation (sort_by cmp l) l.
Proof.
  induction l as [|x l IH]; simpl; [reflexivity|].
  unfold sort_by in *. simpl. rewrite insert_by_perm. now constructor.
Qed.

Lemma sort_buckets_perm (o : Buckets) :
  Permutation (concat (map snd (sort_buckets o))) (concat (map snd o)).
Proof.
  induction o as [|[k v] o IH]; simpl; [reflexivity|].
  apply Permutation_app; [apply sort_by_perm | exact IH].
Qed.

Lemma insert_by_sorted (x : FileInfo) (l : list FileInfo) :
  has_score x -> Forall has_score l ->
  Sorted score_le l -> Sorted score_le (insert_by by_score x l).
Proof.
  intros [zx Hx] Hl Hs. induction l as [|y l IH]; simpl.
  - repeat constructor.
  - apply Forall_cons_1 in Hl as [[zy Hy] Hl].
    apply Sorted_inv in Hs as [Hs Hd].
    unfold by_score at 1. rewrite Hx, Hy. simpl.
    destruct (Z.ltb_spec (zy - zx) 0).
    + constructor; [now apply IH|].
      destruct l as [|w l]; simpl.
      * constructor. exists zy, zx. repeat split; auto; lia.
      * destruct (is_negative (by_score w x)).
        -- constructor. now apply HdRel_inv in Hd.
        -- constructor. exists zy, zx. repeat split; auto; lia.
    + constructor; [now constructor|].
      constructor. exists zx, zy. repeat split; auto; lia.
Qed.

Lemma sort_by_score_sorted (l : list FileInfo) :
  Forall has_score l -> Sorted score_le (sort_by by_score l).
Proof.
  induction l as [|x l IH]; intros H; simpl; [constructor|].
  apply Forall_cons_1 in H as [Hx Hl].
  apply insert_by_sorted; auto.
  eapply Permutation_Forall; [symmetry; apply sort_by_perm | exact Hl].
Qed.

Lemma Sorted_ascending (l : list FileInfo) :
  Sorted score_le l -> ascending l.
Proof.
  unfold ascending. induction 1 as [|x l Hs IH Hd]; intros i a b Ha Hb.
  - discriminate.
  - destruct i as [|i]; simpl in Ha, Hb.
    + injection Ha as <-. destruct l as [|y l]; [discriminate|].
      injection Hb as <-. now apply HdRel_inv in Hd.
    + eapply IH; eassumption.
Qed.

(** ** The grouped output *)

Lemma latest_of_nonempty (healthHistory : list HealthHistoryEntry) :
  healthHistory <> [] ->
  (length healthHistory =? 0)%nat = false
  /\ exists latestEntry, latest_of healthHistory = Some latestEntry.
Proof.
  intros H. destruct healthHistory as [|e l]; [contradiction|].
  split; [reflexivity|].
  unfold latest_of. apply lookup_lt_is_Some_2. simpl. lia.
Qed.

Lemma latest_of_Some (healthHistory : list HealthHistoryEntry) e :
  latest_of healthHistory = Some e -> healthHistory <> [].
Proof. intros H ->. discriminate. Qed.

Section PageBodyFacts.

Variable calc : FileMetrics -> num.
Variable cat : string -> string.
Hypothesis cat_label : forall p, In (cat p) labels.

Lemma PageBody_grouped (healthHistory : list HealthHistoryEntry) :
  healthHistory <> [] ->
  PageBody.getFilesGroupedByType calc cat healthHistory
  = Some (sort_buckets (group cat (page_infos calc healthHistory))).
Proof.
  intros H. destruct (latest_of_nonempty _ H) as [E0 [latest El]].
  unfold PageBody.getFilesGroupedByType, page_infos. rewrite E0, El.
  rewrite (forEach_nested
             (fun o fi => push_to (cat (info_filepath fi)) fi o)
             files
             (PageBody.fileInfoOf calc
                (PageBody.previousScoresOf calc (previous_of healthHistory)))).
  rewrite <- (group_nil cat), (forEach_push_group cat cat_label).
  reflexivity.
Qed.

Lemma PageBody_grouped_empty :
  PageBody.getFilesGroupedByType calc cat [] = Some [].
Proof. reflexivity. Qed.

End PageBodyFacts.

Lemma HistoryPage_grouped (healthHistory : list HealthHistoryEntry) :
  healthHistory <> [] ->
  HistoryPage.getFilesGroupedByType healthHistory
  = Some (sort_buckets
            (group Utils.categorizeFileByPath (history_infos healthHistory))).
Proof.
  intros H. destruct (latest_of_nonempty _ H) as [E0 [latest El]].
  unfold HistoryPage.getFilesGroupedByType, history_infos, previous_files.
  rewrite E0, El.
  rewrite <- (group_nil Utils.categorizeFileByPath).
  rewrite (forEach_push_group _ Utils_categorize_label).
  reflexivity.
Qed.

(** What the members of the sorted buckets are. *)
Lemma in_sorted_group (cat : string -> string) (infos : list FileInfo)
    (k : string) (fs : list FileInfo) :
  In (k, fs) (sort_buckets (group cat infos)) ->
  In k labels /\
  fs = sort_by by_score
         (List.filter (fun fi => String.eqb k (cat (info_filepath fi))) infos).
Proof.
  unfold sort_buckets, group. rewrite map_map. cbn [fst snd].
  intros H. apply in_map_iff in H as (k' & E & Hk). injection E as -> <-.
  auto.
Qed.

Lemma in_bucket (cat : string -> string) (infos : list FileInfo)
    (k : string) (fs : list FileInfo) (fi : FileInfo) :
  In (k, fs) (sort_buckets (group cat infos)) -> In fi fs ->
  In fi infos /\ cat (info_filepath fi) = k.
Proof.
  intros H Hfi. apply in_sorted_group in H as [_ ->].
  apply (Permutation_in _ (sort_by_perm _ _)) in Hfi.
  apply List.filter_In in Hfi as [Hin E].
  apply String.eqb_eq in E. auto.
Qed.

Lemma bucket_of (cat : string -> string) (infos : list FileInfo)
    (fi : FileInfo) :
  In (cat (info_filepath fi)) labels -> In fi infos ->
  exists fs, In (cat (info_filepath fi), fs) (sort_buckets (group cat infos))
             /\ In fi fs.
Proof.
  intros Hl Hin. eexists. split.
  - unfold sort_buckets, group. rewrite map_map. cbn [fst snd].
    apply in_map_iff. exists (cat (info_filepath fi)). split; [reflexivity | exact Hl].
  - apply (Permutation_in _ (Permutation_sym (sort_by_perm _ _))).
    apply List.filter_In. split; [exact Hin | apply String.eqb_refl].
Qed.

Lemma in_page_infos (calc : FileMetrics -> num) healthHistory fi :
  In fi (page_infos calc healthHistory) <->
  exists latestEntry c f,
    latest_of healthHistory = Some latestEntry /\
    In c (components (results latestEntry)) /\ In f (files c) /\
    fi = PageBody.fileInfoOf calc
           (PageBody.previousScoresOf calc (previous_of healthHistory)) c f.
Proof.
  unfold page_infos. destruct (latest_of healthHistory) as [e|].
  - rewrite in_flat_map. split.
    + intros (c & Hc & Hf). apply in_map_iff in Hf as (f & <- & Hf).
      exists e, c, f. auto.
    + intros (e' & c & f & E & Hc & Hf & ->). injection E as <-.
      exists c. split; [exact Hc|]. apply in_map_iff. exists f. auto.
  - split; [intros [] | intros (e & c & f & E & _); discriminate].
Qed.

Lemma in_history_infos healthHistory fi :
  In fi (history_infos healthHistory) <->
  exists latestEntry c fi0,
    latest_of healthHistory = Some latestEntry /\
    In c (components (results latestEntry)) /\
    In fi0 (Utils.processFilesData (files c)
                                   (Some (previous_files healthHistory))) /\
    fi = with_component (name c) fi0.
Proof.
  unfold history_infos. destruct (latest_of healthHistory) as [e|].
  - rewrite in_flat_map. split.
    + intros (c & Hc & Hf). apply in_map_iff in Hf as (f & <- & Hf).
      exists e, c, f. auto.
    + intros (e' & c & f & E & Hc & Hf & ->). injection E as <-.
      exists c. split; [exact Hc|]. apply in_map_iff. exists f. auto.
  - split; [intros [] | intros (e & c & f & E & _); discriminate].
Qed.

Lemma page_infos_spread (calc : FileMetrics -> num) healthHistory :
  map spread (page_infos calc healthHistory)
  = map Some (latest_files healthHistory).
Proof.
  unfold page_infos, latest_files. destruct (latest_of healthHistory) as [e|];
    [|reflexivity].
  induction (components (results e)) as [|c cs IH]; simpl; [reflexivity|].
  rewrite !map_app, IH. f_equal. rewrite map_map. reflexivity.
Qed.

Lemma processFilesData_filepaths cur prev :
  map info_filepath (Utils.processFilesData cur prev) = map filepath cur.
Proof.
  unfold Utils.processFilesData. rewrite map_map. reflexivity.
Qed.

Lemma history_infos_filepaths healthHistory :
  map info_filepath (history_infos healthHistory)
  = map filepath (latest_files healthHistory).
Proof.
  unfold history_infos, latest_files. destruct (latest_of healthHistory) as [e|];
    [|reflexivity].
  induction (components (results e)) as [|c cs IH]; simpl; [reflexivity|].
  rewrite !map_app, IH. f_equal. rewrite map_map. simpl.
  apply processFilesData_filepaths.
Qed.

(** ** Reads and writes of a dictionary *)

Lemma prop_set_lookup_ne {V : Type} (k p : string) (v : V)
    (o : gmap string V) :
  k <> p -> prop_set k v o !! p = o !! p.
Proof.
  intros H. unfold prop_set.
  destruct (String.eqb k "__proto__"); [reflexivity|].
  now apply lookup_insert_ne.
Qed.

Lemma prop_set_lookup_eq {V : Type} (k : string) (v : V)
    (o : gmap string V) :
  k <> "__proto__" -> prop_set k v o !! k = Some v.
Proof.
  intros H. unfold prop_set.
  destruct (String.eqb_spec k "__proto__"); [contradiction|].
  apply lookup_insert_eq.
Qed.

Lemma prop_set_lookup_proto {V : Type} (k : string) (v : V)
    (o : gmap string V) :
  prop_set k v o !! "__proto__" = o !! "__proto__".
Proof.
  unfold prop_set. destruct (String.eqb_spec k "__proto__"); [reflexivity|].
  now apply lookup_insert_ne.
Qed.

Lemma prop_get_None {V : Type} (o : gmap string V) (k : string) :
  o !! k = None ->
  prop_get o k = if inherited k then Inherited else Undefined.
Proof. intros H. unfold prop_get. now rewrite H. Qed.

Lemma prop_get_Some {V : Type} (o : gmap string V) (k : string) (v : V) :
  o !! k = Some v -> prop_get o k = Own v.
Proof. intros H. unfold prop_get. now rewrite H. Qed.

(** ** The index of previous scores *)

Lemma score_index_from_absent (calc : FileMetrics -> num)
    (l : list FileMetrics) (m : gmap string num) (k : string) :
  (forall p, In p l -> filepath p <> k) ->
  foldl (fun m file => prop_set (filepath file) (calc file) m) m l !! k
  = m !! k.
Proof.
  revert m. induction l as [|f l IH]; intros m H; simpl; [reflexivity|].
  rewrite IH by (intros p Hp; apply H; now right).
  apply prop_set_lookup_ne. apply H. now left.
Qed.

Lemma score_index_absent (calc : FileMetrics -> num) (l : list FileMetrics)
    (k : string) :
  (forall p, In p l -> filepath p <> k) -> score_index calc l !! k = None.
Proof.
  intros H. unfold score_index.
  now rewrite score_index_from_absent.
Qed.

(** Nothing is ever stored under [__proto__]. *)
Lemma score_index_from_proto (calc : FileMetrics -> num)
    (l : list FileMetrics) (m : gmap string num) :
  foldl (fun m file => prop_set (filepath file) (calc file) m) m l
    !! "__proto__"
  = m !! "__proto__".
Proof.
  revert m. induction l as [|f l IH]; intros m; simpl; [reflexivity|].
  rewrite IH. apply prop_set_lookup_proto.
Qed.

Lemma score_index_proto (calc : FileMetrics -> num) (l : list FileMetrics) :
  score_index calc l !! "__proto__" = None.
Proof. unfold score_index. now rewrite score_index_from_proto. Qed.

Lemma score_index_last (calc : FileMetrics -> num)
    (l1 l2 : list FileMetrics) (f : FileMetrics) :
  filepath f <> "__proto__" ->
  (forall p, In p l2 -> filepath p <> filepath f) ->
  score_index calc (l1 ++ f :: l2) !! filepath f = Some (calc f).
Proof.
  intros Hp H. unfold score_index. rewrite foldl_app. simpl.
  rewrite score_index_from_absent by exact H.
  now apply prop_set_lookup_eq.
Qed.

Lemma Page_previousScores (calc : FileMetrics -> num) healthHistory :
  PageBody.previousScoresOf calc (previous_of healthHistory)
  = score_index calc (previous_files healthHistory).
Proof.
  unfold PageBody.previousScoresOf, previous_files, score_index.
  destruct (previous_of healthHistory) as [e|]; [|reflexivity].
  apply foldl_flat_map.
Qed.

Lemma Utils_previousScores (l : list FileMetrics) :
  Utils.previousScoresOf (Some l) = score_index Utils.calculateFileAvgScore l.
Proof. reflexivity. Qed.

Lemma valid_file_score (f : FileMetrics) :
  valid_file f -> exists z, Utils.calculateFileAvgScore f = Num z.
Proof. intros H. rewrite (Utils_avg_of_valid f H). eauto. Qed.

Lemma nsub_diag (a : num) : (exists z, a = Num z) -> nsub a a = Num 0.
Proof. intros [z ->]. simpl. f_equal. lia. Qed.

(** ** A file seen for the first time *)

Lemma fileInfoOf_first (calc : FileMetrics -> num) (l : list FileMetrics)
    (c : Component) (f : FileMetrics) :
  (forall p, In p l -> filepath p <> filepath f) ->
  inherited (filepath f) = false ->
  (exists z, calc f = Num z) ->
  let fi := PageBody.fileInfoOf calc (score_index calc l) c f in
  score fi = calc f /\ previousScore fi = score fi /\ scoreChange fi = Num 0.
Proof.
  intros Habs Hin Hz. unfold PageBody.fileInfoOf. cbv zeta.
  cbn [score previousScore scoreChange].
  rewrite (prop_get_None _ _ (score_index_absent calc l _ Habs)), Hin.
  cbn [or_default to_number].
  repeat split. now apply nsub_diag.
Qed.

(** Under one of the names of [Object.prototype], a file seen for the
    first time gets the inherited member as its previous score, and NaN
    as its change. *)
Lemma fileInfoOf_inherited (calc : FileMetrics -> num)
    (l : list FileMetrics) (c : Component) (f : FileMetrics) :
  (forall p, In p l -> filepath p <> filepath f) ->
  inherited (filepath f) = true ->
  let fi := PageBody.fileInfoOf calc (score_index calc l) c f in
  previousScore fi = Member /\ scoreChange fi = NaN.
Proof.
  intros Habs Hin. unfold PageBody.fileInfoOf. cbv zeta.
  cbn [score previousScore scoreChange].
  rewrite (prop_get_None _ _ (score_index_absent calc l _ Habs)), Hin.
  cbn [or_default to_number]. split; [reflexivity|].
  now destruct (calc f).
Qed.

Lemma processFilesData_lookup cur prev (i : nat) (f : FileMetrics) :
  cur !! i = Some f ->
  exists fi,
    Utils.processFilesData cur prev !! i = Some fi /\
    info_filepath fi = filepath f /\
    score fi = Utils.calculateFileAvgScore f /\
    previousScore fi
    = or_default (prop_get (Utils.previousScoresOf prev) (filepath f))
                 (Utils.calculateFileAvgScore f) /\
    scoreChange fi = nsub (score fi) (to_number (previousScore fi)).
Proof.
  intros H. unfold Utils.processFilesData.
  rewrite list_lookup_fmap, H. simpl. eexists. split; [reflexivity|].
  simpl. auto.
Qed.

(** For every filepath that is not a property name of [Object.prototype]:
    a file whose filepath does not occur in the preceding snapshot (or
    that has no preceding snapshot) is shown with [previousScore] equal to
    its own composite score and [scoreChange] 0. This holds for the view
    the [CodeHealth] page files under the file's category and for the view
    [processFilesData] returns at the file's position. *)
Lemma first_appearance_zero_change
    (healthHistory : list HealthHistoryEntry)
    (latestEntry : HealthHistoryEntry) (c : Component) (f : FileMetrics)
    (i : nat) :
  latest_of healthHistory = Some latestEntry ->
  In c (components (results latestEntry)) ->
  files c !! i = Some f ->
  valid_file f ->
  inherited (filepath f) = false ->
  (forall p, In p (previous_files healthHistory) -> filepath p <> filepath f) ->
  (exists buckets,
      Page.getFilesGroupedByType healthHistory = Some buckets /\
      (exists fs fi,
          In (Page.categorizeFileByPath (filepath f), fs) buckets /\
          In fi fs /\ spread fi = Some f /\ component fi = Some (name c)) /\
      (forall k fs fi,
          In (k, fs) buckets -> In fi fs -> spread fi = Some f ->
          score fi = Page.calculateFileAvgScore f /\
          previousScore fi = score fi /\
          scoreChange fi = Num 0))
  /\ (forall prev,
        prev = None \/ prev = Some (previous_files healthHistory) ->
        exists fi,
          Utils.processFilesData (files c) prev !! i = Some fi /\
          info_filepath fi = filepath f /\
          score fi = Utils.calculateFileAvgScore f /\
          previousScore fi = score fi /\
          scoreChange fi = Num 0).
Proof.
  intros El Hc Hi Hv Hinh Habs.
  assert (Hf : In f (files c)).
  { apply list_elem_of_In. eapply list_elem_of_lookup_2. exact Hi. }
  pose proof (valid_file_score f Hv) as Hz.
  split.
  - eexists. split.
    { unfold Page.getFilesGroupedByType.
      apply PageBody_grouped;
        [apply Page_categorize_label | eapply latest_of_Some; exact El]. }
    split.
    + set (fi := PageBody.fileInfoOf Page.calculateFileAvgScore
                   (PageBody.previousScoresOf Page.calculateFileAvgScore
                      (previous_of healthHistory)) c f).
      destruct (bucket_of Page.categorizeFileByPath
                  (page_infos Page.calculateFileAvgScore healthHistory) fi)
        as (fs & Hb & Hin).
      * apply Page_categorize_label.
      * apply in_page_infos. exists latestEntry, c, f. auto.
      * exists fs, fi. auto.
    + intros k fs fi Hb Hin Hs.
      apply (in_bucket _ _ _ _ _ Hb) in Hin as [Hin _].
      apply in_page_infos in Hin as (e & c' & f' & _ & _ & _ & ->).
      simpl in Hs. injection Hs as ->.
      rewrite Page_previousScores.
      apply (fileInfoOf_first Page.calculateFileAvgScore); assumption.
  - intros prev Hprev.
    destruct (processFilesData_lookup (files c) prev i f Hi)
      as (fi & E & Hp & Hs & Hprv & Hch).
    exists fi. split; [exact E|]. split; [exact Hp|]. split; [exact Hs|].
    assert (Hnone : Utils.previousScoresOf prev !! filepath f = None).
    { destruct Hprev as [-> | ->]; [apply lookup_empty|].
      rewrite Utils_previousScores. now apply score_index_absent. }
    rewrite (prop_get_None _ _ Hnone), Hinh in Hprv.
    cbn [or_default] in Hprv.
    assert (Hps : previousScore fi = score fi) by congruence.
    split; [exact Hps|].
    rewrite Hch, Hps. cbn [to_number]. apply nsub_diag. rewrite Hs. exact Hz.
Qed.

Lemma uniform_file_valid (path : string) (s : Z) :
  0 <= s <= 100 -> valid_file (uniform_file path s).
Proof.
  intros H. unfold valid_file, uniform_file, sub_scores. simpl.
  repeat (constructor; [exists s; split; [reflexivity | exact H]|]).
  constructor.
Qed.

Example first_appearance_example :
  exists fi,
    Utils.processFilesData (files sample_component)
      (Some (previous_files sample_history)) !! 1%nat = Some fi /\
    info_filepath fi = "ui/pages/B.tsx" /\
    score fi = Num 70 /\ previousScore fi = Num 70 /\ scoreChange fi = Num 0.
Proof.
  destruct (first_appearance_zero_change sample_history sample_latest
              sample_component (uniform_file "ui/pages/B.tsx" 70) 1)
    as [_ H].
  - reflexivity.
  - left. reflexivity.
  - reflexivity.
  - apply uniform_file_valid. lia.
  - reflexivity.
  - intros p [<-|[]]. discriminate.
  - destruct (H (Some (previous_files sample_history)) (or_intror eq_refl))
      as (fi & E & Hp & Hs & Hprev & Hch).
    exists fi. split; [exact E|]. split; [exact Hp|].
    assert (Hs' : score fi = Num 70) by (rewrite Hs; vm_compute; reflexivity).
    split; [exact Hs'|]. split; [now rewrite Hprev, Hs' | exact Hch].
Qed.

(** C4: at a file seen for the first time whose filepath is a property
    name of [Object.prototype], here [constructor] with every sub-score
    70, [previousScores["constructor"]] reads the function every object
    inherits: from [processFilesData] and on the [CodeHealth] page the
    view carries that function as its previous score and NaN as its
    change, not a previous score of 70 and a change of 0, which a file
    with the same scores gets under an ordinary path. *)
Theorem inherited_name_breaks_first_appearance :
  valid_file (uniform_file "constructor" 70)
  /\ map shown_scores
         (Utils.processFilesData [uniform_file "constructor" 70] None)
     = [(Num 70, Member, NaN)]
  /\ map shown_scores
         (Utils.processFilesData [uniform_file "constructor" 70]
            (Some [uniform_file "ui/pages/A.tsx" 80]))
     = [(Num 70, Member, NaN)]
  /\ option_map bucket_scores
       (Page.getFilesGroupedByType
          [ snapshot 1 [uniform_file "ui/pages/A.tsx" 80];
            snapshot 2 [uniform_file "constructor" 70] ])
     = Some [ ("Pages", []); ("Components", []); ("UI Files", []);
              ("API Files", []); ("Other", [(Num 70, Member, NaN)]) ]
  /\ map shown_scores
         (Utils.processFilesData [uniform_file "README.md" 70] None)
     = [(Num 70, Val (Num 70), Num 0)].
Proof.
  split; [apply uniform_file_valid; lia|].
  vm_compute. repeat split.
Qed.

(** ** A file present in both snapshots *)

(** Where the score recorded for the preceding snapshot is a non-zero
    number, the view carries it and the difference to it. *)
Lemma fileInfoOf_tracked (calc : FileMetrics -> num)
    (l1 l2 : list FileMetrics) (p : FileMetrics) (c : Component)
    (f : FileMetrics) (z : Z) :
  filepath p = filepath f ->
  filepath p <> "__proto__" ->
  (forall q, In q l2 -> filepath q <> filepath p) ->
  calc p = Num z -> z <> 0 ->
  let fi := PageBody.fileInfoOf calc (score_index calc (l1 ++ p :: l2)) c f in
  score fi = calc f /\ previousScore fi = calc p
  /\ scoreChange fi = nsub (calc f) (calc p).
Proof.
  intros Hp Hpr Hl2 Hz Hnz. unfold PageBody.fileInfoOf. cbv zeta.
  cbn [score previousScore scoreChange].
  rewrite <- Hp.
  rewrite (prop_get_Some _ _ _ (score_index_last calc l1 l2 p Hpr Hl2)), Hz.
  cbn [or_default truthy].
  destruct (Z.eqb_spec z 0); [contradiction|]. cbn [negb to_number]. auto.
Qed.

Lemma processFilesData_tracked (cur l1 l2 : list FileMetrics)
    (p f : FileMetrics) (i : nat) (z : Z) :
  cur !! i = Some f ->
  filepath p = filepath f ->
  filepath p <> "__proto__" ->
  (forall q, In q l2 -> filepath q <> filepath p) ->
  Utils.calculateFileAvgScore p = Num z -> z <> 0 ->
  exists fi,
    Utils.processFilesData cur (Some (l1 ++ p :: l2)) !! i = Some fi /\
    score fi = Utils.calculateFileAvgScore f /\
    previousScore fi = Num z /\
    scoreChange fi = nsub (Utils.calculateFileAvgScore f) (Num z).
Proof.
  intros Hi Hp Hpr Hl2 Hz Hnz.
  destruct (processFilesData_lookup cur (Some (l1 ++ p :: l2)) i f Hi)
    as (fi & E & _ & Hs & Hprev & Hch).
  exists fi. split; [exact E|]. split; [exact Hs|].
  rewrite Utils_previousScores, <- Hp in Hprev.
  rewrite (prop_get_Some _ _ _ (score_index_last _ l1 l2 p Hpr Hl2)), Hz
    in Hprev.
  cbn [or_default truthy] in Hprev.
  destruct (Z.eqb_spec z 0); [contradiction|]. cbn [negb] in Hprev.
  split; [exact Hprev|]. now rewrite Hch, Hs, Hprev.
Qed.

(** The change can be negative, zero or positive. *)
Example score_change_signs :
  map (fun s =>
         map scoreChange
             (Utils.processFilesData [uniform_file "a.ts" s]
                                     (Some [uniform_file "a.ts" 60])))
      [50; 60; 75]
  = [[Num (-10)]; [Num 0]; [Num 15]].
Proof. vm_compute. reflexivity. Qed.

(** C3: at a file whose composite score in the preceding snapshot is 0
    (every sub-score 0) and 50 now, both variants report the current score
    as [previousScore] and a change of 0, not a previous score of 0 and a
    change of 50: [previousScores[filepath] || avgScore] discards a
    recorded 0. *)
Theorem previous_score_zero_is_dropped :
  Utils.calculateFileAvgScore (uniform_file "ui/pages/A.tsx" 0) = Num 0
  /\ Utils.calculateFileAvgScore (uniform_file "ui/pages/A.tsx" 50) = Num 50
  /\ map shown_scores
         (Utils.processFilesData [uniform_file "ui/pages/A.tsx" 50]
                                 (Some [uniform_file "ui/pages/A.tsx" 0]))
     = [(Num 50, Val (Num 50), Num 0)]
  /\ option_map bucket_scores (Page.getFilesGroupedByType zero_then_fifty)
     = Some [ ("Pages", [(Num 50, Val (Num 50), Num 0)]); ("Components", []);
              ("UI Files", []); ("API Files", []); ("Other", []) ]
  /\ option_map bucket_scores
       (HistoryPage.getFilesGroupedByType zero_then_fifty)
     = Some [ ("Pages", [(Num 50, Val (Num 50), Num 0)]); ("Components", []);
              ("UI Files", []); ("API Files", []); ("Other", []) ].
Proof. vm_compute. repeat split. Qed.

(** The specification's end-to-end scenario. *)
Example end_to_end :
  option_map bucket_scores
    (Page.getFilesGroupedByType
       [ snapshot 1 [uniform_file "ui/pages/A.tsx" 80];
         snapshot 2 [uniform_file "ui/pages/A.tsx" 90] ])
  = Some [ ("Pages", [(Num 90, Val (Num 80), Num 10)]); ("Components", []);
           ("UI Files", []); ("API Files", []); ("Other", []) ].
Proof. vm_compute. reflexivity. Qed.

(** ** Order inside a bucket *)

Lemma page_infos_have_score healthHistory :
  Forall valid_file (latest_files healthHistory) ->
  Forall has_score (page_infos Page.calculateFileAvgScore healthHistory).
Proof.
  intros H. apply List.Forall_forall. intros fi Hin.
  apply in_page_infos in Hin as (e & c & f & El & Hc & Hf & ->).
  unfold has_score. simpl. apply valid_file_score.
  rewrite List.Forall_forall in H. apply H.
  unfold latest_files. rewrite El. apply in_flat_map. eauto.
Qed.

Lemma history_infos_have_score healthHistory :
  Forall valid_file (latest_files healthHistory) ->
  Forall has_score (history_infos healthHistory).
Proof.
  intros H. apply List.Forall_forall. intros fi Hin.
  apply in_history_infos in Hin as (e & c & fi0 & El & Hc & Hf & ->).
  unfold Utils.processFilesData in Hf.
  apply in_map_iff in Hf as (f & <- & Hf).
  unfold has_score. simpl. apply valid_file_score.
  rewrite List.Forall_forall in H. apply H.
  unfold latest_files. rewrite El. apply in_flat_map. eauto.
Qed.

Lemma sorted_group_ascending (cat : string -> string)
    (infos : list FileInfo) (k : string) (fs : list FileInfo) :
  Forall has_score infos ->
  In (k, fs) (sort_buckets (group cat infos)) -> ascending fs.
Proof.
  intros H Hb. apply in_sorted_group in Hb as [_ ->].
  apply Sorted_ascending, sort_by_score_sorted.
  rewrite List.Forall_forall in *. intros fi Hfi.
  apply List.filter_In in Hfi as [Hfi _]. now apply H.
Qed.

(** C8: in what [getFilesGroupedByType] returns, on the [CodeHealth] page
    and on the [CodeHealthHistory] page, the files of every bucket are in
    ascending order of composite score: of two files at consecutive
    positions the earlier has the smaller or equal score. *)
Theorem buckets_sorted_ascending
    (healthHistory : list HealthHistoryEntry) (buckets : Buckets)
    (k : string) (fs : list FileInfo) :
  Forall valid_file (latest_files healthHistory) ->
  Page.getFilesGroupedByType healthHistory = Some buckets
  \/ HistoryPage.getFilesGroupedByType healthHistory = Some buckets ->
  In (k, fs) buckets ->
  ascending fs.
Proof.
  intros Hv Hg Hb.
  destruct healthHistory as [|e0 l] eqn:Eh.
  { destruct Hg as [Hg|Hg]; vm_compute in Hg; injection Hg as <-;
      destruct Hb. }
  rewrite <- Eh in *.
  assert (Hne : healthHistory <> []) by (rewrite Eh; discriminate).
  destruct Hg as [Hg|Hg].
  - unfold Page.getFilesGroupedByType in Hg.
    rewrite (PageBody_grouped _ _ Page_categorize_label _ Hne) in Hg.
    injection Hg as <-.
    eapply sorted_group_ascending; [|exact Hb].
    now apply page_infos_have_score.
  - rewrite (HistoryPage_grouped _ Hne) in Hg. injection Hg as <-.
    eapply sorted_group_ascending; [|exact Hb].
    now apply history_infos_have_score.
Qed.

Lemma sample_history_valid : Forall valid_file (latest_files sample_history).
Proof.
  change (Forall valid_file [ uniform_file "ui/pages/A.tsx" 90;
                              uniform_file "ui/pages/B.tsx" 70 ]).
  constructor; [apply uniform_file_valid; lia|].
  constructor; [apply uniform_file_valid; lia|].
  constructor.
Defined.

Lemma buckets_sorted_ascending_witness :
  exists buckets fs,
    Page.getFilesGroupedByType sample_history = Some buckets /\
    In ("Pages", fs) buckets /\
    map score fs = [Num 70; Num 90] /\
    ascending fs.
Proof.
  eexists. eexists.
  split; [vm_compute; reflexivity|].
  split; [left; reflexivity|].
  split; [reflexivity|].
  eapply (buckets_sorted_ascending sample_history _ "Pages").
  - exact sample_history_valid.
  - left. vm_compute. reflexivity.
  - left. reflexivity.
Defined.

(** ** The buckets partition the latest snapshot *)

Lemma sorted_group_members (cat : string -> string) (infos : list FileInfo) :
  (forall p, In (cat p) labels) ->
  Permutation (concat (map snd (sort_buckets (group cat infos)))) infos.
Proof.
  intros Hcat. rewrite sort_buckets_perm. now apply group_partition.
Qed.

Lemma total_size_perm (o : Buckets) (infos : list FileInfo) :
  Permutation (concat (map snd o)) infos -> total_size o = length infos.
Proof. intros H. unfold total_size. now rewrite H. Qed.

(** C10: for a history that is not empty, [getFilesGroupedByType] returns
    the five buckets (Pages, Components, UI Files, API Files, Other), and
    every file entry of every component of the latest snapshot is in
    exactly one of them, the one of its category: the buckets taken together
    are a rearrangement of the file entries, and their sizes add up to the
    number of file entries. This holds on the [CodeHealth] page and on the
    [CodeHealthHistory] page. *)
Theorem buckets_partition_latest (healthHistory : list HealthHistoryEntry) :
  healthHistory <> [] ->
  (exists buckets,
      Page.getFilesGroupedByType healthHistory = Some buckets /\
      map fst buckets = labels /\
      Permutation (map spread (concat (map snd buckets)))
                  (map Some (latest_files healthHistory)) /\
      total_size buckets = length (latest_files healthHistory) /\
      (forall k fs fi,
          In (k, fs) buckets -> In fi fs ->
          Page.categorizeFileByPath (info_filepath fi) = k))
  /\ (exists buckets,
        HistoryPage.getFilesGroupedByType healthHistory = Some buckets /\
        map fst buckets = labels /\
        Permutation (map info_filepath (concat (map snd buckets)))
                    (map filepath (latest_files healthHistory)) /\
        total_size buckets = length (latest_files healthHistory) /\
        (forall k fs fi,
            In (k, fs) buckets -> In fi fs ->
            Utils.categorizeFileByPath (info_filepath fi) = k)).
Proof.
  intros Hne. split.
  - eexists. split.
    { unfold Page.getFilesGroupedByType.
      exact (PageBody_grouped _ _ Page_categorize_label _ Hne). }
    pose proof (sorted_group_members Page.categorizeFileByPath
                  (page_infos Page.calculateFileAvgScore healthHistory)
                  Page_categorize_label) as P.
    split; [now rewrite sort_buckets_keys, group_keys|].
    split; [rewrite P; now rewrite page_infos_spread|].
    split.
    + rewrite (total_size_perm _ _ P).
      rewrite <- (length_map spread), page_infos_spread. apply length_map.
    + intros k fs fi Hb Hin. now apply (in_bucket _ _ _ _ _ Hb) in Hin.
  - eexists. split; [exact (HistoryPage_grouped _ Hne)|].
    pose proof (sorted_group_members Utils.categorizeFileByPath
                  (history_infos healthHistory) Utils_categorize_label) as P.
    split; [now rewrite sort_buckets_keys, group_keys|].
    split; [rewrite P; now rewrite history_infos_filepaths|].
    split.
    + rewrite (total_size_perm _ _ P).
      rewrite <- (length_map info_filepath), history_infos_filepaths.
      apply length_map.
    + intros k fs fi Hb Hin. now apply (in_bucket _ _ _ _ _ Hb) in Hin.
Qed.

Lemma buckets_partition_latest_witness :
  exists buckets,
    Page.getFilesGroupedByType sample_history = Some buckets /\
    map fst buckets = labels /\
    total_size buckets = 2%nat.
Proof.
  destruct (buckets_partition_latest sample_history) as [(b & E & K & _ & T & _) _].
  - discriminate.
  - exists b. split; [exact E|]. split; [exact K | exact T].
Defined.

(** ** Empty buckets are not rendered *)

Lemma renderSection_Some (entry : string * list FileInfo)
    (item : SectionAccordion.Item) :
  SectionAccordion.renderSection entry = Some item ->
  SectionAccordion.section item = fst entry
  /\ SectionAccordion.item_files item = snd entry
  /\ snd entry <> [].
Proof.
  unfold SectionAccordion.renderSection. destruct entry as [k fs]. simpl.
  destruct fs as [|fi fs]; simpl; [discriminate|].
  intros H. injection H as <-. simpl. repeat split. discriminate.
Qed.

Lemma renderOverview_Some (sections : Buckets)
    (item : PageBody.OverviewItem) :
  In (Some item) (PageBody.renderOverview sections) ->
  In (PageBody.ov_section item, PageBody.ov_files item) sections
  /\ PageBody.ov_files item <> [].
Proof.
  unfold PageBody.renderOverview. intros H.
  apply in_map_iff in H as ([k fs] & E & Hin). simpl in E.
  destruct fs as [|fi fs]; simpl in E; [discriminate|].
  injection E as <-. simpl. split; [exact Hin | discriminate].
Qed.

Lemma unique_entry (sections : Buckets) (k : string)
    (v1 v2 : list FileInfo) :
  List.NoDup (map fst sections) ->
  In (k, v1) sections -> In (k, v2) sections -> v1 = v2.
Proof.
  induction sections as [|[k' v'] o IH]; simpl; intros Hnd H1 H2; [destruct H1|].
  apply List.NoDup_cons_iff in Hnd as [Hni Hnd].
  destruct H1 as [E1|H1], H2 as [E2|H2].
  - congruence.
  - injection E1 as -> ->. exfalso. apply Hni.
    apply in_map_iff. exists (k, v2). auto.
  - injection E2 as -> ->. exfalso. apply Hni.
    apply in_map_iff. exists (k, v1). auto.
  - now apply IH.
Qed.

Lemma labels_NoDup : List.NoDup labels.
Proof.
  unfold labels. repeat (constructor; [simpl; intuition discriminate|]).
  constructor.
Qed.

Lemma grouped_keys_NoDup (healthHistory : list HealthHistoryEntry)
    (sections : Buckets) :
  Page.getFilesGroupedByType healthHistory = Some sections
  \/ FullPage.getFilesGroupedByType healthHistory = Some sections
  \/ HistoryPage.getFilesGroupedByType healthHistory = Some sections ->
  List.NoDup (map fst sections).
Proof.
  intros H. destruct healthHistory as [|e0 l] eqn:Eh.
  { destruct H as [H|[H|H]]; vm_compute in H; injection H as <-; constructor. }
  rewrite <- Eh in *.
  assert (Hne : healthHistory <> []) by (rewrite Eh; discriminate).
  destruct H as [H|[H|H]].
  - unfold Page.getFilesGroupedByType in H.
    rewrite (PageBody_grouped _ _ Page_categorize_label _ Hne) in H.
    apply (inj Some) in H. subst sections.
    rewrite sort_buckets_keys, group_keys.
    apply labels_NoDup.
  - unfold FullPage.getFilesGroupedByType in H.
    rewrite (PageBody_grouped _ _ FullPage_categorize_label _ Hne) in H.
    apply (inj Some) in H. subst sections.
    rewrite sort_buckets_keys, group_keys.
    apply labels_NoDup.
  - rewrite (HistoryPage_grouped _ Hne) in H.
    apply (inj Some) in H. subst sections.
    rewrite sort_buckets_keys, group_keys.
    apply labels_NoDup.
Qed.

(** Without the guard the averages of an empty bucket would be NaN. *)
Example empty_bucket_average_is_NaN :
  SectionAccordion.avgScoreOf [] = NaN
  /\ SectionAccordion.avgPrevScoreOf [] = NaN.
Proof. split; reflexivity. Qed.

(** C7: a bucket of the grouped output that holds no files yields [null]
    in [SectionAccordion] and in the overview tab of the [CodeHealth]
    pages, so nothing is rendered under its name and its averages are never
    computed; every item that is rendered has at least one file. *)
Theorem empty_bucket_is_omitted
    (healthHistory : list HealthHistoryEntry) (sections : Buckets)
    (name : string) :
  Page.getFilesGroupedByType healthHistory = Some sections
  \/ FullPage.getFilesGroupedByType healthHistory = Some sections
  \/ HistoryPage.getFilesGroupedByType healthHistory = Some sections ->
  In (name, []) sections ->
  SectionAccordion.renderSection (name, []) = None
  /\ In None (SectionAccordion.render sections)
  /\ (forall item,
        In item (SectionAccordion.shown sections) ->
        SectionAccordion.section item <> name
        /\ SectionAccordion.item_files item <> []
        /\ SectionAccordion.count item <> 0%nat)
  /\ In None (PageBody.renderOverview sections)
  /\ (forall item,
        In (Some item) (PageBody.renderOverview sections) ->
        PageBody.ov_section item <> name
        /\ PageBody.ov_files item <> []).
Proof.
  intros Hg Hin. pose proof (grouped_keys_NoDup _ _ Hg) as Hnd.
  split; [reflexivity|].
  split.
  { unfold SectionAccordion.render. apply in_map_iff.
    exists (name, []). auto. }
  split.
  { intros item Hit. unfold SectionAccordion.shown in Hit.
    apply list_elem_of_In, list_elem_of_omap in Hit as (o & Ho & E).
    simpl in E. subst o. apply list_elem_of_In in Ho.
    unfold SectionAccordion.render in Ho.
    apply in_map_iff in Ho as ([k fs] & Hr & Hk).
    pose proof Hr as Hc.
    apply renderSection_Some in Hr as (Hs & Hf & Hne). simpl in *.
    split.
    - intros En. rewrite En in Hs. subst k.
      apply Hne. exact (unique_entry _ _ _ _ Hnd Hk Hin).
    - split; [now rewrite Hf|].
      unfold SectionAccordion.renderSection in Hc. simpl in Hc.
      destruct fs; [contradiction|]. simpl in Hc. injection Hc as <-.
      simpl. discriminate. }
  split.
  { unfold PageBody.renderOverview. apply in_map_iff.
    exists (name, []). auto. }
  intros item Hit. apply renderOverview_Some in Hit as [Hk Hne].
  split; [|exact Hne].
  intros En. rewrite En in Hk. apply Hne.
  exact (unique_entry _ _ _ _ Hnd Hk Hin).
Qed.

Lemma empty_bucket_is_omitted_witness :
  exists sections,
    HistoryPage.getFilesGroupedByType sample_history = Some sections /\
    In ("Other", []) sections /\
    map SectionAccordion.section (SectionAccordion.shown sections) = ["Pages"] /\
    forall item,
      In item (SectionAccordion.shown sections) ->
      SectionAccordion.section item <> "Other".
Proof.
  eexists. split; [vm_compute; reflexivity|].
  split; [do 4 right; left; reflexivity|].
  split; [reflexivity|].
  intros item Hit.
  eapply (empty_bucket_is_omitted sample_history _ "Other").
  - right. right. vm_compute. reflexivity.
  - do 4 right. left. reflexivity.
  - exact Hit.
Defined.

(** The averages of a rendered section are numbers when the scores of its
    files are. *)
Lemma sum_scores_Num (g : FileInfo -> num) (files : list FileInfo) (a : Z) :
  Forall (fun fi => exists z, g fi = Num z) files ->
  exists s, fold_left (fun sum file => nadd sum (g file)) files (Num a) = Num s.
Proof.
  revert a. induction files as [|fi files IH]; intros a H; simpl; [eauto|].
  apply Forall_cons_1 in H as [[z Hz] H]. rewrite Hz. simpl. now apply IH.
Qed.

(** While numbers are added, the accumulator of the [reduce] is the sum
    of the numbers. *)
Lemma fold_sum_add (g : FileInfo -> jsval) (k : FileInfo -> num)
    (files : list FileInfo) (a : num) :
  Forall (fun fi => g fi = Val (k fi)) files ->
  fold_left (fun sum file => sum_add sum (g file)) files (SumNum a)
  = SumNum (fold_left (fun sum file => nadd sum (k file)) files a).
Proof.
  revert a. induction files as [|fi files IH]; intros a H; [reflexivity|].
  apply Forall_cons_1 in H as [E H]. cbn [fold_left]. rewrite E.
  cbn [sum_add]. now apply IH.
Qed.

Lemma val_or_number (fi : FileInfo) :
  previousScore fi <> Member ->
  val_or (previousScore fi) (score fi) = Val (previous_or_score fi).
Proof.
  unfold previous_or_score. destruct (previousScore fi) as [p|];
    [|contradiction].
  intros _. cbn [val_or]. now destruct (truthy p).
Qed.

Lemma rendered_averages_are_numbers (entry : string * list FileInfo)
    (item : SectionAccordion.Item) :
  SectionAccordion.renderSection entry = Some item ->
  Forall has_score (snd entry) ->
  Forall (fun fi => previousScore fi <> Member) (snd entry) ->
  exists a p,
    SectionAccordion.sectionAvgScore item = Num a /\
    SectionAccordion.sectionAvgPrevScore item = Num p /\
    SectionAccordion.sectionScoreChange item = Num (a - p).
Proof.
  destruct entry as [k fs]. unfold SectionAccordion.renderSection. simpl.
  destruct fs as [|fi0 fs0] eqn:Efs; [discriminate|]. rewrite <- Efs.
  assert (Hlen : 0 < Z.of_nat (length fs)) by (rewrite Efs; simpl; lia).
  assert (E0 : (length fs =? 0)%nat = false) by (rewrite Efs; reflexivity).
  rewrite E0. intros H Hs Hm. injection H as <-. simpl.
  destruct (sum_scores_Num score fs 0) as [s1 E1]; [exact Hs|].
  destruct (sum_scores_Num previous_or_score fs 0) as [s2 E2].
  { rewrite List.Forall_forall in *. intros x Hx.
    destruct (Hs x Hx) as [z Hz]. specialize (Hm x Hx).
    unfold previous_or_score.
    destruct (previousScore x) as [p|]; [|contradiction].
    cbn [val_or]. destruct p as [p|]; cbn [truthy to_number].
    - destruct (p =? 0); cbn [negb to_number]; eauto.
    - eauto. }
  unfold SectionAccordion.avgScoreOf, SectionAccordion.avgPrevScoreOf.
  rewrite (fold_sum_add _ previous_or_score).
  - cbn [sum_round_quot]. rewrite E1, E2, !round_quot_Num by exact Hlen.
    eauto.
  - rewrite List.Forall_forall in *. intros x Hx.
    now apply val_or_number, Hm.
Qed.

(** ** Trends *)

Lemma forEach_flat_map {A B S : Type} (f : S -> B -> option S)
    (g : A -> list B) (l : list A) (s : S) :
  forEach (fun s a => forEach f (g a) s) l s = forEach f (flat_map g l) s.
Proof.
  revert s. induction l as [|a l IH]; intros s; simpl; [reflexivity|].
  rewrite forEach_app.
  destruct (forEach f (g a) s); [apply IH | reflexivity].
Qed.

Section Trends.

Variable calc : FileMetrics -> num.

Lemma fileScoresOf_flat (healthHistory : list HealthHistoryEntry) :
  PageBody.fileScoresOf calc healthHistory
  = forEach (PageBody.recordScore calc) (all_files healthHistory) ∅.
Proof.
  unfold PageBody.fileScoresOf, all_files.
  generalize (∅ : gmap string (list num)).
  induction healthHistory as [|e l IH]; intros m; simpl; [reflexivity|].
  rewrite forEach_app, forEach_flat_map.
  destruct (forEach _ (flat_map files (components (results e))) m);
    [apply IH | reflexivity].
Qed.

(** Under an ordinary path the loop appends the score to the scores of
    the path. *)
Lemma record_ordinary (m : gmap string (list num)) (f : FileMetrics) :
  inherited (filepath f) = false ->
  PageBody.recordScore calc m f = Some (recorded calc m f).
Proof.
  intros H. unfold PageBody.recordScore, recorded, prop_get. cbv zeta.
  destruct (m !! filepath f) as [scores|] eqn:E.
  - rewrite E. reflexivity.
  - rewrite H, lookup_insert_eq. cbn [default].
    now rewrite insert_insert_eq.
Qed.

(** Under a name of [Object.prototype] it throws, as long as nothing is
    stored under the name. *)
Lemma record_inherited (m : gmap string (list num)) (f : FileMetrics) :
  inherited (filepath f) = true -> m !! filepath f = None ->
  PageBody.recordScore calc m f = None.
Proof.
  intros H E. unfold PageBody.recordScore, prop_get. cbv zeta.
  rewrite E, H. cbv iota. now rewrite E.
Qed.

Lemma forEach_record_ordinary (l : list FileMetrics)
    (m : gmap string (list num)) :
  Forall (fun f => inherited (filepath f) = false) l ->
  forEach (PageBody.recordScore calc) l m = Some (foldl (recorded calc) m l).
Proof.
  intros H. revert m. induction H as [|f l Hf Hl IH]; intros m;
    [reflexivity|].
  cbn [forEach foldl]. rewrite (record_ordinary m f Hf). apply IH.
Qed.

Lemma forEach_record_inherited (l : list FileMetrics)
    (m : gmap string (list num)) :
  (forall k, inherited k = true -> m !! k = None) ->
  Exists (fun f => inherited (filepath f) = true) l ->
  forEach (PageBody.recordScore calc) l m = None.
Proof.
  intros Hm H. revert m Hm. induction l as [|f l IH]; intros m Hm.
  - inversion H.
  - cbn [forEach].
    destruct (inherited (filepath f)) eqn:Ef.
    + now rewrite (record_inherited m f Ef (Hm _ Ef)).
    + rewrite (record_ordinary m f Ef). apply IH.
      * inversion H as [? ? Hx|? ? Hx]; subst; [congruence | exact Hx].
      * intros k Hk. unfold recorded.
        rewrite lookup_insert_ne by (intros <-; congruence).
        now apply Hm.
Qed.

Lemma recorded_lookup (m : gmap string (list num)) (f : FileMetrics)
    (p : string) :
  recorded calc m f !! p
  = if String.eqb (filepath f) p
    then Some (default [] (m !! p) ++ [calc f])
    else m !! p.
Proof.
  unfold recorded.
  destruct (String.eqb_spec (filepath f) p) as [->|Hne].
  - apply lookup_insert_eq.
  - now apply lookup_insert_ne.
Qed.

Lemma foldl_recorded_lookup (l : list FileMetrics)
    (m : gmap string (list num)) (p : string) :
  foldl (recorded calc) m l !! p
  = match map calc (List.filter (fun f => String.eqb (filepath f) p) l) with
    | [] => m !! p
    | obs => Some (default [] (m !! p) ++ obs)
    end.
Proof.
  revert m. induction l as [|f l IH]; intros m; simpl; [reflexivity|].
  rewrite IH, recorded_lookup.
  destruct (String.eqb (filepath f) p); simpl; [|reflexivity].
  destruct (map calc _) as [|o obs]; simpl.
  - reflexivity.
  - now rewrite <- app_assoc.
Qed.

(** With ordinary paths only, [fileScores] holds for every path the
    scores observed for it; with a file under a name of
    [Object.prototype], the loop throws. *)
Lemma fileScoresOf_lookup (healthHistory : list HealthHistoryEntry) :
  Forall (fun f => inherited (filepath f) = false) (all_files healthHistory) ->
  exists fileScores,
    PageBody.fileScoresOf calc healthHistory = Some fileScores
    /\ forall p,
         fileScores !! p
         = match observations calc p healthHistory with
           | [] => None
           | obs => Some obs
           end.
Proof.
  intros H. eexists. split.
  - rewrite fileScoresOf_flat. now apply forEach_record_ordinary.
  - intros p. rewrite foldl_recorded_lookup, lookup_empty. reflexivity.
Qed.

Lemma fileScoresOf_throws (healthHistory : list HealthHistoryEntry) :
  Exists (fun f => inherited (filepath f) = true) (all_files healthHistory) ->
  PageBody.fileScoresOf calc healthHistory = None.
Proof.
  intros H. rewrite fileScoresOf_flat.
  apply forEach_record_inherited; [|exact H].
  intros k _. apply lookup_empty.
Qed.

Lemma trendOf_short (obs : list num) :
  (length obs < 2)%nat -> PageBody.trendOf obs = None.
Proof.
  intros H. unfold PageBody.trendOf.
  destruct (Nat.ltb_spec 1 (length obs)); [lia | reflexivity].
Qed.

Lemma trendOf_first_last (first last : Z) (mid : list num) :
  PageBody.trendOf (Num first :: mid ++ [Num last])
  = Some {| trend := direction_of (last - first);
            change := Num (last - first) |}.
Proof.
  unfold PageBody.trendOf.
  assert (L : length (Num first :: mid ++ [Num last]) = S (S (length mid))).
  { simpl. rewrite length_app. simpl. lia. }
  rewrite L. simpl Nat.ltb. cbv iota.
  replace (S (S (length mid)) - 1)%nat with (S (length mid)) by lia.
  unfold read_num. simpl.
  rewrite lookup_app_r by lia. rewrite Nat.sub_diag. simpl.
  unfold direction_of.
  destruct (0 <? last - first); [reflexivity|].
  destruct (last - first <? 0); reflexivity.
Qed.

(** What [calculateFileTrends] does: nothing for fewer than two
    snapshots; a [TypeError] when a file is listed under a name of
    [Object.prototype]; and otherwise, for every path, no trend when fewer
    than two scores were collected for it, and else the last collected
    score minus the first, with the direction of its sign. A score is
    collected for every file entry with the path, over all components of
    all snapshots. *)
Lemma trends_spec (healthHistory : list HealthHistoryEntry) :
  ((length healthHistory <= 1)%nat ->
   PageBody.calculateFileTrends calc healthHistory = Some ∅)
  /\ ((2 <= length healthHistory)%nat ->
      Exists (fun f => inherited (filepath f) = true)
             (all_files healthHistory) ->
      PageBody.calculateFileTrends calc healthHistory = None)
  /\ ((2 <= length healthHistory)%nat ->
      Forall (fun f => inherited (filepath f) = false)
             (all_files healthHistory) ->
      exists fileTrends,
        PageBody.calculateFileTrends calc healthHistory = Some fileTrends
        /\ forall p,
             ((length (observations calc p healthHistory) < 2)%nat ->
              fileTrends !! p = None)
             /\ (forall first mid last,
                   observations calc p healthHistory
                   = Num first :: mid ++ [Num last] ->
                   fileTrends !! p
                   = Some {| trend := direction_of (last - first);
                             change := Num (last - first) |})).
Proof.
  unfold PageBody.calculateFileTrends.
  destruct (Nat.leb_spec (length healthHistory) 1) as [Hle|Hgt].
  - split; [reflexivity|]. split; intros; lia.
  - split; [intros; lia|]. split.
    + intros _ H. now rewrite (fileScoresOf_throws _ H).
    + intros _ H.
      destruct (fileScoresOf_lookup healthHistory H) as (fs & -> & Hfs).
      eexists. split; [reflexivity|].
      intros p. rewrite lookup_omap, Hfs. split.
      * intros Hshort.
        destruct (observations calc p healthHistory) as [|o obs] eqn:E;
          [reflexivity|].
        simpl. rewrite <- E in *. now apply trendOf_short.
      * intros first mid last E. rewrite E. simpl.
        apply trendOf_first_last.
Qed.

End Trends.

(** The specification's example: scores 60, 70, 65 give up, 5. *)
Example trend_up_five :
  exists fileTrends,
    Page.calculateFileTrends
      [ snapshot 1 [uniform_file "a.ts" 60];
        snapshot 2 [uniform_file "a.ts" 70];
        snapshot 3 [uniform_file "a.ts" 65] ] = Some fileTrends
    /\ fileTrends !! "a.ts" = Some {| trend := up; change := Num 5 |}.
Proof.
  destruct (trends_spec Page.calculateFileAvgScore
              [ snapshot 1 [uniform_file "a.ts" 60];
                snapshot 2 [uniform_file "a.ts" 70];
                snapshot 3 [uniform_file "a.ts" 65] ])
    as (_ & _ & H).
  destruct H as (fileTrends & E & Hp).
  - simpl. lia.
  - repeat constructor.
  - exists fileTrends. split; [exact E|].
    destruct (Hp "a.ts") as [_ H]. apply (H 60 [Num 70] 65).
    vm_compute. reflexivity.
Qed.

(** C5: in [listed_twice] the path [ui/utils/x.ts] appears in one
    snapshot only, where two components list it with scores 60 and 70:
    [calculateFileTrends], on both [CodeHealth] pages, pushes a score for
    every listing and gives the path the trend up, 10, not the absence of
    a trend that one observation calls for; [getFileScoreHistory] of the
    extended page takes one score for the snapshot. And for a file listed
    under [constructor] in two snapshots, with scores 70 and 80,
    [calculateFileTrends] throws, where the same scores under an ordinary
    path give the trend up, 10. *)
Theorem one_snapshot_gets_a_trend :
  snapshots_with "ui/utils/x.ts" listed_twice = 1%nat
  /\ option_map (fun fileTrends => fileTrends !! "ui/utils/x.ts")
                (Page.calculateFileTrends listed_twice)
     = Some (Some {| trend := up; change := Num 10 |})
  /\ option_map (fun fileTrends => fileTrends !! "ui/utils/x.ts")
                (FullPage.calculateFileTrends listed_twice)
     = Some (Some {| trend := up; change := Num 10 |})
  /\ FileCard.getFileScoreHistory FullPage.calculateFileAvgScore
       listed_twice "ui/utils/x.ts" = [Num 60]
  /\ Page.calculateFileTrends
       [ snapshot 1 [uniform_file "constructor" 70];
         snapshot 2 [uniform_file "constructor" 80] ] = None
  /\ option_map (fun fileTrends => fileTrends !! "README.md")
                (Page.calculateFileTrends
                   [ snapshot 1 [uniform_file "README.md" 70];
                     snapshot 2 [uniform_file "README.md" 80] ])
     = Some (Some {| trend := up; change := Num 10 |}).
Proof. vm_compute. repeat split. Qed.

(** With a single snapshot nothing has a trend, not even a filepath for
    which two scores would be collected. *)
Example single_snapshot_listed_twice :
  length (observations Page.calculateFileAvgScore "ui/utils/x.ts"
            (take 1 listed_twice)) = 2%nat
  /\ Page.calculateFileTrends (take 1 listed_twice) = Some ∅.
Proof. split; reflexivity. Qed.

Example single_snapshot_no_trend :
  Page.calculateFileTrends [snapshot 1 [uniform_file "a.ts" 60]] = Some ∅.
Proof. reflexivity. Qed.

(** * Part III: the display helpers and the remaining callers *)

(** ** Score tiers *)

Lemma tier_cases (score : num) :
  (tier_of score = Low /\ less_than score 70 = true)
  \/ (tier_of score = Middle /\ less_than score 70 = false
      /\ less_than score 85 = true)
  \/ (tier_of score = High /\ less_than score 70 = false
      /\ less_than score 85 = false).
Proof.
  destruct score as [z|]; simpl; [|auto].
  destruct (z <? 70); [auto|]. destruct (z <? 85); auto.
Qed.

(** X1: the six threshold helpers (utility module, both pages,
    [FileHealthIndicator]) always pick the same tier: the red one exactly
    for a number below 70, the yellow one exactly for a number from 70 up
    to but not including 85, and the green one for everything else, NaN
    included. *)
Theorem score_helpers_agree (score : num) :
  ((exists z, score = Num z /\ z < 70)
   /\ UtilsDisplay.getScoreColorClass score = "text-red-600"
   /\ UtilsDisplay.getScoreBgClass score = "bg-red-100 text-red-600"
   /\ PageDisplay.getScoreColor score = "text-destructive"
   /\ PageDisplay.getBadgeVariant score = "destructive"
   /\ PageDisplay.getBgClass score = "bg-destructive/10"
   /\ PageDisplay.getSeverity score = "critical")
  \/ ((exists z, score = Num z /\ 70 <= z < 85)
      /\ UtilsDisplay.getScoreColorClass score = "text-yellow-600"
      /\ UtilsDisplay.getScoreBgClass score = "bg-yellow-100 text-yellow-600"
      /\ PageDisplay.getScoreColor score = "text-warning"
      /\ PageDisplay.getBadgeVariant score = "warning"
      /\ PageDisplay.getBgClass score = "bg-warning/10"
      /\ PageDisplay.getSeverity score = "warning")
  \/ ((score = NaN \/ exists z, score = Num z /\ 85 <= z)
      /\ UtilsDisplay.getScoreColorClass score = "text-green-600"
      /\ UtilsDisplay.getScoreBgClass score = "bg-green-100 text-green-600"
      /\ PageDisplay.getScoreColor score = "text-success"
      /\ PageDisplay.getBadgeVariant score = "success"
      /\ PageDisplay.getBgClass score = "bg-success/10"
      /\ PageDisplay.getSeverity score = "good").
Proof.
  unfold UtilsDisplay.getScoreColorClass, UtilsDisplay.getScoreBgClass,
    PageDisplay.getScoreColor, PageDisplay.getBadgeVariant,
    PageDisplay.getBgClass, PageDisplay.getSeverity.
  destruct score as [z|]; simpl.
  - destruct (Z.ltb_spec z 70).
    + left. split; [exists z; auto|]. repeat split.
    + destruct (Z.ltb_spec z 85).
      * right. left. split; [exists z; split; [reflexivity | lia]|].
        repeat split.
      * right. right. split; [right; exists z; auto|]. repeat split.
  - right. right. split; [now left|]. repeat split.
Qed.

(** X2: a higher score never gets a lower tier from [getBadgeVariant]. *)
Theorem badge_is_monotone (x y : Z) :
  x <= y ->
  tier_rank (tier_of (Num x)) <= tier_rank (tier_of (Num y))
  /\ (PageDisplay.getBadgeVariant (Num y) = "destructive" ->
      PageDisplay.getBadgeVariant (Num x) = "destructive")
  /\ (PageDisplay.getBadgeVariant (Num x) = "success" ->
      PageDisplay.getBadgeVariant (Num y) = "success").
Proof.
  intros H. unfold PageDisplay.getBadgeVariant. simpl.
  destruct (Z.ltb_spec x 70), (Z.ltb_spec y 70), (Z.ltb_spec x 85),
    (Z.ltb_spec y 85); simpl; repeat split; try lia; try discriminate;
    auto.
Qed.

Lemma badge_is_monotone_witness :
  PageDisplay.getBadgeVariant (Num 90) = "success".
Proof.
  destruct (badge_is_monotone 85 90) as (_ & _ & H); [lia|].
  apply H. reflexivity.
Defined.

(** X3: a file with a sub-score missing gets NaN as its score from the
    utility module and the first page, and the helpers then show it in the
    best tier: green text and the [success] badge. *)
Theorem missing_sub_score_shown_as_success (f : FileMetrics) :
  In None (sub_scores f) ->
  UtilsDisplay.getScoreColorClass (Utils.calculateFileAvgScore f)
  = "text-green-600"
  /\ UtilsDisplay.getScoreBgClass (Utils.calculateFileAvgScore f)
     = "bg-green-100 text-green-600"
  /\ PageDisplay.getBadgeVariant (Page.calculateFileAvgScore f) = "success"
  /\ PageDisplay.getScoreColor (Page.calculateFileAvgScore f)
     = "text-success".
Proof.
  intros H. pose proof (Utils_avg_missing f H) as E.
  change (Page.calculateFileAvgScore f) with (Utils.calculateFileAvgScore f).
  rewrite E. repeat split.
Qed.

Lemma missing_sub_score_shown_as_success_witness :
  PageDisplay.getBadgeVariant (Page.calculateFileAvgScore file_without_size)
  = "success".
Proof.
  destruct (missing_sub_score_shown_as_success file_without_size)
    as (_ & _ & H & _).
  - left. reflexivity.
  - exact H.
Defined.

(** ** The change indicator *)



(** ** Section averages *)

Lemma Math_round_mono (a b d : Z) :
  0 < d -> a <= b ->
  Math_round (inject_Z a / inject_Z d) <= Math_round (inject_Z b / inject_Z d).
Proof.
  intros Hd H. rewrite !Math_round_quot by exact Hd.
  apply Z.div_le_mono; lia.
Qed.

Lemma Math_round_multiple (k d : Z) :
  0 < d -> Math_round (inject_Z (d * k) / inject_Z d) = k.
Proof.
  intros Hd. rewrite Math_round_quot by exact Hd.
  replace (2 * (d * k) + d) with (d + k * (2 * d)) by lia.
  rewrite Z.div_add by lia. rewrite Z.div_small by lia. lia.
Qed.

(** The sum a [reduce] over numbers computes. *)
Lemma fold_nadd_sum (g : FileInfo -> num) (k : FileInfo -> Z)
    (files : list FileInfo) (a : Z) :
  Forall (fun fi => g fi = Num (k fi)) files ->
  fold_left (fun sum file => nadd sum (g file)) files (Num a)
  = Num (a + fold_right (fun fi acc => k fi + acc) 0 files).
Proof.
  revert a. induction files as [|fi files IH]; intros a H; simpl.
  - f_equal. lia.
  - apply Forall_cons_1 in H as [Hf H]. rewrite Hf. simpl.
    rewrite IH by exact H. f_equal. lia.
Qed.

Lemma sum_bounds (k : FileInfo -> Z) (files : list FileInfo) (lo hi : Z) :
  Forall (fun fi => lo <= k fi <= hi) files ->
  Z.of_nat (length files) * lo
  <= fold_right (fun fi acc => k fi + acc) 0 files
  <= Z.of_nat (length files) * hi.
Proof.
  induction 1 as [|fi files Hf H IH]; simpl length; simpl fold_right; [lia|].
  rewrite Nat2Z.inj_succ. lia.
Qed.

Lemma sum_le (k1 k2 : FileInfo -> Z) (files : list FileInfo) :
  Forall (fun fi => k1 fi <= k2 fi) files ->
  fold_right (fun fi acc => k1 fi + acc) 0 files
  <= fold_right (fun fi acc => k2 fi + acc) 0 files.
Proof. induction 1; simpl; lia. Qed.

Lemma average_within (g : FileInfo -> num) (files : list FileInfo)
    (lo hi : Z) :
  files <> [] ->
  Forall (fun fi => exists s, g fi = Num s /\ lo <= s <= hi) files ->
  exists a,
    round_quot (fold_left (fun sum file => nadd sum (g file)) files (Num 0))
               (Z.of_nat (length files)) = Num a
    /\ lo <= a <= hi.
Proof.
  intros Hne H.
  set (k := fun fi => match g fi with Num s => s | NaN => 0 end).
  assert (Hk : Forall (fun fi => g fi = Num (k fi)) files).
  { eapply Forall_impl; [exact H|]. intros fi (s & E & _). unfold k.
    now rewrite E. }
  assert (Hb : Forall (fun fi => lo <= k fi <= hi) files).
  { eapply Forall_impl; [exact H|]. intros fi (s & E & B). unfold k.
    now rewrite E. }
  assert (Hn : 0 < Z.of_nat (length files)).
  { destruct files; [contradiction | simpl; lia]. }
  rewrite (fold_nadd_sum g k files 0 Hk), round_quot_Num by exact Hn.
  eexists. split; [reflexivity|].
  pose proof (sum_bounds k files lo hi Hb) as [B1 B2].
  pose proof (Math_round_mono _ _ _ Hn B1) as M1.
  pose proof (Math_round_mono _ _ _ Hn B2) as M2.
  rewrite Math_round_multiple in M1, M2 by exact Hn.
  replace (0 + fold_right (fun fi acc => k fi + acc) 0 files)
    with (fold_right (fun fi acc => k fi + acc) 0 files) by lia.
  lia.
Qed.

(** X5: the average score that [SectionAccordion] and the overview tab
    show for a section lies between the lowest and the highest score of
    the section's files (so within [0,100] when the file scores are). *)
Theorem section_average_within_scores
    (entry : string * list FileInfo) (lo hi : Z) :
  snd entry <> [] ->
  Forall (fun fi => exists s, score fi = Num s /\ lo <= s <= hi) (snd entry) ->
  (exists item a,
      SectionAccordion.renderSection entry = Some item /\
      SectionAccordion.sectionAvgScore item = Num a /\ lo <= a <= hi)
  /\ (exists item a,
        PageBody.renderOverview [entry] = [Some item] /\
        PageBody.ov_avgScore item = Num a /\ lo <= a <= hi).
Proof.
  intros Hne H. destruct entry as [k fs]. simpl in *.
  destruct (average_within score fs lo hi Hne H) as (a & Ea & Ba).
  assert (E0 : (length fs =? 0)%nat = false).
  { destruct fs; [contradiction | reflexivity]. }
  split.
  - unfold SectionAccordion.renderSection. simpl. rewrite E0.
    eexists. exists a. split; [reflexivity|]. simpl. auto.
  - unfold PageBody.renderOverview. simpl. rewrite E0.
    eexists. exists a. split; [reflexivity|]. simpl. auto.
Qed.

Lemma section_average_within_scores_witness :
  exists item,
    SectionAccordion.renderSection
      ("Pages",
       Utils.processFilesData (files sample_component) None) = Some item /\
    exists a, SectionAccordion.sectionAvgScore item = Num a /\ 70 <= a <= 90.
Proof.
  destruct (section_average_within_scores
              ("Pages", Utils.processFilesData (files sample_component) None)
              70 90) as [(item & a & E & Ea & B) _].
  - discriminate.
  - simpl. repeat (constructor; [eexists; split; [vm_compute; reflexivity | lia]|]).
    constructor.
  - exists item. split; [exact E|]. exists a. auto.
Defined.

(** X6: when no file of a section scores below its previous score, the
    change [SectionAccordion] shows for the section is not negative and its
    indicator is not the down arrow; the two averages are rounded
    separately, and rounding keeps their order. *)
Theorem section_change_not_down (entry : string * list FileInfo) :
  snd entry <> [] ->
  Forall (fun fi => exists s p,
            score fi = Num s /\ previousScore fi = Num p /\ p <= s)
         (snd entry) ->
  exists item c,
    SectionAccordion.renderSection entry = Some item /\
    SectionAccordion.sectionScoreChange item = Num c /\ 0 <= c /\
    UtilsDisplay.icon
      (UtilsDisplay.getChangeIndicator
         (SectionAccordion.sectionScoreChange item))
    <> UtilsDisplay.ArrowDown.
Proof.
  intros Hne H. destruct entry as [k fs]. simpl in *.
  assert (E0 : (length fs =? 0)%nat = false).
  { destruct fs; [contradiction | reflexivity]. }
  assert (Hn : 0 < Z.of_nat (length fs)).
  { destruct fs; [contradiction | simpl; lia]. }
  set (ks := fun fi => match score fi with Num s => s | NaN => 0 end).
  set (kp := fun fi =>
               match previous_or_score fi with
               | Num s => s
               | NaN => 0
               end).
  assert (Hs : Forall (fun fi => score fi = Num (ks fi)) fs).
  { eapply Forall_impl; [exact H|]. intros fi (s & p & E & _). unfold ks.
    now rewrite E. }
  assert (Hv : Forall (fun fi =>
                 val_or (previousScore fi) (score fi)
                 = Val (previous_or_score fi)) fs).
  { eapply Forall_impl; [exact H|]. intros fi (s & p & E1 & E2 & _).
    apply val_or_number. rewrite E2. discriminate. }
  assert (Hp : Forall (fun fi => previous_or_score fi = Num (kp fi)) fs).
  { eapply Forall_impl; [exact H|]. intros fi (s & p & E1 & E2 & _).
    unfold kp, previous_or_score. rewrite E1, E2. simpl.
    now destruct (p =? 0). }
  assert (Hle : Forall (fun fi => kp fi <= ks fi) fs).
  { eapply Forall_impl; [exact H|]. intros fi (s & p & E1 & E2 & L).
    unfold kp, ks, previous_or_score. rewrite E1, E2. simpl.
    destruct (p =? 0); simpl; lia. }
  unfold SectionAccordion.renderSection. simpl. rewrite E0.
  unfold SectionAccordion.avgScoreOf, SectionAccordion.avgPrevScoreOf.
  rewrite (fold_nadd_sum score ks fs 0 Hs).
  rewrite (fold_sum_add _ previous_or_score fs (Num 0) Hv).
  cbn [sum_round_quot].
  rewrite (fold_nadd_sum previous_or_score kp fs 0 Hp).
  rewrite !round_quot_Num by exact Hn.
  eexists. eexists. split; [reflexivity|]. simpl.
  split; [reflexivity|].
  pose proof (sum_le kp ks fs Hle) as Hsum.
  pose proof (Math_round_mono
                (0 + fold_right (fun fi acc => kp fi + acc) 0 fs)
                (0 + fold_right (fun fi acc => ks fi + acc) 0 fs)
                _ Hn ltac:(lia)) as M.
  split; [lia|].
  unfold UtilsDisplay.getChangeIndicator. simpl.
  match goal with |- context [0 <? ?c] =>
    destruct (0 <? c); [discriminate|] end.
  match goal with |- context [?c <? 0] =>
    destruct (Z.ltb_spec c 0); [lia | discriminate] end.
Qed.

Lemma section_change_not_down_witness :
  exists item c,
    SectionAccordion.renderSection
      ("Pages",
       Utils.processFilesData (files sample_component)
         (Some (previous_files sample_history))) = Some item /\
    SectionAccordion.sectionScoreChange item = Num c /\ 0 <= c.
Proof.
  destruct (section_change_not_down
              ("Pages",
               Utils.processFilesData (files sample_component)
                 (Some (previous_files sample_history))))
    as (item & c & E & Ec & Hc & _).
  - discriminate.
  - simpl. repeat (constructor;
      [eexists; eexists; split; [vm_compute; reflexivity|];
       split; [vm_compute; reflexivity | lia]|]).
    constructor.
  - exists item, c. auto.
Defined.

(** ** The file counts of the rendered sections *)

Lemma shown_counts (sections : Buckets) :
  fold_right (fun item acc => (SectionAccordion.count item + acc)%nat) 0%nat
             (SectionAccordion.shown sections)
  = total_size sections.
Proof.
  unfold SectionAccordion.shown, SectionAccordion.render, total_size.
  induction sections as [|[k fs] sections IH]; [reflexivity|].
  cbn [map omap concat snd]. rewrite length_app, <- IH.
  unfold SectionAccordion.renderSection at 1. cbn [fst snd].
  destruct fs as [|fi fs]; reflexivity.
Qed.

(** X7: on the [CodeHealthHistory] page the file counts in the headers of
    the rendered sections add up to the number of file entries of the latest
    snapshot: leaving out the empty sections loses no file. *)
Theorem section_counts_add_up (healthHistory : list HealthHistoryEntry) :
  healthHistory <> [] ->
  exists sections,
    HistoryPage.getFilesGroupedByType healthHistory = Some sections /\
    fold_right (fun item acc => (SectionAccordion.count item + acc)%nat)
               0%nat (SectionAccordion.shown sections)
    = length (latest_files healthHistory).
Proof.
  intros Hne. eexists. split; [exact (HistoryPage_grouped _ Hne)|].
  rewrite shown_counts.
  rewrite (total_size_perm _ _
             (sorted_group_members Utils.categorizeFileByPath
                (history_infos healthHistory) Utils_categorize_label)).
  rewrite <- (length_map info_filepath), history_infos_filepaths.
  apply length_map.
Qed.

Lemma section_counts_add_up_witness :
  exists sections,
    HistoryPage.getFilesGroupedByType sample_history = Some sections /\
    map SectionAccordion.count (SectionAccordion.shown sections) = [2%nat].
Proof.
  destruct (section_counts_add_up sample_history) as (sections & E & _).
  - discriminate.
  - exists sections. split; [exact E|].
    vm_compute in E. injection E as <-. reflexivity.
Defined.

(** ** Paths and file names *)

Lemma split_slash_nonempty (l : list ascii) : split_slash l <> [].
Proof.
  induction l as [|c l IH]; simpl; [discriminate|].
  destruct (Ascii.eqb c "/"); [discriminate|].
  destruct (split_slash l); discriminate.
Qed.

Lemma join_slash_cons (seg : list ascii) (rest : list (list ascii)) :
  rest <> [] ->
  join_slash (seg :: rest) = seg ++ "/"%char :: join_slash rest.
Proof. destruct rest; [contradiction | reflexivity]. Qed.

Lemma join_split_slash (l : list ascii) : join_slash (split_slash l) = l.
Proof.
  induction l as [|c l IH]; [reflexivity|]. cbn [split_slash].
  pose proof (split_slash_nonempty l) as Hn.
  destruct (Ascii.eqb_spec c "/") as [->|Hne].
  - rewrite join_slash_cons by exact Hn. now rewrite IH.
  - destruct (split_slash l) as [|seg rest]; [contradiction|].
    destruct rest as [|seg' rest].
    + simpl in *. now rewrite IH.
    + rewrite join_slash_cons by discriminate.
      rewrite join_slash_cons in IH by discriminate.
      cbn [app]. f_equal. exact IH.
Qed.

Lemma split_slash_app (a b : list ascii) :
  split_slash (a ++ "/"%char :: b) = split_slash a ++ split_slash b.
Proof.
  induction a as [|c a IH]; [reflexivity|]. cbn [app split_slash].
  rewrite IH. pose proof (split_slash_nonempty a) as Hn.
  destruct (Ascii.eqb c "/"); [reflexivity|].
  destruct (split_slash a); [contradiction | reflexivity].
Qed.

Lemma split_slash_plain (seg : list ascii) :
  ~ In "/"%char seg -> split_slash seg = [seg].
Proof.
  induction seg as [|c seg IH]; intros H; [reflexivity|]. simpl.
  destruct (Ascii.eqb_spec c "/") as [->|Hne]; [exfalso; apply H; now left|].
  rewrite IH; [reflexivity|]. intros Hin. apply H. now right.
Qed.

Lemma split_slash_two (l : list ascii) :
  In "/"%char l -> (2 <= length (split_slash l))%nat.
Proof.
  intros H. apply in_split in H as (a & b & ->).
  rewrite split_slash_app, length_app.
  pose proof (split_slash_nonempty a). pose proof (split_slash_nonempty b).
  destruct (split_slash a), (split_slash b); try contradiction. simpl. lia.
Qed.

Lemma split_slash_last (l : list ascii) :
  exists dir name,
    last (split_slash l) = Some name /\
    l = dir ++ name /\
    ~ In "/"%char name /\
    (dir = [] \/ exists d, dir = d ++ ["/"%char]) /\
    (dir = [] <-> length (split_slash l) = 1%nat).
Proof.
  induction l as [|c l IH].
  - exists [], []. simpl. repeat split; auto.
  - destruct IH as (dir & name & El & -> & Hn & Hd & Hone).
    pose proof (split_slash_nonempty (dir ++ name)) as Hnon.
    cbn [split_slash]. destruct (Ascii.eqb_spec c "/") as [->|Hne].
    + exists ("/"%char :: dir), name.
      destruct (split_slash (dir ++ name)) as [|s0 r0] eqn:E;
        [contradiction|].
      split; [rewrite last_cons, El; reflexivity|].
      split; [reflexivity|]. split; [exact Hn|]. split.
      * right. destruct Hd as [->|[d ->]]; [exists []; reflexivity|].
        exists ("/"%char :: d). reflexivity.
      * split; [discriminate | simpl; lia].
    + destruct (split_slash (dir ++ name)) as [|s0 r0] eqn:E;
        [contradiction|].
      destruct r0 as [|s1 r1].
      * assert (Hdir : dir = []) by now apply Hone.
        subst dir. simpl in El. injection El as ->.
        exists [], (c :: name). simpl.
        split; [reflexivity|]. split; [reflexivity|]. split.
        -- intros [Hc|Hin]; [congruence | contradiction].
        -- split; [now left | tauto].
      * exists (c :: dir), name.
        split.
        { change (last (s1 :: r1) = Some name) in El.
          change (last (s1 :: r1) = Some name). exact El. }
        split; [reflexivity|]. split; [exact Hn|].
        assert (Hdir : dir <> []).
        { intros Hd0. apply Hone in Hd0. simpl in Hd0. lia. }
        split.
        -- right. destruct Hd as [->|[d ->]]; [contradiction|].
           exists (c :: d). reflexivity.
        -- split; [discriminate | simpl; lia].
Qed.

Lemma filename_defined (filepath : string) :
  exists name, FileCard.filename filepath = Some name.
Proof.
  destruct (split_slash_last (chars filepath)) as (dir & name & El & _).
  exists name. exact El.
Qed.

(** X8: splitting a path at its slashes and joining the segments with
    slashes gives the path back, and there is always at least one segment,
    so the file name [split('/').pop()] is always defined: it is the part
    of the path after its last slash (the whole path when it has none) and
    holds no slash. *)
Theorem filename_is_last_segment (filepath : string) :
  join_slash (split_slash (chars filepath)) = chars filepath
  /\ exists dir name,
       FileCard.filename filepath = Some name /\
       chars filepath = dir ++ name /\
       ~ In "/"%char name /\
       (dir = [] \/ exists d, dir = d ++ ["/"%char]).
Proof.
  split; [apply join_split_slash|].
  destruct (split_slash_last (chars filepath))
    as (dir & name & El & E & Hn & Hd & _).
  exists dir, name. auto.
Qed.

Lemma slice_last_but_one {A : Type} (pre : list A) (x y : A) :
  slice (-2) (-1) (pre ++ [x; y]) = [x].
Proof.
  unfold slice. rewrite length_app. simpl length.
  change (-1 <? 0) with true. change (-2 <? 0) with true. cbv iota.
  rewrite !Z.max_l by lia.
  replace (Z.to_nat (Z.of_nat (length pre + 2) + -1
                     - (Z.of_nat (length pre + 2) + -2))) with 1%nat by lia.
  replace (Z.to_nat (Z.of_nat (length pre + 2) + -2)) with (length pre)
    by lia.
  rewrite drop_app_length. reflexivity.
Qed.

Lemma slice_last_but_one_defined {A : Type} (l : list A) :
  (2 <= length l)%nat -> is_Some (slice (-2) (-1) l !! 0%nat).
Proof.
  intros H.
  destruct (rev l) as [|y [|x r]] eqn:E;
    try (apply (f_equal (@length A)) in E; rewrite length_rev in E;
         simpl in E; lia).
  assert (El : l = rev r ++ [x; y]).
  { rewrite <- (rev_involutive l), E. simpl. now rewrite <- app_assoc. }
  rewrite El, slice_last_but_one. simpl. eauto.
Qed.

(** X9: [displayName] is never undefined; for the [__init__.py] of a
    directory under a path that holds [apis/] it is the name of that
    directory, and for a path without [apis/] it is the file name. *)
Theorem displayName_defined (filepath : string) :
  (exists n, FileCard.displayName filepath = Some n)
  /\ (forall dir seg,
        chars filepath = dir ++ seg ++ chars "/__init__.py" ->
        ~ In "/"%char seg ->
        dir = [] \/ (exists d, dir = d ++ ["/"%char]) ->
        contains (chars filepath) (chars "apis/") ->
        FileCard.displayName filepath = Some seg)
  /\ (~ contains (chars filepath) (chars "apis/") ->
      FileCard.displayName filepath = FileCard.filename filepath).
Proof.
  unfold FileCard.displayName. split; [|split].
  - destruct (includes filepath "apis/") eqn:Ei; simpl.
    + destruct (bool_decide _).
      * apply slice_last_but_one_defined, split_slash_two.
        apply includes_chars_spec in Ei as (pre & post & E).
        rewrite E. apply in_or_app. right. simpl. tauto.
      * apply filename_defined.
    + apply filename_defined.
  - intros dir seg E Hseg Hdir Hc.
    apply includes_chars_spec in Hc. unfold includes. rewrite Hc. simpl.
    assert (Es : exists pre,
               split_slash (chars filepath)
               = pre ++ [seg; chars "__init__.py"]).
    { rewrite E.
      change (chars "/__init__.py") with ("/"%char :: chars "__init__.py").
      rewrite app_assoc, split_slash_app.
      assert (Ei : split_slash (chars "__init__.py")
                   = [chars "__init__.py"]) by reflexivity.
      rewrite Ei.
      destruct Hdir as [->|[d ->]].
      - exists []. cbn [app]. now rewrite (split_slash_plain seg Hseg).
      - exists (split_slash d). rewrite <- (app_assoc d). cbn [app].
        rewrite split_slash_app, (split_slash_plain seg Hseg).
        now rewrite <- app_assoc. }
    destruct Es as [pre Es].
    unfold FileCard.filename, pop. rewrite Es.
    replace (last (pre ++ [seg; chars "__init__.py"]))
      with (Some (chars "__init__.py")).
    2:{ symmetry. change [seg; chars "__init__.py"]
          with ([seg] ++ [chars "__init__.py"]).
        rewrite app_assoc. apply last_snoc. }
    rewrite bool_decide_eq_true_2 by reflexivity.
    now rewrite slice_last_but_one.
  - intros Hc. unfold includes.
    destruct (includes_chars (chars filepath) (chars "apis/")) eqn:Ei;
      [|reflexivity].
    exfalso. apply Hc. now apply includes_chars_spec.
Qed.

Example displayName_examples :
  FileCard.displayName "src/app/apis/foo/__init__.py" = Some (chars "foo")
  /\ FileCard.displayName "ui/pages/Home.tsx" = Some (chars "Home.tsx")
  /\ FileCard.displayName "README.md" = Some (chars "README.md").
Proof. vm_compute. repeat split. Qed.

Lemma displayName_defined_witness :
  FileCard.displayName "src/app/apis/foo/__init__.py" = Some (chars "foo").
Proof.
  destruct (displayName_defined "src/app/apis/foo/__init__.py")
    as (_ & H & _).
  apply (H (chars "src/app/apis/") (chars "foo")).
  - reflexivity.
  - vm_compute. intuition discriminate.
  - right. exists (chars "src/app/apis"). reflexivity.
  - apply includes_chars_spec. vm_compute. reflexivity.
Defined.

(** ** The most critical issue and the suggested practices *)

Lemma filter_head {A : Type} (p : A -> bool) (l : list A) (x : A) :
  List.filter p l !! 0%nat = Some x ->
  exists l1 l2, l = l1 ++ x :: l2 /\ p x = true
                /\ forallb (fun y => negb (p y)) l1 = true.
Proof.
  induction l as [|y l IH]; simpl; [discriminate|].
  destruct (p y) eqn:E.
  - simpl. intros H. injection H as <-. exists [], l. auto.
  - intros H. destruct (IH H) as (l1 & l2 & -> & Hx & Hl1).
    exists (y :: l1), l2. simpl. rewrite E. auto.
Qed.

(** X10: [getMostCriticalIssue] returns [null] exactly when the file has
    no issues; otherwise it returns one of the file's issues: the first one
    that mentions severe, critical, large file or duplication (in any
    letter case) when there is one, and the first issue when there is
    none. *)
Theorem most_critical_issue_is_an_issue (issues : list string) :
  (FileCard.getMostCriticalIssue issues = None <-> issues = [])
  /\ (forall r,
        FileCard.getMostCriticalIssue issues = Some r ->
        In r issues
        /\ (existsb FileCard.is_critical issues = true ->
            exists before after,
              issues = before ++ r :: after
              /\ FileCard.is_critical r = true
              /\ forallb (fun i => negb (FileCard.is_critical i)) before
                 = true)
        /\ (existsb FileCard.is_critical issues = false ->
            issues !! 0%nat = Some r)).
Proof.
  unfold FileCard.getMostCriticalIssue.
  destruct issues as [|i0 issues]; [split; [tauto | discriminate]|].
  cbn [length Nat.eqb].
  set (l := i0 :: issues).
  destruct (List.filter FileCard.is_critical l) as [|c cs] eqn:Ef.
  - simpl. split; [split; discriminate|].
    intros r E. injection E as <-.
    assert (Hno : existsb FileCard.is_critical l = false).
    { destruct (existsb FileCard.is_critical l) eqn:Ex; [|reflexivity].
      apply existsb_exists in Ex as (x & Hin & Hx).
      assert (In x (List.filter FileCard.is_critical l))
        by (apply List.filter_In; auto).
      rewrite Ef in H. destruct H. }
    subst l. split; [now left|].
    split; [|reflexivity].
    intros Ht. assert (X : true = false) by (rewrite <- Ht; exact Hno).
    discriminate.
  - assert (H0 : List.filter FileCard.is_critical l !! 0%nat = Some c)
      by now rewrite Ef.
    change ((if (0 <? length (c :: cs))%nat then (c :: cs) !! 0%nat
             else l !! 0%nat)) with (Some c).
    split; [split; discriminate|].
    intros r E. injection E as <-.
    destruct (filter_head _ _ _ H0) as (l1 & l2 & El & Hc & Hb).
    split; [rewrite El; apply in_or_app; right; now left|].
    split.
    + intros _. exists l1, l2. auto.
    + intros Hno. exfalso.
      assert (Ht : existsb FileCard.is_critical l = true).
      { apply existsb_exists. exists c. split; [|exact Hc].
        rewrite El. apply in_or_app. right. now left. }
      assert (X : true = false) by (rewrite <- Ht; exact Hno).
      discriminate.
Qed.

Lemma most_critical_issue_is_an_issue_witness :
  In "SEVERE: Large File (900 lines)"
     ["Consider adding comments"; "SEVERE: Large File (900 lines)"]
  /\ FileCard.is_critical "SEVERE: Large File (900 lines)" = true.
Proof.
  destruct (most_critical_issue_is_an_issue
              ["Consider adding comments"; "SEVERE: Large File (900 lines)"])
    as (_ & H).
  destruct (H "SEVERE: Large File (900 lines)") as (Hin & Hc & _).
  - vm_compute. reflexivity.
  - split; [exact Hin|].
    destruct Hc as (before & after & _ & Hr & _); [vm_compute; reflexivity|].
    exact Hr.
Defined.

Lemma lower_char_idempotent (c : ascii) :
  lower_char (lower_char c) = lower_char c.
Proof.
  destruct c as [[] [] [] [] [] [] [] []]; vm_compute; reflexivity.
Qed.

Lemma toLowerCase_idempotent (l : list ascii) :
  toLowerCase (toLowerCase l) = toLowerCase l.
Proof.
  unfold toLowerCase. rewrite map_map. apply map_ext.
  intros c. apply lower_char_idempotent.
Qed.

(** The string with every letter in lower case. *)
Lemma chars_of_list (l : list ascii) :
  chars (string_of_list_ascii l) = l.
Proof. apply list_ascii_of_string_of_list_ascii. Qed.

Lemma mentions_lowered (s word : string) :
  mentions (string_of_list_ascii (toLowerCase (chars s))) word
  = mentions s word.
Proof.
  unfold mentions. now rewrite chars_of_list, toLowerCase_idempotent.
Qed.

Lemma contains_prefix (l a b : list ascii) :
  contains l (a ++ b) -> contains l a.
Proof.
  intros (pre & post & ->). exists pre, (b ++ post).
  now rewrite <- app_assoc.
Qed.

Lemma existsb_map {A B : Type} (f : A -> B) (p : B -> bool) (l : list A) :
  existsb p (map f l) = existsb (fun x => p (f x)) l.
Proof. induction l; simpl; congruence. Qed.

Lemma existsb_lowered (p : string -> bool) (issues : list string) :
  (forall i, p (string_of_list_ascii (toLowerCase (chars i))) = p i) ->
  existsb p
    (map (fun i => string_of_list_ascii (toLowerCase (chars i))) issues)
  = existsb p issues.
Proof.
  intros H. rewrite existsb_map. induction issues as [|i l IH];
    [reflexivity|].
  cbn [existsb]. now rewrite H, IH.
Qed.

(** X11: the list of suggested practices that [createFixTask] builds has
    at most six lines and depends on the issues and the filepath only up to
    letter case; a file with an issue that mentions large file or
    duplication always gets at least one suggestion. *)
Theorem best_practices_ignore_case (filepath : string)
    (issues : list string) :
  (length (FileCard.bestPractices filepath issues) <= 6)%nat
  /\ FileCard.bestPractices
       (string_of_list_ascii (toLowerCase (chars filepath)))
       (map (fun i => string_of_list_ascii (toLowerCase (chars i))) issues)
     = FileCard.bestPractices filepath issues
  /\ (existsb (fun i => mentions i "large file" || mentions i "duplication")
              issues = true ->
      FileCard.bestPractices filepath issues <> []).
Proof.
  split; [|split].
  - unfold FileCard.bestPractices. rewrite !length_app.
    repeat match goal with
           | |- context [if ?b then _ else _] => destruct b
           end; simpl; lia.
  - unfold FileCard.bestPractices.
    rewrite !existsb_lowered, mentions_lowered;
      [reflexivity | intros i; now rewrite ?mentions_lowered ..].
  - intros H. apply existsb_exists in H as (i & Hin & Hi).
    unfold FileCard.bestPractices.
    apply orb_true_iff in Hi as [Hi|Hi].
    + assert (E : existsb (fun i => mentions i "large file") issues = true)
        by (apply existsb_exists; eauto).
      rewrite E, orb_true_r. discriminate.
    + assert (E : existsb (fun i => mentions i "duplicat") issues = true).
      { apply existsb_exists. exists i. split; [exact Hin|].
        unfold mentions in *. apply includes_chars_spec.
        apply includes_chars_spec in Hi.
        exact (contains_prefix _ (chars "duplicat") (chars "ion") Hi). }
      rewrite E.
      destruct (_ || _), (existsb (fun i => mentions i "complex") issues);
        discriminate.
Qed.

Lemma best_practices_ignore_case_witness :
  FileCard.bestPractices "ui/pages/A.tsx" ["Code DUPLICATION detected"] <> [].
Proof.
  destruct (best_practices_ignore_case "ui/pages/A.tsx"
              ["Code DUPLICATION detected"]) as (_ & _ & H).
  apply H. vm_compute. reflexivity.
Defined.

(** ** The score history of a file card, the sparkline and the banner *)

Lemma find_head_filter {A : Type} (p : A -> bool) (l : list A) :
  List.find p l = head (List.filter p l).
Proof.
  induction l as [|x l IH]; [reflexivity|].
  simpl. destruct (p x); [reflexivity | exact IH].
Qed.

Lemma existsb_filter_nil {A : Type} (p : A -> bool) (l : list A) :
  existsb p l = negb (length (List.filter p l) =? 0)%nat.
Proof.
  induction l as [|x l IH]; [reflexivity|].
  simpl. destruct (p x); [reflexivity | exact IH].
Qed.

Lemma forallb_filter_nil {A : Type} (p : A -> bool) (l : list A) :
  forallb p l = (length (List.filter (fun x => negb (p x)) l) =? 0)%nat.
Proof.
  induction l as [|x l IH]; [reflexivity|].
  simpl. destruct (p x); [exact IH | reflexivity].
Qed.

Lemma omap_cons_eq {A B : Type} (f : A -> option B) (x : A) (l : list A) :
  omap f (x :: l)
  = match f x with
    | Some y => y :: omap f l
    | None => omap f l
    end.
Proof. reflexivity. Qed.

(** The scores of a file card, snapshot by snapshot. *)
Lemma score_history_from (calc : FileMetrics -> num)
    (healthHistory : list HealthHistoryEntry) (path : string)
    (acc : list num) :
  foldl (fun scoreHistory entry =>
           match FileCard.foundFile entry path with
           | Some foundFile => scoreHistory ++ [calc foundFile]
           | None => scoreHistory
           end)
        acc healthHistory
  = acc ++ omap (fun entry => option_map calc (FileCard.foundFile entry path))
                healthHistory.
Proof.
  revert acc. induction healthHistory as [|e h IH]; intros acc.
  - simpl. now rewrite app_nil_r.
  - cbn [foldl]. rewrite IH, omap_cons_eq.
    destruct (FileCard.foundFile e path) as [f|]; cbn [option_map].
    + now rewrite <- app_assoc.
    + reflexivity.
Qed.

Lemma score_history_spec (calc : FileMetrics -> num)
    (healthHistory : list HealthHistoryEntry) (path : string) :
  FileCard.getFileScoreHistory calc healthHistory path
  = omap (fun entry => option_map calc (FileCard.foundFile entry path))
         healthHistory.
Proof.
  unfold FileCard.getFileScoreHistory. now rewrite score_history_from.
Qed.


Lemma score_history_length (calc : FileMetrics -> num)
    (healthHistory : list HealthHistoryEntry) (path : string) :
  length (FileCard.getFileScoreHistory calc healthHistory path)
  = snapshots_with path healthHistory.
Proof.
  rewrite score_history_spec. unfold snapshots_with.
  induction healthHistory as [|e h IH]; [reflexivity|].
  rewrite omap_cons_eq. cbn [List.filter].
  rewrite existsb_filter_nil.
  unfold FileCard.foundFile at 1. rewrite find_head_filter.
  destruct (List.filter _ (flat_map files (components (results e))))
    as [|f fs]; cbn [head option_map length Nat.eqb negb]; now rewrite IH.
Qed.




(** X14: the sparkline of the banner drops the snapshots without the file
    together with the snapshots where the file scores 0 or less: its data
    are the positive scores of the file card's history. A sparkline that is
    drawn therefore needs two snapshots that list the file. *)
Theorem sparkline_is_positive_history (calc : FileMetrics -> num)
    (healthHistory : list HealthHistoryEntry) (path : string) :
  FileCard.sparklineData calc healthHistory path
  = List.filter is_positive
      (FileCard.getFileScoreHistory calc healthHistory path)
  /\ (FileCard.sparklineShown
        (FileCard.sparklineData calc healthHistory path) = true ->
      (2 <= snapshots_with path healthHistory)%nat).
Proof.
  assert (E : FileCard.sparklineData calc healthHistory path
              = List.filter is_positive
                  (FileCard.getFileScoreHistory calc healthHistory path)).
  { rewrite score_history_spec. unfold FileCard.sparklineData.
    induction healthHistory as [|e h IH]; [reflexivity|].
    rewrite omap_cons_eq. cbn [map List.filter].
    destruct (FileCard.foundFile e path) as [f|]; cbn [option_map].
    - cbn [List.filter]. now rewrite IH.
    - cbn [is_positive Z.ltb Z.compare]. exact IH. }
  split; [exact E|].
  rewrite E. unfold FileCard.sparklineShown.
  rewrite <- (score_history_length calc healthHistory path).
  pose proof (List.filter_length_le is_positive
                (FileCard.getFileScoreHistory calc healthHistory path)).
  intros Hs. apply negb_true_iff, Nat.leb_gt in Hs. lia.
Qed.

Lemma sparkline_is_positive_history_witness :
  (2 <= snapshots_with "ui/pages/A.tsx" sample_history)%nat.
Proof.
  destruct (sparkline_is_positive_history Utils.calculateFileAvgScore
              sample_history "ui/pages/A.tsx") as (_ & H).
  apply H. vm_compute. reflexivity.
Defined.

Lemma slice_from_0 {A : Type} (n : Z) (l : list A) :
  0 <= n -> slice 0 n l = take (Z.to_nat n) l.
Proof.
  intros Hn. unfold slice.
  replace (0 <? 0) with false by reflexivity.
  replace (n <? 0) with false by (symmetry; apply Z.ltb_ge; lia).
  cbv iota.
  replace (Z.min 0 (Z.of_nat (length l))) with 0 by lia.
  change (drop (Z.to_nat 0) l) with l.
  destruct (Z.min_spec n (Z.of_nat (length l))) as [[Hl ->]|[Hl ->]].
  - now rewrite Z.sub_0_r.
  - rewrite Z.sub_0_r, Nat2Z.id.
    rewrite firstn_all. symmetry. apply take_ge. lia.
Qed.

(** X15: the banner of critical files is shown exactly when some file of
    the latest snapshot scores below 70; it lists the first three such
    files, in the order of the snapshot, and the count behind "And n more"
    is the number of those it leaves out, so that listed and counted files
    together are all the low files. The banner and the "No critical issues
    detected" line are never shown together. *)
Theorem critical_banner_accounts_for_low_files
    (calc : FileMetrics -> num) (latestEntry : HealthHistoryEntry) :
  let low := List.filter (FileCard.is_low calc)
               (flat_map files (components (results latestEntry))) in
  let banner := FileCard.criticalBanner calc latestEntry in
  FileCard.banner_shown banner = negb (length low =? 0)%nat
  /\ FileCard.banner_files banner = take 3 low
  /\ Z.of_nat (length (FileCard.banner_files banner))
     + default 0 (FileCard.banner_more banner)
     = Z.of_nat (length low)
  /\ (FileCard.banner_more banner = None
      <-> FileCard.banner_files banner = low)
  /\ FileCard.banner_shown banner && FileCard.allClear calc latestEntry
     = false.
Proof.
  intros low banner. subst banner low. unfold FileCard.criticalBanner.
  cbn [FileCard.banner_shown FileCard.banner_files FileCard.banner_more].
  rewrite slice_from_0 by lia.
  set (low := List.filter (FileCard.is_low calc)
                (flat_map files (components (results latestEntry)))).
  change (Z.to_nat 3) with 3%nat.
  split; [apply existsb_filter_nil|].
  split; [reflexivity|].
  split; [|split].
  - rewrite length_take.
    destruct (3 <? length low)%nat eqn:E; cbv [default from_option id].
    + apply Nat.ltb_lt in E. lia.
    + apply Nat.ltb_ge in E. lia.
  - destruct (3 <? length low)%nat eqn:E.
    + apply Nat.ltb_lt in E. split; [discriminate|].
      intros H. apply (f_equal length) in H. rewrite length_take in H. lia.
    + apply Nat.ltb_ge in E. split; [|reflexivity].
      intros _. apply take_ge. exact E.
  - destruct (existsb (FileCard.is_low calc)
                (flat_map files (components (results latestEntry)))) eqn:E;
      [|reflexivity].
    apply existsb_exists in E as (f & Hin & Hf).
    unfold FileCard.allClear.
    cbn [andb]. apply andb_false_iff. right.
    apply andb_false_iff. right.
    apply not_true_is_false. intros Hall.
    rewrite forallb_forall in Hall. specialize (Hall f Hin).
    unfold FileCard.is_low in Hf.
    destruct (calc f) as [z|]; [|discriminate].
    cbn [less_than at_least] in Hf, Hall.
    apply Z.ltb_lt in Hf. apply Z.leb_le in Hall. lia.
Qed.

Lemma critical_banner_accounts_for_low_files_witness :
  FileCard.banner_files
    (FileCard.criticalBanner Utils.calculateFileAvgScore
       (snapshot 1 [ uniform_file "a.ts" 10; uniform_file "b.ts" 90;
                     uniform_file "c.ts" 20; uniform_file "d.ts" 30;
                     uniform_file "e.ts" 40 ]))
  = [ uniform_file "a.ts" 10; uniform_file "c.ts" 20; uniform_file "d.ts" 30 ]
  /\ FileCard.banner_more
       (FileCard.criticalBanner Utils.calculateFileAvgScore
          (snapshot 1 [ uniform_file "a.ts" 10; uniform_file "b.ts" 90;
                        uniform_file "c.ts" 20; uniform_file "d.ts" 30;
                        uniform_file "e.ts" 40 ]))
     <> None.
Proof.
  pose proof (critical_banner_accounts_for_low_files
                Utils.calculateFileAvgScore
                (snapshot 1 [ uniform_file "a.ts" 10; uniform_file "b.ts" 90;
                              uniform_file "c.ts" 20; uniform_file "d.ts" 30;
                              uniform_file "e.ts" 40 ])) as H.
  cbv zeta in H. destruct H as (_ & Hf & _ & Hm & _).
  split.
  - rewrite Hf. vm_compute. reflexivity.
  - intros Hn. apply Hm in Hn. rewrite Hf in Hn.
    vm_compute in Hn. discriminate.
Defined.


(** ** "Top Issues By File" *)

(** A comparator that subtracts integer keys sorts by the key; [P] holds
    of the elements whose key the comparator reads. *)
Lemma insert_by_key_sorted {A : Type} (cmp : A -> A -> num) (key : A -> Z)
    (P : A -> Prop) (x : A) (l : list A) :
  (forall a b, P a -> P b -> cmp a b = Num (key a - key b)) ->
  P x -> Forall P l ->
  Sorted (fun a b => key a <= key b) l ->
  Sorted (fun a b => key a <= key b) (insert_by cmp x l).
Proof.
  intros Hcmp Hx. induction l as [|y l IH]; intros Hl Hs.
  - repeat constructor.
  - cbn [insert_by].
    apply Forall_cons_1 in Hl as [Hy Hl].
    rewrite (Hcmp y x Hy Hx). cbn [is_negative].
    inversion Hs as [|y' l' Hs' Hhd]; subst.
    destruct (Z.ltb_spec (key y - key x) 0) as [Hlt|Hge].
    + constructor; [now apply IH|].
      destruct l as [|z l]; cbn [insert_by].
      * constructor. lia.
      * apply Forall_cons_1 in Hl as [Hz Hl].
        rewrite (Hcmp z x Hz Hx). cbn [is_negative].
        inversion Hhd; subst.
        destruct (key z - key x <? 0); constructor; lia.
    + constructor; [exact Hs|]. constructor. lia.
Qed.

Lemma sort_by_key_sorted {A : Type} (cmp : A -> A -> num) (key : A -> Z)
    (P : A -> Prop) (l : list A) :
  (forall a b, P a -> P b -> cmp a b = Num (key a - key b)) ->
  Forall P l ->
  Sorted (fun a b => key a <= key b) (sort_by cmp l).
Proof.
  intros Hcmp. induction 1 as [|x l Hx Hl IH]; [constructor|].
  cbn [sort_by fold_right].
  apply (insert_by_key_sorted cmp key P); auto.
  rewrite List.Forall_forall in *. intros y Hy. apply Hl.
  exact (Permutation_in y (sort_by_perm cmp l) Hy).
Qed.

Lemma In_drop {A : Type} (n : nat) (l : list A) (x : A) :
  In x (drop n l) -> In x l.
Proof.
  revert n. induction l as [|y l IH]; intros [|n]; cbn [drop]; auto.
  intros H. right. now apply (IH n).
Qed.

Lemma sorted_split_le {A : Type} (key : A -> Z) (n : nat) (l : list A) :
  Sorted (fun a b => key a <= key b) l ->
  forall s o, In s (take n l) -> In o (drop n l) -> key s <= key o.
Proof.
  intros Hs. apply Sorted_StronglySorted in Hs; [|intros a b c; lia].
  revert n. induction Hs as [|x l Hl IH Hx]; intros n s o.
  - rewrite take_nil. intros [].
  - destruct n as [|n]; [intros []|].
    cbn [take drop]. intros [<-|Hin] Ho.
    + rewrite List.Forall_forall in Hx. apply Hx.
      now apply In_drop in Ho.
    + now apply (IH n).
Qed.

(** X17: the "Top Issues By File" table shows five files, or all of them
    when there are fewer; they are in descending order of their number of
    issues, and no file left out has more issues than a file shown. *)
Theorem top_issues_are_the_most (groupedFiles : Buckets) :
  let top := FileCard.topIssues groupedFiles in
  length top = Nat.min 5 (total_size groupedFiles)
  /\ Sorted (fun a b => (length (info_issues b) <= length (info_issues a))%nat)
            top
  /\ exists rest,
       Permutation (top ++ rest) (concat (map snd groupedFiles))
       /\ forall s o, In s top -> In o rest ->
                      (length (info_issues o) <= length (info_issues s))%nat.
Proof.
  intros top. subst top. unfold FileCard.topIssues, total_size.
  rewrite slice_from_0 by lia.
  set (all := concat (map snd groupedFiles)).
  set (key := fun fi : FileInfo => - Z.of_nat (length (info_issues fi))).
  assert (Hs : Sorted (fun a b => key a <= key b)
                      (sort_by FileCard.by_issue_count all)).
  { apply (sort_by_key_sorted _ key (fun _ => True)).
    - intros a b _ _.
      unfold FileCard.by_issue_count, key. cbn [nsub]. f_equal. lia.
    - apply List.Forall_forall. auto. }
  change (Z.to_nat 5) with 5%nat.
  split; [|split].
  - rewrite length_take.
    now rewrite (Permutation_length (sort_by_perm _ all)).
  - assert (Ht : Sorted (fun a b => key a <= key b)
                        (take 5 (sort_by FileCard.by_issue_count all))).
    { apply Sorted_StronglySorted in Hs; [|intros a b c; lia].
      apply StronglySorted_Sorted.
      rewrite <- (take_drop 5 (sort_by FileCard.by_issue_count all)) in Hs.
      revert Hs. generalize (take 5 (sort_by FileCard.by_issue_count all)).
      intros l. induction l as [|x l IH]; [constructor|].
      cbn [app]. intros Hs. inversion Hs as [|? ? Hs' Hx]; subst.
      constructor; [now apply IH|].
      rewrite List.Forall_forall in *. intros y Hy. apply Hx.
      apply in_or_app. now left. }
    clear Hs. induction Ht as [|x l Hl IH Hx]; [constructor|].
    constructor; [exact IH|].
    destruct Hx as [|y l Hxy]; constructor. unfold key in Hxy. lia.
  - exists (drop 5 (sort_by FileCard.by_issue_count all)). split.
    + rewrite take_drop. apply sort_by_perm.
    + intros s o Hin Ho.
      pose proof (sorted_split_le key 5 _ Hs s o Hin Ho) as H.
      unfold key in H. lia.
Qed.

(** ** The component lists of the [CodeHealthHistory] page *)

Lemma find_first {A : Type} (p : A -> bool) (l : list A) (x : A) :
  List.find p l = Some x ->
  exists before after,
    l = before ++ x :: after /\ p x = true
    /\ forall y, In y before -> p y = false.
Proof.
  induction l as [|y l IH]; [discriminate|].
  cbn [List.find]. destruct (p y) eqn:E.
  - intros H. apply (inj Some) in H. subst y.
    exists [], l. repeat split; [exact E | intros y []].
  - intros H. destruct (IH H) as (before & after & -> & Hx & Hb).
    exists (y :: before), after. repeat split; [exact Hx|].
    intros z [<-|Hz]; [exact E | now apply Hb].
Qed.

Lemma find_none_iff {A : Type} (p : A -> bool) (l : list A) :
  List.find p l = None <-> forall y, In y l -> p y = false.
Proof.
  split; [apply List.find_none|].
  induction l as [|y l IH]; [reflexivity|].
  intros H. cbn [List.find]. rewrite (H y (or_introl eq_refl)).
  apply IH. intros z Hz. apply H. now right.
Qed.

(** X18: the issues shown for a component of the components list are the
    issues of the first component with that name in the latest snapshot;
    for a name that is not in the list, the list of issues is empty. *)
Theorem component_issues_of_listed (healthHistory : list HealthHistoryEntry)
    (componentName : string) :
  (In componentName (HistoryPageLists.getComponentsList healthHistory) ->
   exists latestEntry before component after,
     latest_of healthHistory = Some latestEntry
     /\ components (results latestEntry) = before ++ component :: after
     /\ name component = componentName
     /\ (forall c, In c before -> name c <> componentName)
     /\ HistoryPageLists.getComponentIssues healthHistory componentName
        = component_issues component)
  /\ (~ In componentName (HistoryPageLists.getComponentsList healthHistory) ->
      HistoryPageLists.getComponentIssues healthHistory componentName = []).
Proof.
  unfold HistoryPageLists.getComponentsList,
    HistoryPageLists.getComponentIssues.
  destruct (length healthHistory =? 0)%nat; [split; [intros []|reflexivity]|].
  destruct (latest_of healthHistory) as [e|];
    [|split; [intros []|reflexivity]].
  destruct (List.find (fun c => String.eqb (name c) componentName)
                      (components (results e))) as [comp|] eqn:Ef.
  - apply find_first in Ef as (before & after & El & Hn & Hb).
    apply String.eqb_eq in Hn.
    split.
    + intros _. exists e, before, comp, after.
      repeat split; auto.
      intros c Hc. apply String.eqb_neq. now apply Hb.
    + intros Hnot. exfalso. apply Hnot. apply in_map_iff.
      exists comp. split; [exact Hn|].
      rewrite El. apply in_or_app. right. now left.
  - split; [|reflexivity].
    intros Hin. exfalso. apply in_map_iff in Hin as (c & Hn & Hc).
    rewrite find_none_iff in Ef. specialize (Ef c Hc).
    apply String.eqb_neq in Ef. contradiction.
Qed.

Lemma component_issues_of_listed_witness :
  HistoryPageLists.getComponentsList sample_components = ["UI"; "API"; "UI"]
  /\ HistoryPageLists.getComponentIssues sample_components "UI"
     = ["Large files"]
  /\ HistoryPageLists.getComponentIssues sample_components "Pages" = [].
Proof.
  split; [reflexivity|].
  destruct (component_issues_of_listed sample_components "UI") as (H & _).
  destruct (component_issues_of_listed sample_components "Pages")
    as (_ & H').
  split.
  - destruct H as (e & before & c & after & El & Ec & En & Hb & ->).
    + left. reflexivity.
    + apply (inj Some) in El. subst e.
      destruct before as [|b before].
      * apply (f_equal head) in Ec. apply (inj Some) in Ec. now subst c.
      * exfalso. apply (f_equal head) in Ec. apply (inj Some) in Ec.
        apply (Hb b); [now left | now subst b].
  - apply H'. intros [E|[E|[E|[]]]]; discriminate.
Defined.

(** ** The [CodeHealthChart] component *)

Lemma valid_score_range (f : FileMetrics) :
  valid_file f ->
  exists s r,
    Chart.raw_sum f = Num s /\ 0 <= s <= 600
    /\ Utils.calculateFileAvgScore f = Num r
    /\ r = Math_round (inject_Z s / inject_Z 6)
    /\ 0 <= r <= 100.
Proof.
  intros H.
  destruct (valid_file_inv f H) as (a & b & c & d & e & g & Es & Hr).
  unfold sub_scores in Es.
  injection Es as E1 E2 E3 E4 E5 E6.
  repeat match goal with
         | H : Forall _ (_ :: _) |- _ =>
             apply Forall_cons_1 in H; destruct H as [? H]
         end.
  exists (a + b + c + d + e + g),
         (Math_round (inject_Z (a + b + c + d + e + g) / inject_Z 6)).
  assert (Er : Chart.raw_sum f = Num (a + b + c + d + e + g)).
  { unfold Chart.raw_sum. rewrite E1, E2, E3, E4, E5, E6. reflexivity. }
  split; [exact Er|]. split; [lia|].
  split.
  { change (Utils.calculateFileAvgScore f)
      with (round_quot (Chart.raw_sum f) 6).
    rewrite Er. apply round_quot_Num. lia. }
  split; [reflexivity|].
  pose proof (Math_round_nearest (a + b + c + d + e + g) 6 ltac:(lia)) as N.
  cbv zeta in N. lia.
Qed.

Lemma raw_sum_missing (f : FileMetrics) :
  In None (sub_scores f) -> Chart.raw_sum f = NaN.
Proof.
  unfold sub_scores, Chart.raw_sum. intros H.
  destruct (size_score f), (complexity_score f), (duplication_score f),
    (function_length_score f), (comment_density_score f),
    (naming_convention_score f); cbn [to_num nadd]; try reflexivity;
    exfalso; cbn [In] in H; intuition discriminate.
Qed.

(** X19: the two tabs of the chart show the same score for a file. The
    components tab formats the mean with [toFixed(0)], the files tab rounds
    it with [Math.round]; for a file whose sub-scores are in [0,100], and
    for a file with a missing sub-score, the first is the decimal text of
    the second. *)
Theorem chart_tabs_show_same_score (f : FileMetrics) :
  valid_file f \/ In None (sub_scores f) ->
  Chart.componentDataScore f = show (Utils.calculateFileAvgScore f).
Proof.
  intros [H|H].
  - destruct (valid_score_range f H) as (s & r & Es & Hs & Er & Hr & _).
    unfold Chart.componentDataScore. rewrite Es, Er, Hr.
    cbn [Chart.toFixed0 show]. change (6 =? 0) with false. cbv iota.
    assert (Hq : Qle_bool 0 (inject_Z s / inject_Z 6) = true).
    { apply Qle_bool_iff. apply Qle_shift_div_l; [reflexivity|].
      rewrite Qmult_0_l. change 0%Q with (inject_Z 0).
      rewrite <- Zle_Qle. lia. }
    rewrite Hq. reflexivity.
  - unfold Chart.componentDataScore.
    change (Utils.calculateFileAvgScore f)
      with (round_quot (Chart.raw_sum f) 6).
    rewrite (raw_sum_missing f H). reflexivity.
Qed.

Lemma chart_tabs_show_same_score_witness :
  Chart.componentDataScore file_nearly_full = "100".
Proof.
  rewrite (chart_tabs_show_same_score file_nearly_full).
  - vm_compute. reflexivity.
  - left. unfold valid_file, file_nearly_full, sub_scores. simpl.
    repeat (constructor; [eexists; split; [reflexivity | lia]|]).
    constructor.
Defined.

Lemma Sorted_strengthen {A : Type} (R R' : A -> A -> Prop) (P : A -> Prop)
    (l : list A) :
  (forall a b, P a -> P b -> R a b -> R' a b) ->
  Forall P l -> Sorted R l -> Sorted R' l.
Proof.
  intros HR HP Hs. induction Hs as [|x l Hs IH Hhd]; [constructor|].
  apply Forall_cons_1 in HP as [Hx HP].
  constructor; [now apply IH|].
  destruct Hhd as [|y l Hxy]; constructor.
  apply Forall_cons_1 in HP as [Hy _]. now apply HR.
Qed.

(** X20: the bars of the files tab. For a latest snapshot whose files have
    their sub-scores in [0,100], the bars are in ascending order of score;
    and every bar belongs to a file of a component with the selected name
    in the latest snapshot: it carries the file's path and the composite
    score of the utility module. *)
Theorem chart_bars_sorted (healthHistory : list HealthHistoryEntry)
    (selectedComponent : option string) :
  Forall valid_file (latest_files healthHistory) ->
  let bars := Chart.getFileScores healthHistory selectedComponent in
  Sorted bar_le bars
  /\ (length bars <= length (latest_files healthHistory))%nat
  /\ forall b, In b bars ->
       exists c f,
         In c (match latest_of healthHistory with
               | Some e => components (results e)
               | None => []
               end)
         /\ Some (name c) = selectedComponent
         /\ In f (files c)
         /\ Chart.bar_filepath b = filepath f
         /\ Chart.bar_name b = Chart.barName (filepath f)
         /\ Chart.bar_score b = Utils.calculateFileAvgScore f.
Proof.
  intros Hv bars. subst bars. unfold Chart.getFileScores.
  assert (Hnil : Sorted bar_le []
                 /\ (length (@nil Chart.Bar)
                     <= length (latest_files healthHistory))%nat
                 /\ forall b, In b (@nil Chart.Bar) ->
                      exists c f,
                        In c (match latest_of healthHistory with
                              | Some e => components (results e)
                              | None => []
                              end)
                        /\ Some (name c) = selectedComponent
                        /\ In f (files c)
                        /\ Chart.bar_filepath b = filepath f
                        /\ Chart.bar_name b = Chart.barName (filepath f)
                        /\ Chart.bar_score b = Utils.calculateFileAvgScore f).
  { split; [constructor|]. split; [cbn [length]; lia | intros b []]. }
  destruct selectedComponent as [selected|]; [|exact Hnil].
  destruct ((length healthHistory =? 0)%nat || String.eqb selected "");
    [exact Hnil|].
  unfold latest_files in *.
  destruct (latest_of healthHistory) as [e|]; [|exact Hnil].
  destruct (List.find (fun c => String.eqb (name c) selected)
                      (components (results e))) as [comp|] eqn:Ef;
    [|exact Hnil].
  destruct (length (files comp) =? 0)%nat; [exact Hnil|]. clear Hnil.
  apply find_first in Ef as (before & after & El & Hn & _).
  apply String.eqb_eq in Hn.
  assert (Hc : In comp (components (results e)))
    by (rewrite El; apply in_or_app; right; now left).
  set (bar := fun file =>
                {| Chart.bar_name := Chart.barName (filepath file);
                   Chart.bar_filepath := filepath file;
                   Chart.bar_details := details_of file;
                   Chart.bar_score := round_quot (Chart.raw_sum file) 6 |}).
  set (key := fun b : Chart.Bar =>
                match Chart.bar_score b with Num z => z | NaN => 0 end).
  set (P := fun b : Chart.Bar => exists z, Chart.bar_score b = Num z).
  assert (Hvc : Forall valid_file (files comp)).
  { rewrite List.Forall_forall in *. intros f Hf. apply Hv.
    apply in_flat_map. eauto. }
  assert (HP : Forall P (map bar (files comp))).
  { rewrite List.Forall_forall in *. intros b Hb.
    apply in_map_iff in Hb as (f & <- & Hf).
    destruct (valid_score_range f (Hvc f Hf)) as (s & r & _ & _ & Er & _).
    exists r. exact Er. }
  assert (Hcmp : forall a b, P a -> P b ->
                   Chart.by_bar_score a b = Num (key a - key b)).
  { intros a b (x & Ex) (y & Ey). unfold Chart.by_bar_score, key.
    now rewrite Ex, Ey. }
  pose proof (sort_by_perm Chart.by_bar_score (map bar (files comp))) as Hp.
  split; [|split].
  - apply (Sorted_strengthen (fun a b => key a <= key b) bar_le P).
    + intros a b (x & Ex) (y & Ey) Hab. exists x, y.
      unfold key in Hab. rewrite Ex, Ey in Hab. auto.
    + rewrite List.Forall_forall in *. intros b Hb. apply HP.
      exact (Permutation_in b Hp Hb).
    + now apply (sort_by_key_sorted _ key P).
  - rewrite (Permutation_length Hp), length_map.
    rewrite El, flat_map_app, length_app. cbn [flat_map].
    rewrite length_app. lia.
  - intros b Hb. apply (Permutation_in b Hp) in Hb.
    apply in_map_iff in Hb as (f & <- & Hf).
    exists comp, f. rewrite Hn. repeat split; auto.
Qed.

Lemma chart_bars_sorted_witness :
  map Chart.bar_score (Chart.getFileScores sample_history (Some "UI"))
  = [Num 70; Num 90]
  /\ Sorted bar_le (Chart.getFileScores sample_history (Some "UI")).
Proof.
  split; [vm_compute; reflexivity|].
  apply (chart_bars_sorted sample_history (Some "UI")).
  exact sample_history_valid.
Defined.

(** X21: the name of a bar is the last segment of the file's path; when
    that segment is empty (the path ends with a slash, or is empty) the
    name is the whole path. So the name is empty for the empty path
    only. *)
Theorem bar_name_is_last_segment (filepath : string) :
  (FileCard.filename filepath = Some (Chart.barName filepath)
   \/ (FileCard.filename filepath = Some []
       /\ Chart.barName filepath = chars filepath))
  /\ (Chart.barName filepath = [] <-> filepath = "").
Proof.
  unfold Chart.barName, FileCard.filename.
  destruct (split_slash_last (chars filepath))
    as (dir & nm & El & Ep & _ & _ & _).
  unfold pop. rewrite El.
  destruct nm as [|c seg].
  - split; [right; split; reflexivity|].
    split.
    + intros H. rewrite <- (string_of_list_ascii_of_string filepath).
      unfold chars in H. now rewrite H.
    + now intros ->.
  - split; [left; reflexivity|].
    split; [discriminate|].
    intros ->. destruct dir; discriminate.
Qed.

Lemma bar_name_is_last_segment_witness :
  Chart.barName "ui/pages/Home.tsx" = chars "Home.tsx"
  /\ Chart.barName "ui/pages/" <> [].
Proof.
  destruct (bar_name_is_last_segment "ui/pages/") as (_ & H).
  split; [vm_compute; reflexivity|].
  intros E. apply H in E. discriminate.
Defined.

(** ** The range of the scores in the buckets *)

Lemma score_index_from_lookup (calc : FileMetrics -> num)
    (l : list FileMetrics) (m : gmap string num) (k : string) (v : num) :
  foldl (fun m file => prop_set (filepath file) (calc file) m) m l !! k
  = Some v ->
  m !! k = Some v \/ exists p, In p l /\ filepath p = k /\ v = calc p.
Proof.
  revert m. induction l as [|x l IH]; intros m; [now left|].
  cbn [foldl]. intros H. destruct (IH _ H) as [Hm|(p & Hp & Ek & Ev)].
  - unfold prop_set in Hm.
    destruct (String.eqb (filepath x) "__proto__"); [now left|].
    apply lookup_insert_Some in Hm as [[Ek Ev]|[_ Hm]].
    + right. exists x. split; [now left | auto].
    + now left.
  - right. exists p. split; [now right | auto].
Qed.

Lemma score_index_lookup (calc : FileMetrics -> num)
    (l : list FileMetrics) (k : string) (v : num) :
  score_index calc l !! k = Some v ->
  exists p, In p l /\ filepath p = k /\ v = calc p.
Proof.
  intros H. apply score_index_from_lookup in H as [H|H]; [|exact H].
  rewrite lookup_empty in H. discriminate.
Qed.

(** A view whose three scores are numbers of the expected range. *)
Lemma scores_in_range (f : FileMetrics) (l : list FileMetrics) :
  valid_file f -> Forall valid_file l ->
  inherited (filepath f) = false ->
  let avg := Utils.calculateFileAvgScore f in
  let prev := or_default (prop_get (score_index Utils.calculateFileAvgScore l)
                                   (filepath f)) avg in
  exists s p,
    avg = Num s /\ prev = Num p /\ nsub avg (to_number prev) = Num (s - p)
    /\ 0 <= s <= 100 /\ 0 <= p <= 100.
Proof.
  intros Hf Hl Hin avg prev. subst avg prev.
  destruct (valid_score_range f Hf) as (s0 & s & _ & _ & Es & _ & Hs).
  rewrite Es. unfold prop_get.
  destruct (score_index Utils.calculateFileAvgScore l !! filepath f)
    as [v|] eqn:Ev; cbn [or_default].
  - apply score_index_lookup in Ev as (q & Hq & _ & ->).
    rewrite List.Forall_forall in Hl.
    destruct (valid_score_range q (Hl q Hq)) as (p0 & p & _ & _ & Ep & _ & Hp).
    rewrite Ep. cbn [truthy].
    destruct (p =? 0); cbn [negb].
    + exists s, s. cbn [nsub to_number]. auto.
    + exists s, p. cbn [nsub to_number]. auto.
  - rewrite Hin. cbn [or_default]. exists s, s. cbn [nsub to_number]. auto.
Qed.

(** X22: when the files of the latest and of the preceding snapshot have
    their sub-scores in [0,100] and no file of the latest snapshot has a
    property name of [Object.prototype] as its filepath, every file in a
    bucket of the [CodeHealth] page and of the [CodeHealthHistory] page
    shows a score and a previous score that are integers of [0,100], and a
    change that is their difference, so an integer of [-100,100]. *)
Theorem bucket_scores_within_bounds
    (healthHistory : list HealthHistoryEntry) (buckets : Buckets)
    (k : string) (fs : list FileInfo) (fi : FileInfo) :
  Forall valid_file (latest_files healthHistory) ->
  Forall valid_file (previous_files healthHistory) ->
  Forall (fun f => inherited (filepath f) = false)
         (latest_files healthHistory) ->
  Page.getFilesGroupedByType healthHistory = Some buckets
  \/ HistoryPage.getFilesGroupedByType healthHistory = Some buckets ->
  In (k, fs) buckets -> In fi fs ->
  exists s p,
    score fi = Num s /\ previousScore fi = Num p
    /\ scoreChange fi = Num (s - p)
    /\ 0 <= s <= 100 /\ 0 <= p <= 100 /\ -100 <= s - p <= 100.
Proof.
  intros Hv Hpv Hord Hg Hb Hfi.
  destruct healthHistory as [|e0 l] eqn:Eh.
  { destruct Hg as [Hg|Hg]; vm_compute in Hg; apply (inj Some) in Hg;
      subst buckets; destruct Hb. }
  rewrite <- Eh in *.
  assert (Hne : healthHistory <> []) by (rewrite Eh; discriminate).
  assert (Hlatest : forall e c f,
            latest_of healthHistory = Some e ->
            In c (components (results e)) -> In f (files c) ->
            valid_file f /\ inherited (filepath f) = false).
  { intros e c f El Hc Hf.
    assert (Hin : In f (latest_files healthHistory)).
    { unfold latest_files. rewrite El. apply in_flat_map. eauto. }
    rewrite List.Forall_forall in Hv, Hord. auto. }
  assert (R : exists f,
            (valid_file f /\ inherited (filepath f) = false)
            /\ score fi = Utils.calculateFileAvgScore f
            /\ previousScore fi
               = or_default
                   (prop_get (score_index Utils.calculateFileAvgScore
                                (previous_files healthHistory))
                             (filepath f))
                   (Utils.calculateFileAvgScore f)
            /\ scoreChange fi
               = nsub (score fi) (to_number (previousScore fi))).
  { destruct Hg as [Hg|Hg].
    - unfold Page.getFilesGroupedByType in Hg.
      rewrite (PageBody_grouped _ _ Page_categorize_label _ Hne) in Hg.
      apply (inj Some) in Hg. subst buckets.
      destruct (in_bucket _ _ _ _ _ Hb Hfi) as [Hin _].
      apply in_page_infos in Hin as (e & c & f & El & Hc & Hf & ->).
      exists f. split; [eapply Hlatest; eauto|].
      rewrite Page_previousScores.
      unfold PageBody.fileInfoOf.
      cbn [score previousScore scoreChange]. auto.
    - rewrite (HistoryPage_grouped _ Hne) in Hg.
      apply (inj Some) in Hg. subst buckets.
      destruct (in_bucket _ _ _ _ _ Hb Hfi) as [Hin _].
      apply in_history_infos in Hin as (e & c & fi0 & El & Hc & Hf & ->).
      unfold Utils.processFilesData in Hf.
      apply in_map_iff in Hf as (f & <- & Hf).
      exists f. split; [eapply Hlatest; eauto|].
      rewrite Utils_previousScores.
      cbn [with_component score previousScore scoreChange]. auto. }
  destruct R as (f & (Hf & Hin) & Es & Ep & Ec).
  destruct (scores_in_range f _ Hf Hpv Hin)
    as (s & p & E1 & E2 & E3 & Hs & Hp).
  cbv zeta in E1, E2, E3.
  exists s, p. rewrite Ec, Es, Ep, E2, E1.
  repeat split; lia.
Qed.

Lemma sample_previous_valid :
  Forall valid_file (previous_files sample_history).
Proof.
  change (Forall valid_file [uniform_file "ui/pages/A.tsx" 80]).
  constructor; [apply uniform_file_valid; lia|].
  constructor.
Defined.

Lemma bucket_scores_within_bounds_witness :
  exists buckets fs fi,
    HistoryPage.getFilesGroupedByType sample_history = Some buckets /\
    In ("Pages", fs) buckets /\ In fi fs /\
    exists s p,
      score fi = Num s /\ previousScore fi = Num p
      /\ scoreChange fi = Num (s - p)
      /\ 0 <= s <= 100 /\ 0 <= p <= 100 /\ -100 <= s - p <= 100.
Proof.
  eexists. eexists. eexists.
  split; [vm_compute; reflexivity|].
  split; [left; reflexivity|].
  split; [left; reflexivity|].
  eapply (bucket_scores_within_bounds sample_history _ "Pages").
  - exact sample_history_valid.
  - exact sample_previous_valid.
  - repeat constructor.
  - right. vm_compute. reflexivity.
  - left. reflexivity.
  - left. reflexivity.
Defined.

(** ** The buckets of the extended page *)



(** ** The categories of the three variants *)

Lemma contains_suffix (l a b : list ascii) :
  contains l (a ++ b) -> contains l b.
Proof.
  intros (pre & post & ->). exists (pre ++ a), post.
  now rewrite <- !app_assoc.
Qed.

Lemma includes_suffix (s : string) (a b : list ascii) :
  includes_chars (chars s) (a ++ b) = true ->
  includes_chars (chars s) b = true.
Proof.
  rewrite !includes_chars_spec. apply contains_suffix.
Qed.

(** X24: [categorizeFileByPath] of [ui/pages/CodeHealth.tsx] and of the
    utility module give the same category to every path: the third API
    pattern of the page, [src/app/apis/], is subsumed by [/apis/]. In both,
    the test for [/src/utils/] never decides, since such a path holds
    [/utils/]. *)
Theorem page_and_utils_categories_agree (filepath : string) :
  Page.categorizeFileByPath filepath = Utils.categorizeFileByPath filepath
  /\ Utils.categorizeFileByPath filepath
     = if includes filepath "/pages/" then "Pages"
       else if includes filepath "/components/" then "Components"
       else if includes filepath "/utils/" then "UI Files"
       else if includes filepath "/apis/" || includes filepath "/api/"
       then "API Files"
       else "Other".
Proof.
  unfold Page.categorizeFileByPath, Utils.categorizeFileByPath, includes.
  assert (H1 : includes_chars (chars filepath) (chars "src/app/apis/") = true
               -> includes_chars (chars filepath) (chars "/apis/") = true)
    by apply (includes_suffix filepath (chars "src/app") (chars "/apis/")).
  assert (H2 : includes_chars (chars filepath) (chars "/src/utils/") = true
               -> includes_chars (chars filepath) (chars "/utils/") = true)
    by apply (includes_suffix filepath (chars "/src") (chars "/utils/")).
  destruct (includes_chars (chars filepath) (chars "/pages/"));
    [split; reflexivity|].
  destruct (includes_chars (chars filepath) (chars "/components/"));
    [split; reflexivity|].
  destruct (includes_chars (chars filepath) (chars "/utils/")),
    (includes_chars (chars filepath) (chars "/src/utils/"));
    try (split; reflexivity);
    try (specialize (H2 eq_refl); discriminate).
  destruct (includes_chars (chars filepath) (chars "/apis/")),
    (includes_chars (chars filepath) (chars "/api/")),
    (includes_chars (chars filepath) (chars "src/app/apis/"));
    try (split; reflexivity);
    specialize (H1 eq_refl); discriminate.
Qed.

Lemma lang_cat_inv (r1 r2 : regex) (m : list ascii) :
  lang (Cat r1 r2) m ->
  exists l1 l2, m = l1 ++ l2 /\ lang r1 l1 /\ lang r2 l2.
Proof. inversion 1; subst; eauto. Qed.

Lemma found_lit_prefix (s : string) (r : regex) (n : list ascii) :
  found (Cat (lit s) r) n -> contains n (chars s).
Proof.
  intros (pre & m & post & -> & Hm).
  apply lang_cat_inv in Hm as (l1 & l2 & -> & H1 & _).
  apply lang_lit_chars in H1. subst l1.
  exists pre, (l2 ++ post). now rewrite <- app_assoc.
Qed.

(** X25: of the seven API patterns of the extended page, three decide:
    a path is an API path exactly when it holds [apis/], or [api/] followed
    by a character other than a slash, or [/api/]. The patterns
    [app/apis/] and [src/app/apis/] and the two regular expressions are
    subsumed by [apis/]. *)
Theorem is_api_three_patterns (n : list ascii) :
  FullPage.is_api n
  = includes_chars n (chars "apis/")
    || regex_found re_api_segment n
    || includes_chars n (chars "/api/").
Proof.
  unfold FullPage.is_api.
  assert (H1 : includes_chars n (chars "app/apis/") = true ->
               includes_chars n (chars "apis/") = true).
  { rewrite !includes_chars_spec.
    apply (contains_suffix n (chars "app/") (chars "apis/")). }
  assert (H2 : includes_chars n (chars "src/app/apis/") = true ->
               includes_chars n (chars "apis/") = true).
  { rewrite !includes_chars_spec.
    apply (contains_suffix n (chars "src/app/") (chars "apis/")). }
  assert (H3 : regex_found re_apis_init n = true ->
               includes_chars n (chars "apis/") = true).
  { rewrite regex_found_spec, includes_chars_spec.
    apply found_lit_prefix. }
  assert (H4 : regex_found re_apis_py n = true ->
               includes_chars n (chars "apis/") = true).
  { rewrite regex_found_spec, includes_chars_spec.
    apply found_lit_prefix. }
  destruct (includes_chars n (chars "apis/")).
  - now rewrite !orb_true_r.
  - destruct (includes_chars n (chars "app/apis/"));
      [specialize (H1 eq_refl); discriminate|].
    destruct (includes_chars n (chars "src/app/apis/"));
      [specialize (H2 eq_refl); discriminate|].
    destruct (regex_found re_apis_init n);
      [specialize (H3 eq_refl); discriminate|].
    destruct (regex_found re_apis_py n);
      [specialize (H4 eq_refl); discriminate|].
    reflexivity.
Qed.

(** X26: a path that does not begin with a slash and that the utility
    module files under API Files is filed under API Files by the extended
    page as well. *)
Theorem utils_api_is_full_page_api (filepath : string) :
  starts_with (chars "/") (chars filepath) = false ->
  Utils.categorizeFileByPath filepath = "API Files" ->
  FullPage.categorizeFileByPath filepath = "API Files".
Proof.
  intros Hs Hu.
  assert (En : FullPage.normalizedPath filepath = chars filepath).
  { unfold FullPage.normalizedPath.
    destruct (chars filepath) as [|c l]; [reflexivity|].
    cbn [starts_with] in Hs. cbn [strip_leading_slashes].
    destruct (Ascii.eqb c "/") eqn:E.
    - apply Ascii.eqb_eq in E. subst c. discriminate.
    - reflexivity. }
  unfold FullPage.categorizeFileByPath. rewrite En. cbv zeta.
  unfold Utils.categorizeFileByPath, includes in Hu.
  assert (Ha : FullPage.is_api (chars filepath) = true); [|now rewrite Ha].
  unfold FullPage.is_api.
  destruct (includes_chars (chars filepath) (chars "/pages/"));
    [discriminate|].
  destruct (includes_chars (chars filepath) (chars "/components/"));
    [discriminate|].
  destruct (includes_chars (chars filepath) (chars "/utils/")
            || includes_chars (chars filepath) (chars "/src/utils/"));
    [discriminate|].
  destruct (includes_chars (chars filepath) (chars "/apis/")) eqn:Ea.
  - apply (includes_suffix filepath (chars "/") (chars "apis/")) in Ea.
    rewrite Ea. now rewrite orb_true_r.
  - destruct (includes_chars (chars filepath) (chars "/api/"));
      [now rewrite orb_true_r | discriminate].
Qed.

Lemma utils_api_is_full_page_api_witness :
  FullPage.categorizeFileByPath "src/app/apis/health/__init__.py"
  = "API Files".
Proof.
  apply utils_api_is_full_page_api; vm_compute; reflexivity.
Defined.

(** ** The rows of the overview chart and of the components chart *)

Lemma foldl_set_union {A V : Type} (key : A -> string) (val : A -> V)
    (l : list A) (m : gmap string V) :
  foldl (fun m x => prop_set (key x) (val x) m) m l
  = foldl (fun m x => prop_set (key x) (val x) m) ∅ l ∪ m.
Proof.
  revert m. induction l as [|x l IH]; intros m.
  - cbn [foldl]. now rewrite (left_id_L ∅ (∪)).
  - cbn [foldl]. rewrite IH. rewrite (IH (prop_set (key x) (val x) ∅)).
    rewrite <- (assoc_L (∪)). f_equal. unfold prop_set.
    destruct (String.eqb (key x) "__proto__").
    + now rewrite (left_id_L ∅ (∪)).
    + rewrite <- insert_union_l. now rewrite (left_id_L ∅ (∪)).
Qed.

Lemma foldl_set_absent {A V : Type} (key : A -> string) (val : A -> V)
    (l : list A) (m : gmap string V) (k : string) :
  (forall x, In x l -> key x <> k) ->
  foldl (fun m x => prop_set (key x) (val x) m) m l !! k = m !! k.
Proof.
  revert m. induction l as [|x l IH]; intros m H; [reflexivity|].
  cbn [foldl]. rewrite IH by (intros y Hy; apply H; now right).
  apply prop_set_lookup_ne. apply H. now left.
Qed.

Lemma foldl_set_proto {A V : Type} (key : A -> string) (val : A -> V)
    (l : list A) (m : gmap string V) :
  foldl (fun m x => prop_set (key x) (val x) m) m l !! "__proto__"
  = m !! "__proto__".
Proof.
  revert m. induction l as [|x l IH]; intros m; [reflexivity|].
  cbn [foldl]. rewrite IH. apply prop_set_lookup_proto.
Qed.

Lemma foldl_set_last {A V : Type} (key : A -> string) (val : A -> V)
    (before after : list A) (x : A) (m : gmap string V) :
  key x <> "__proto__" ->
  (forall y, In y after -> key y <> key x) ->
  foldl (fun m x => prop_set (key x) (val x) m) m (before ++ x :: after)
    !! key x
  = Some (val x).
Proof.
  intros Hk H. rewrite foldl_app. cbn [foldl].
  rewrite foldl_set_absent by exact H.
  now apply prop_set_lookup_eq.
Qed.

Lemma foldl_set_present {A V : Type} (key : A -> string) (val : A -> V)
    (l : list A) (m : gmap string V) (k : string) (v : V) :
  foldl (fun m x => prop_set (key x) (val x) m) m l !! k = Some v ->
  m !! k = Some v \/ exists x, In x l /\ key x = k /\ v = val x.
Proof.
  revert m. induction l as [|x l IH]; intros m; [now left|].
  cbn [foldl]. intros H. destruct (IH _ H) as [Hm|(y & Hy & Ek & Ev)].
  - unfold prop_set in Hm.
    destruct (String.eqb (key x) "__proto__"); [now left|].
    apply lookup_insert_Some in Hm as [[Ek Ev]|[_ Hm]].
    + right. exists x. split; [now left | auto].
    + now left.
  - right. exists y. split; [now right | auto].
Qed.

Lemma mapM_cons_eq {A B : Type} (f : A -> option B) (x : A) (l : list A) :
  mapM f (x :: l)
  = match f x with
    | Some y => match mapM f l with
                | Some k => Some (y :: k)
                | None => None
                end
    | None => None
    end.
Proof. cbn [mapM]. destruct (f x); [|reflexivity]. now destruct (mapM f l). Qed.

(** X27: the rows of the two line charts. Both functions fail on the same
    histories (a date that cannot be formatted), and a row of the overview
    chart is the row of the components chart for the same snapshot with
    the overall score added under [score], unless a component has that
    name. In a row, the name of a component, unless it is [__proto__],
    leads to the score of the last component of that name, also when the
    name is [date] or [score]; a component named [__proto__] leaves no
    property in the row; and the row has no other keys. *)
Theorem chart_rows_agree (format : string -> option string)
    (healthHistory : list HealthHistoryEntry) :
  Chart.formatHistoryData format healthHistory
  = option_map
      (fun rows =>
         zip_with (fun entry row =>
                     row ∪ {["score" :=
                               Chart.Number (overall_score (results entry))]})
                  healthHistory rows)
      (Chart.getComponentScoresOverTime format healthHistory)
  /\ forall rows i entry row,
       Chart.getComponentScoresOverTime format healthHistory = Some rows ->
       healthHistory !! i = Some entry -> rows !! i = Some row ->
       (forall before c after,
          components (results entry) = before ++ c :: after ->
          name c <> "__proto__" ->
          (forall d, In d after -> name d <> name c) ->
          row !! name c = Some (Chart.Number (component_score c)))
       /\ row !! "__proto__" = None
       /\ ((forall c, In c (components (results entry)) -> name c <> "date")
           -> exists d, format (date entry) = Some d
                        /\ row !! "date" = Some (Chart.Text d))
       /\ (forall k v, row !! k = Some v ->
             k = "date"
             \/ exists c, In c (components (results entry)) /\ name c = k
                          /\ v = Chart.Number (component_score c)).
Proof.
  split.
  - unfold Chart.formatHistoryData, Chart.getComponentScoresOverTime.
    induction healthHistory as [|e h IH]; [reflexivity|].
    rewrite !mapM_cons_eq. rewrite IH. clear IH.
    destruct (format (date e)) as [d|]; [|reflexivity].
    destruct (mapM _ h) as [rows|]; [|reflexivity].
    cbn [option_map zip_with].
    do 2 f_equal.
    rewrite (foldl_set_union name
               (fun c => Chart.Number (component_score c)) _
               (<["date" := Chart.Text d]> ∅)).
    rewrite <- (assoc_L (∪)). f_equal.
  - intros rows i entry row Hrows Hi Hrow.
    unfold Chart.getComponentScoresOverTime in Hrows.
    apply mapM_Some_1 in Hrows.
    destruct (Forall2_lookup_l _ _ _ _ _ Hrows Hi) as (row' & Hrow' & E).
    rewrite Hrow in Hrow'. apply (inj Some) in Hrow'. subst row'.
    destruct (format (date entry)) as [d|]; [|discriminate].
    apply (inj Some) in E. subst row.
    split; [|split; [|split]].
    + intros before c after El Hn Hafter. rewrite El.
      apply (foldl_set_last name (fun c => Chart.Number (component_score c)));
        assumption.
    + rewrite foldl_set_proto. reflexivity.
    + intros Hno. exists d. split; [reflexivity|].
      rewrite foldl_set_absent by exact Hno.
      apply lookup_insert_eq.
    + intros k v Hk.
      apply (foldl_set_present name
               (fun c => Chart.Number (component_score c))) in Hk
        as [Hk|(c & Hc & En & Ev)].
      * apply lookup_insert_Some in Hk as [[<- _]|[_ Hk]]; [now left|].
        rewrite lookup_empty in Hk. discriminate.
      * right. eauto.
Qed.

Lemma chart_rows_agree_witness :
  exists rows row,
    Chart.getComponentScoresOverTime Some sample_history = Some rows
    /\ rows !! 1%nat = Some row
    /\ row !! "UI" = Some (Chart.Number 0).
Proof.
  destruct (Chart.getComponentScoresOverTime Some sample_history)
    as [rows|] eqn:E; [|vm_compute in E; discriminate].
  assert (Hlen : length rows = 2%nat).
  { unfold Chart.getComponentScoresOverTime in E.
    apply length_mapM in E. now rewrite <- E. }
  destruct rows as [|r0 [|r1 [|r2 rows]]]; try discriminate.
  exists [r0; r1], r1. split; [reflexivity|]. split; [reflexivity|].
  destruct (chart_rows_agree Some sample_history) as (_ & H).
  destruct (H [r0; r1] 1%nat sample_latest r1 E eq_refl eq_refl)
    as (Hc & _ & _).
  apply (Hc [] sample_component []);
    [reflexivity | discriminate | intros d []].
Defined.

(** ** The Files tab *)

Lemma Permutation_List_filter {A : Type} (p : A -> bool) (l l' : list A) :
  Permutation l l' -> Permutation (List.filter p l) (List.filter p l').
Proof.
  induction 1 as [|x l l' H IH|x y l|l l' l'' H1 IH1 H2 IH2].
  - constructor.
  - cbn [List.filter]. destruct (p x); [now constructor | exact IH].
  - cbn [List.filter]. destruct (p x), (p y);
      try reflexivity. apply perm_swap.
  - etransitivity; eauto.
Qed.

Lemma filter_concat {A : Type} (p : A -> bool) (ls : list (list A)) :
  List.filter p (concat ls) = concat (map (List.filter p) ls).
Proof.
  induction ls as [|l ls IH]; [reflexivity|].
  cbn [concat map]. now rewrite List.filter_app, IH.
Qed.

Lemma filter_sublist {A : Type} (p : A -> bool) (l : list A) :
  sublist (List.filter p l) l.
Proof.
  induction l as [|x l IH]; [constructor|].
  cbn [List.filter]. destruct (p x); now constructor.
Qed.

Lemma shown_files_concat (sel : string) (groupedFiles : Buckets) :
  concat (map snd (FilesTab.shown sel groupedFiles))
  = concat (map (fun kv => FilesTab.filesToShow sel (snd kv)) groupedFiles).
Proof.
  unfold FilesTab.shown, FilesTab.render.
  induction groupedFiles as [|[k fs] o IH]; [reflexivity|].
  cbn [map]. rewrite omap_cons_eq.
  unfold FilesTab.renderCategory at 1. cbn [fst snd].
  destruct (FilesTab.filesToShow sel fs) as [|f l].
  - cbn [length Nat.eqb id concat app]. exact IH.
  - cbn [length Nat.eqb id map snd concat]. now rewrite IH.
Qed.

Lemma shown_files_in (sel : string) (groupedFiles : Buckets)
    (k : string) (fs' : list FileInfo) :
  In (k, fs') (FilesTab.shown sel groupedFiles) ->
  fs' <> []
  /\ exists fs, In (k, fs) groupedFiles
                /\ fs' = FilesTab.filesToShow sel fs.
Proof.
  unfold FilesTab.shown, FilesTab.render.
  induction groupedFiles as [|[k0 fs0] o IH]; [intros []|].
  cbn [map]. rewrite omap_cons_eq.
  unfold FilesTab.renderCategory at 1. cbn [fst snd].
  destruct (FilesTab.filesToShow sel fs0) as [|f l] eqn:E.
  - cbn [length Nat.eqb id]. intros H.
    destruct (IH H) as (Hne & fs & Hin & Efs).
    split; [exact Hne|]. exists fs. split; [now right | exact Efs].
  - cbn [length Nat.eqb id]. intros [H|H].
    + injection H as <- <-. split; [discriminate|].
      exists fs0. split; [now left | now rewrite E].
    + destruct (IH H) as (Hne & fs & Hin & Efs).
      split; [exact Hne|]. exists fs. split; [now right | exact Efs].
Qed.

Lemma selected_infos (calc : FileMetrics -> num) (m : gmap string num)
    (sel : string) (comps : list Component) :
  map spread
    (List.filter (fun f => bool_decide (component f = Some sel))
       (flat_map (fun c => map (PageBody.fileInfoOf calc m c) (files c))
                 comps))
  = map Some
      (flat_map files
         (List.filter (fun c => String.eqb (name c) sel) comps)).
Proof.
  induction comps as [|c comps IH]; [reflexivity|].
  cbn [flat_map List.filter].
  rewrite List.filter_app, map_app, IH.
  destruct (String.eqb_spec (name c) sel) as [E|E].
  - cbn [flat_map]. rewrite map_app. f_equal.
    induction (files c) as [|f l IHl]; [reflexivity|].
    cbn [map List.filter PageBody.fileInfoOf component].
    rewrite bool_decide_eq_true_2 by now rewrite E.
    cbn [map spread]. now rewrite <- IHl.
  - replace (List.filter _ (map (PageBody.fileInfoOf calc m c) (files c)))
      with (@nil FileInfo); [reflexivity|].
    induction (files c) as [|f l IHl]; [reflexivity|].
    cbn [map List.filter PageBody.fileInfoOf component].
    rewrite bool_decide_eq_false_2 by congruence. exact IHl.
Qed.

(** X28: with a component selected, the Files tab of the two [CodeHealth]
    pages shows the file entries of the components of that name in the
    latest snapshot, and nothing else: the lists shown, taken together, are
    a rearrangement of those entries. A category without such a file is
    left out, and the files of a category keep the order of their
    bucket. *)
Theorem files_tab_shows_selected_component
    (healthHistory : list HealthHistoryEntry) (latestEntry : HealthHistoryEntry)
    (selectedComponent : string) (buckets : Buckets) :
  latest_of healthHistory = Some latestEntry ->
  selectedComponent <> "" ->
  Page.getFilesGroupedByType healthHistory = Some buckets
  \/ FullPage.getFilesGroupedByType healthHistory = Some buckets ->
  let shown := FilesTab.shown selectedComponent buckets in
  Permutation
    (map spread (concat (map snd shown)))
    (map Some
       (flat_map files
          (List.filter (fun c => String.eqb (name c) selectedComponent)
                       (components (results latestEntry)))))
  /\ forall k fs', In (k, fs') shown ->
       fs' <> []
       /\ (forall fi, In fi fs' -> component fi = Some selectedComponent)
       /\ exists fs, In (k, fs) buckets /\ sublist fs' fs.
Proof.
  intros El Hsel Hg shown. subst shown.
  pose proof (latest_of_Some _ _ El) as Hne.
  assert (Hts : forall fs,
            FilesTab.filesToShow selectedComponent fs
            = List.filter
                (fun f => bool_decide (component f = Some selectedComponent))
                fs).
  { intros fs. unfold FilesTab.filesToShow.
    destruct (String.eqb_spec selectedComponent "") as [E|E];
      [contradiction | reflexivity]. }
  assert (Hb : exists calc cat,
            (forall p, In (cat p) labels)
            /\ buckets
               = sort_buckets (group cat (page_infos calc healthHistory))).
  { destruct Hg as [Hg|Hg].
    - exists Page.calculateFileAvgScore, Page.categorizeFileByPath.
      split; [exact Page_categorize_label|].
      unfold Page.getFilesGroupedByType in Hg.
      rewrite (PageBody_grouped _ _ Page_categorize_label _ Hne) in Hg.
      now apply (inj Some) in Hg.
    - exists FullPage.calculateFileAvgScore, FullPage.categorizeFileByPath.
      split; [exact FullPage_categorize_label|].
      unfold FullPage.getFilesGroupedByType in Hg.
      rewrite (PageBody_grouped _ _ FullPage_categorize_label _ Hne) in Hg.
      now apply (inj Some) in Hg. }
  destruct Hb as (calc & cat & Hcat & ->).
  split.
  - rewrite shown_files_concat.
    rewrite (map_ext _ (fun kv =>
               List.filter
                 (fun f => bool_decide (component f = Some selectedComponent))
                 (snd kv))) by (intros kv; apply Hts).
    rewrite <- (map_map snd (List.filter _)), <- filter_concat.
    rewrite <- (selected_infos calc
                  (PageBody.previousScoresOf calc (previous_of healthHistory))).
    apply Permutation_map, Permutation_List_filter.
    rewrite (sorted_group_members cat _ Hcat).
    unfold page_infos. rewrite El. reflexivity.
  - intros k fs' Hin.
    apply shown_files_in in Hin as (Hne' & fs & Hfs & ->).
    split; [exact Hne'|]. rewrite Hts. split.
    + intros fi Hfi. apply List.filter_In in Hfi as [_ Hfi].
      now apply bool_decide_eq_true_1 in Hfi.
    + exists fs. split; [exact Hfs | apply filter_sublist].
Qed.

Lemma files_tab_shows_selected_component_witness :
  exists buckets,
    Page.getFilesGroupedByType sample_history = Some buckets
    /\ map (fun kv => (fst kv, map info_filepath (snd kv)))
           (FilesTab.shown "UI" buckets)
       = [("Pages", ["ui/pages/B.tsx"; "ui/pages/A.tsx"])]
    /\ FilesTab.shown "API" buckets = [].
Proof.
  destruct (Page.getFilesGroupedByType sample_history) as [buckets|] eqn:E;
    [|vm_compute in E; discriminate].
  exists buckets. split; [reflexivity|].
  destruct (files_tab_shows_selected_component sample_history sample_latest
              "API" buckets eq_refl ltac:(discriminate) (or_introl E))
    as (Hp & _).
  split.
  - vm_compute in E. apply (inj Some) in E. subst buckets.
    vm_compute. reflexivity.
  - change (List.filter (fun c => String.eqb (name c) "API")
                        (components (results sample_latest)))
      with (@nil Component) in Hp.
    cbn [flat_map map] in Hp. apply Permutation_nil_r in Hp.
    destruct (FilesTab.shown "API" buckets) as [|[k fs] l] eqn:Es;
      [reflexivity|].
    exfalso.
    assert (Hin : In (k, fs) (FilesTab.shown "API" buckets))
      by (rewrite Es; now left).
    apply shown_files_in in Hin as (Hne & _).
    cbn [map snd concat] in Hp. destruct fs; [now apply Hne|].
    discriminate.
Defined.

